(** * Talent-Nexus: the multi-platform profile scraper

    A shallow embedding of [server/services/profile_scraper.py] and the
    properties of it that the specification states.

    Modelling conventions.
    - A Python [str] is a [string] whose characters are the code points
      below 256; [lower] and [strip] follow Python on that range.
    - The Playwright browser is an oracle: a record of operations over an
      arbitrary world type [W] and element-handle type [El], each of which
      returns a value or raises and moves the world on.  Every theorem is
      quantified over that record, so it holds for every page and every
      failure the browser can produce.
    - Python locals that are mutated inside [try] blocks live in a [store];
      an exception leaves the mutations done so far in place, as in Python.
    - Every call of a browser operation is appended to a trace, together
      with whether it succeeded.
    - [asyncio.sleep], the random choice of the user agent and the progress
      messages printed by the four pipelines have no effect on any returned
      value and are left out; the two messages of [scrape_profiles] are kept.
    - Only exceptions derived from [Exception] are modelled. *)

From Stdlib Require Import ZArith Ascii String.
From stdpp Require Import base tactics option list strings pretty gmap.

Local Open Scope Z_scope.

(** ** Python string operations *)

Module Py.

Definition code (c : ascii) : nat := nat_of_ascii c.

Definition between (lo hi n : nat) : bool :=
  Nat.leb lo n && Nat.leb n hi.

(** [str.isspace] on one code point below 256. *)
Definition isspace (c : ascii) : bool :=
  let n := code c in
  between 9 13 n || between 28 32 n || Nat.eqb n 133 || Nat.eqb n 160.

(** [str.lower] on one code point below 256. *)
Definition lower_char (c : ascii) : ascii :=
  let n := code c in
  if between 65 90 n || (between 192 222 n && negb (Nat.eqb n 215))
  then ascii_of_nat (n + 32) else c.

Fixpoint lower (s : string) : string :=
  match s with
  | EmptyString => EmptyString
  | String c s' => String (lower_char c) (lower s')
  end.

(** Truth value of a string: [if s]. *)
Definition truthy (s : string) : bool :=
  match s with EmptyString => false | _ => true end.

Fixpoint lstrip (s : string) : string :=
  match s with
  | EmptyString => EmptyString
  | String c s' => if isspace c then lstrip s' else s
  end.

Fixpoint rstrip (s : string) : string :=
  match s with
  | EmptyString => EmptyString
  | String c s' =>
      let r := rstrip s' in
      if isspace c && negb (truthy r) then EmptyString else String c r
  end.

(** [s.strip()] *)
Definition strip (s : string) : string := rstrip (lstrip s).

(** [len(s)] *)
Definition len (s : string) : Z := Z.of_nat (String.length s).

(** [s.startswith(p)] *)
Definition startswith (p s : string) : bool := String.prefix p s.

(** [s.count(c)] for a one-character [c]. *)
Fixpoint count (c : ascii) (s : string) : Z :=
  match s with
  | EmptyString => 0
  | String d s' => (if Ascii.eqb c d then 1 else 0) + count c s'
  end.

(** [sub in s] *)
Fixpoint contains (sub s : string) : bool :=
  String.prefix sub s ||
  match s with
  | EmptyString => false
  | String _ s' => contains sub s'
  end.

(** [s[1:]] *)
Definition tail (s : string) : string :=
  match s with EmptyString => EmptyString | String _ s' => s' end.

(** [s[:n]] for a constant [n >= 0]. *)
Fixpoint take (n : nat) (s : string) : string :=
  match n, s with
  | S k, String c s' => String c (take k s')
  | _, _ => EmptyString
  end.

(** [s.split(c)[0]]: what precedes the first [c]. *)
Fixpoint split_head (c : ascii) (s : string) : string :=
  match s with
  | EmptyString => EmptyString
  | String d s' => if Ascii.eqb c d then EmptyString else String d (split_head c s')
  end.

(** [s.replace(old, "")] for a non-empty [old]: occurrences are removed
    left to right without overlap; [skip] counts the characters of the
    occurrence being removed that are still ahead. *)
Fixpoint remove_from (old : string) (skip : nat) (s : string) : string :=
  match s with
  | EmptyString => EmptyString
  | String c s' =>
      match skip with
      | S k => remove_from old k s'
      | O =>
          if String.prefix old s
          then remove_from old (String.length old - 1) s'
          else String c (remove_from old 0 s')
      end
  end.

Definition remove (old s : string) : string := remove_from old 0 s.

(** [x in l] for a list of strings. *)
Definition mem (x : string) (l : list string) : bool := bool_decide (x ∈ l).

(** [l[:m]]: a negative bound counts from the end. *)
Definition slice_to {A} (l : list A) (m : Z) : list A :=
  if Z.leb 0 m then List.firstn (Z.to_nat m) l
  else List.firstn (length l - Z.to_nat (- m)) l.

(** *** The regular expressions of the scraper *)

(** The class [[a-zA-Z0-9_-]]. *)
Definition is_slug (c : ascii) : bool :=
  let n := code c in
  between 97 122 n || between 65 90 n || between 48 57 n
  || Nat.eqb n 95 || Nat.eqb n 45.

(** [\d] on code points below 256. *)
Definition is_digit (c : ascii) : bool := between 48 57 (code c).

(** Longest prefix of [s] made of characters satisfying [p], and the rest. *)
Fixpoint span (p : ascii -> bool) (s : string) : string * string :=
  match s with
  | EmptyString => (EmptyString, EmptyString)
  | String c s' =>
      if p c then let '(a, b) := span p s' in (String c a, b)
      else (EmptyString, s)
  end.

(** [s] minus the prefix [p], when [s] starts with [p]. *)
Fixpoint drop_prefix (p s : string) : option string :=
  match p, s with
  | EmptyString, _ => Some s
  | String a p', String b s' => if Ascii.eqb a b then drop_prefix p' s' else None
  | String _ _, EmptyString => None
  end.

(** The double quote character. *)
Definition dquote : ascii := ascii_of_nat 34.

(** [v] between double quotes. *)
Definition quoted (v : string) : string :=
  String dquote (v +:+ String dquote EmptyString).

(** [href=] followed by [v] between double quotes. *)
Definition href_attr (v : string) : string :=
  "href=" +:+ String dquote (v +:+ String dquote EmptyString).

(** One attempt at the head of [s] of the pattern: [href=], a double
    quote, the group [LIT[a-zA-Z0-9_-]+], a double quote.  Returns the
    group and the length of the whole match.  The class excludes the
    closing quote, so the greedy run is the only candidate. *)
Definition href_at (lit s : string) : option (string * nat) :=
  match drop_prefix ("href=" +:+ String dquote lit) s with
  | None => None
  | Some rest =>
      match span is_slug rest with
      | (EmptyString, _) => None
      | (run, String q _) =>
          if Ascii.eqb q dquote
          then Some (lit +:+ run, 6 + String.length lit + String.length run + 1)%nat
          else None
      | (_, EmptyString) => None
      end
  end.

(** [re.findall] for that pattern: leftmost matches, not overlapping. *)
Fixpoint findall_from (lit : string) (skip : nat) (s : string) : list string :=
  match s with
  | EmptyString => []
  | String _ s' =>
      match skip with
      | S k => findall_from lit k s'
      | O =>
          match href_at lit s with
          | Some (g, n) => g :: findall_from lit (n - 1) s'
          | None => findall_from lit 0 s'
          end
      end
  end.

Definition findall_href (lit content : string) : list string :=
  findall_from lit 0 content.

(** [/users/\d+/] resp. [/users/\d+$] at the head of [s]; [$] is the end
    of the string or the position before a final line feed. *)
Definition users_id_at (s : string) : bool :=
  match drop_prefix "/users/" s with
  | None => false
  | Some rest =>
      match span is_digit rest with
      | (EmptyString, _) => false
      | (_, EmptyString) => true
      | (_, String c r) =>
          Ascii.eqb c "/" || (Ascii.eqb c "010" && negb (truthy r))
      end
  end.

(** [re.match(r'.*/users/\d+/.*', s) or re.match(r'.*/users/\d+$', s)]:
    the leading [.*] crosses no line feed. *)
Fixpoint is_user_url (s : string) : bool :=
  users_id_at s ||
  match s with
  | EmptyString => false
  | String c s' => if Ascii.eqb c "010" then false else is_user_url s'
  end.

End Py.

Example lower_mixed : Py.lower "GitHub" = "github".
Proof. reflexivity. Qed.

Example strip_both : Py.strip "  Ada Lovelace  " = "Ada Lovelace".
Proof. reflexivity. Qed.

Example strip_blank : Py.strip "   " = "".
Proof. reflexivity. Qed.

Example count_slash : Py.count "/" "/a/b" = 2.
Proof. reflexivity. Qed.

Example slice_to_neg : Py.slice_to [1; 2; 3; 4; 5] (-1) = [1; 2; 3; 4].
Proof. reflexivity. Qed.

Example findall_two :
  Py.findall_href "/"
    ("<a " +:+ Py.href_attr "/ada" +:+ ">x</a><a " +:+ Py.href_attr "/settings"
     +:+ "><a " +:+ Py.href_attr "/a/b" +:+ ">")
  = ["/ada"; "/settings"].
Proof. reflexivity. Qed.

Example remove_prefix_url :
  Py.remove "https://www.behance.net/" "https://www.behance.net/ada" = "ada".
Proof. reflexivity. Qed.

Example user_url_yes : Py.is_user_url "https://stackoverflow.com/users/22656/jon" = true.
Proof. reflexivity. Qed.

Example user_url_no : Py.is_user_url "https://stackoverflow.com/users/signup" = false.
Proof. reflexivity. Qed.

(** ** Values, events and the browser oracle *)

(** An exception, identified by its message. *)
Definition exn : Type := string.

Inductive result (A : Type) : Type :=
| Ok (a : A)
| Raise (e : exn).

Arguments Ok {A} a.
Arguments Raise {A} e.

Definition is_ok {A} (r : result A) : bool :=
  match r with Ok _ => true | Raise _ => false end.

(** The two places of a pipeline that call [browser.close()]: after the
    per-profile loop, and in the handler of the outer [try]. *)
Inductive close_site : Type := AfterLoop | InHandler.

Inductive op : Type :=
| OpStart                               (* entering [async_playwright()] *)
| OpStop                                (* leaving it *)
| OpLaunch
| OpNewContext
| OpNewPage
| OpGoto (url : string)
| OpPress (key : string)
| OpQuerySelectorAll (selector : string)
| OpQuerySelector (selector : string)
| OpGetAttribute (name : string)
| OpInnerText
| OpContent
| OpClose (site : close_site).

Global Instance close_site_eq_dec : EqDecision close_site.
Proof. solve_decision. Defined.

Global Instance op_eq_dec : EqDecision op.
Proof. solve_decision. Defined.

Record event : Type := Event { ev_op : op; ev_ok : bool }.

Global Instance event_eq_dec : EqDecision event.
Proof. solve_decision. Defined.

(** The record every extractor builds.  [source] is absent until the
    pipeline tags the record. *)
Record profile_dict : Type := ProfileDict {
  fullName : string;
  email : string;
  bio : string;
  location : string;
  profileUrl : string;
  skills : list string;
  company : string;
  website : string;
  followers : Z;
  repos : Z;
  source : option string
}.

Definition new_profile (profile_url : string) : profile_dict :=
  {| fullName := ""; email := ""; bio := ""; location := "";
     profileUrl := profile_url; skills := []; company := "";
     website := ""; followers := 0; repos := 0; source := None |}.

Definition set_fullName (v : string) (p : profile_dict) : profile_dict :=
  ProfileDict v (email p) (bio p) (location p) (profileUrl p) (skills p)
    (company p) (website p) (followers p) (repos p) (source p).

Definition set_bio (v : string) (p : profile_dict) : profile_dict :=
  ProfileDict (fullName p) (email p) v (location p) (profileUrl p) (skills p)
    (company p) (website p) (followers p) (repos p) (source p).

Definition set_location (v : string) (p : profile_dict) : profile_dict :=
  ProfileDict (fullName p) (email p) (bio p) v (profileUrl p) (skills p)
    (company p) (website p) (followers p) (repos p) (source p).

Definition set_company (v : string) (p : profile_dict) : profile_dict :=
  ProfileDict (fullName p) (email p) (bio p) (location p) (profileUrl p) (skills p)
    v (website p) (followers p) (repos p) (source p).

Definition append_skill (v : string) (p : profile_dict) : profile_dict :=
  ProfileDict (fullName p) (email p) (bio p) (location p) (profileUrl p)
    (skills p ++ [v]) (company p) (website p) (followers p) (repos p) (source p).

Definition set_source (v : string) (p : profile_dict) : profile_dict :=
  ProfileDict (fullName p) (email p) (bio p) (location p) (profileUrl p) (skills p)
    (company p) (website p) (followers p) (repos p) (Some v).

Section Model.

(** The state of the browser and of the sites it talks to. *)
Variable W : Type.
(** Element handles. *)
Variable El : Type.

(** The Playwright operations the scraper calls.  The waiting strategy
    and the timeout of [goto] are left to the oracle: a navigation that
    times out raises. *)
Record playwright : Type := Playwright {
  pw_start : W -> result unit * W;
  pw_stop : W -> result unit * W;
  pw_launch : list string -> W -> result unit * W;
  pw_new_context : W -> result unit * W;
  pw_new_page : W -> result unit * W;
  pw_goto : string -> W -> result unit * W;
  pw_press : string -> W -> result unit * W;
  pw_query_selector_all : string -> W -> result (list El) * W;
  pw_query_selector : string -> W -> result (option El) * W;
  pw_get_attribute : El -> string -> W -> result (option string) * W;
  pw_inner_text : El -> W -> result string * W;
  pw_content : W -> result string * W;
  pw_close : W -> result unit * W
}.

Variable api : playwright.

(** The outside ([world], [trace], [stderr]) and the local variables of
    the running pipeline and extractor. *)
Record store : Type := Store {
  world : W;
  trace : list event;
  stderr : list string;
  browser : bool;                     (* [None] or the launched browser *)
  profiles : list profile_dict;
  profile_urls : list string;
  scraped : Z;
  profile : profile_dict;
  seen : gset string
}.

Definition set_world (w : W) (e : event) (s : store) : store :=
  Store w (trace s ++ [e]) (stderr s) (browser s) (profiles s)
    (profile_urls s) (scraped s) (profile s) (seen s).

Definition print_stderr (line : string) (s : store) : store :=
  Store (world s) (trace s) (stderr s ++ [line]) (browser s) (profiles s)
    (profile_urls s) (scraped s) (profile s) (seen s).

Definition set_browser (v : bool) (s : store) : store :=
  Store (world s) (trace s) (stderr s) v (profiles s)
    (profile_urls s) (scraped s) (profile s) (seen s).

Definition set_profiles (v : list profile_dict) (s : store) : store :=
  Store (world s) (trace s) (stderr s) (browser s) v
    (profile_urls s) (scraped s) (profile s) (seen s).

Definition set_profile_urls (v : list string) (s : store) : store :=
  Store (world s) (trace s) (stderr s) (browser s) (profiles s)
    v (scraped s) (profile s) (seen s).

Definition set_scraped (v : Z) (s : store) : store :=
  Store (world s) (trace s) (stderr s) (browser s) (profiles s)
    (profile_urls s) v (profile s) (seen s).

Definition set_profile (v : profile_dict) (s : store) : store :=
  Store (world s) (trace s) (stderr s) (browser s) (profiles s)
    (profile_urls s) (scraped s) v (seen s).

Definition set_seen (v : gset string) (s : store) : store :=
  Store (world s) (trace s) (stderr s) (browser s) (profiles s)
    (profile_urls s) (scraped s) (profile s) v.

(** *** The monad of the scraper: state and exceptions *)

Definition M (A : Type) : Type := store -> result A * store.

Global Instance M_ret : MRet M := fun A a s => (Ok a, s).

Global Instance M_bind : MBind M := fun A B f m s =>
  match m s with
  | (Ok a, s') => f a s'
  | (Raise e, s') => (Raise e, s')
  end.

Definition raise {A} (e : exn) : M A := fun s => (Raise e, s).

(** [try: m  except Exception as e: h e].  The handler starts from the
    store the failing block left behind. *)
Definition try_except {A} (m : M A) (h : exn -> M A) : M A := fun s =>
  match m s with
  | (Ok a, s') => (Ok a, s')
  | (Raise e, s') => h e s'
  end.

(** The body of an [async with], once the context is entered: the exit
    runs on both ways out of the body; an exception of the body goes on
    unless the exit raises its own. *)
Definition with_exit {A} (body : M A) (exit : M unit) : M A := fun s =>
  match body s with
  | (Ok a, s') => (exit;; mret a) s'
  | (Raise e, s') => (exit;; raise e) s'
  end.

Definition get {A} (f : store -> A) : M A := fun s => (Ok (f s), s).

Definition modify (f : store -> store) : M unit := fun s => (Ok tt, f s).

(** A call of a browser operation, recorded in the trace. *)
Definition call {A} (o : op) (f : W -> result A * W) : M A := fun s =>
  let '(r, w) := f (world s) in (r, set_world w (Event o (is_ok r)) s).

Inductive flow : Type := Continue | Break.

(** [for x in xs: body x], where the body says whether the loop goes on. *)
Fixpoint for_each {X} (xs : list X) (body : X -> M flow) : M unit :=
  match xs with
  | [] => mret tt
  | x :: xs' =>
      c ← body x;
      match c with
      | Continue => for_each xs' body
      | Break => mret tt
      end
  end.

Definition when (b : bool) (m : M unit) : M unit := if b then m else mret tt.

(** *** The browser calls *)

Definition playwright_enter : M unit := call OpStart (pw_start api).
Definition playwright_exit : M unit := call OpStop (pw_stop api).
Definition chromium_launch (args : list string) : M unit :=
  call OpLaunch (pw_launch api args).
Definition browser_new_context : M unit := call OpNewContext (pw_new_context api).
Definition context_new_page : M unit := call OpNewPage (pw_new_page api).
Definition page_goto (url : string) : M unit := call (OpGoto url) (pw_goto api url).
Definition keyboard_press (key : string) : M unit :=
  call (OpPress key) (pw_press api key).
Definition page_query_selector_all (selector : string) : M (list El) :=
  call (OpQuerySelectorAll selector) (pw_query_selector_all api selector).
Definition page_query_selector (selector : string) : M (option El) :=
  call (OpQuerySelector selector) (pw_query_selector api selector).
Definition get_attribute (el : El) (name : string) : M (option string) :=
  call (OpGetAttribute name) (pw_get_attribute api el name).
Definition inner_text (el : El) : M string := call OpInnerText (pw_inner_text api el).
Definition page_content : M string := call OpContent (pw_content api).
Definition browser_close (site : close_site) : M unit :=
  call (OpClose site) (pw_close api).

(** *** Idioms the source repeats *)

Definition upd_profile (f : profile_dict -> profile_dict) (s : store) : store :=
  set_profile (f (profile s)) s.

(** [profiles.append(p)] *)
Definition append_profile (p : profile_dict) (s : store) : store :=
  set_profiles (profiles s ++ [p]) s.

(** A fallback chain:
    [for sel in sels: try: el = await page.query_selector(sel);
     if el: on_el(el)  except: continue]. *)
Definition first_match (sels : list string) (on_el : El -> M flow) : M unit :=
  for_each sels (fun sel =>
    try_except
      (el ← page_query_selector sel;
       match el with
       | Some h => on_el h
       | None => mret Continue
       end)
      (fun _ => mret Continue)).

(** A single guarded strategy:
    [try: el = await page.query_selector(sel); if el: on_el(el)  except: pass]. *)
Definition try_one (sel : string) (on_el : El -> M unit) : M unit :=
  try_except
    (el ← page_query_selector sel;
     match el with
     | Some h => on_el h
     | None => mret tt
     end)
    (fun _ => mret tt).

(** [if full_url not in profile_urls and full_url not in existing_urls:
     profile_urls.append(full_url)] *)
Definition add_candidate (existing_urls : list string) (full_url : string) : M unit :=
  urls ← get profile_urls;
  when (negb (Py.mem full_url urls) && negb (Py.mem full_url existing_urls))
    (modify (set_profile_urls (urls ++ [full_url]))).

(** [for _ in range(3): await page.keyboard.press('End')] *)
Definition scroll_to_end : M unit :=
  for_each (seq 0 3) (fun _ => keyboard_press "End";; mret Continue).

(** *** GitHub: [extract_github_profile], lines 146-223 *)

Definition github_name_selectors : list string :=
  ["span.p-name"; "[itemprop=" +:+ Py.quoted "name" +:+ "]"; "h1.vcard-names span"].

Definition github_bio_selectors : list string :=
  ["div.p-note"; ".user-profile-bio"; "[data-bio-text]"].

Definition github_location_selectors : list string :=
  ["[itemprop=" +:+ Py.quoted "homeLocation" +:+ "]"; ".p-label";
   "li[itemprop=" +:+ Py.quoted "homeLocation" +:+ "] span"].

Definition github_skills_selector : string :=
  "[itemprop=" +:+ Py.quoted "programmingLanguage" +:+ "], .repo-language-color + span".

Definition github_skills : M unit :=
  try_except
    (lang_els ← page_query_selector_all github_skills_selector;
     modify (set_seen ∅);;
     for_each lang_els (fun el =>
       raw ← inner_text el;
       let skill := Py.strip raw in
       sn ← get seen;
       when (Py.truthy skill && negb (bool_decide (skill ∈ sn)))
         (modify (upd_profile (append_skill skill));;
          modify (set_seen ({[skill]} ∪ sn)));;
       mret Continue))
    (fun _ => mret tt).

Definition extract_github_profile (profile_url : string) : M profile_dict :=
  modify (set_profile (new_profile profile_url));;
  try_except
    (first_match github_name_selectors (fun name_el =>
       raw ← inner_text name_el;
       let text := Py.strip raw in
       if Py.truthy text && (1 <? Py.len text)
       then modify (upd_profile (set_fullName text));; mret Break
       else mret Continue);;
     p ← get profile;
     when (negb (Py.truthy (fullName p)))
       (try_one "span.p-nickname, .vcard-username" (fun username_el =>
          raw ← inner_text username_el;
          modify (upd_profile (set_fullName (Py.strip raw)))));;
     first_match github_bio_selectors (fun bio_el =>
       raw ← inner_text bio_el;
       let text := Py.strip raw in
       if Py.truthy text
       then modify (upd_profile (set_bio (Py.take 500 text)));; mret Break
       else mret Continue);;
     first_match github_location_selectors (fun loc_el =>
       raw ← inner_text loc_el;
       let text := Py.strip raw in
       if Py.truthy text
       then modify (upd_profile (set_location text));; mret Break
       else mret Continue);;
     try_one ("[itemprop=" +:+ Py.quoted "worksFor" +:+ "] span, .p-org") (fun company_el =>
       raw ← inner_text company_el;
       modify (upd_profile (set_company (Py.strip raw))));;
     github_skills)
    (fun _ => mret tt);;
  get profile.

(** *** Behance: [extract_behance_profile], lines 305-361 *)

Definition behance_name_selectors : list string :=
  ["h1"; ".e2e-Profile-userName"; "[class*=" +:+ Py.quoted "userName" +:+ "]";
   ".UserInfo-userName"].

Definition behance_bio_selectors : list string :=
  ["[class*=" +:+ Py.quoted "bio" +:+ "]"; "[class*=" +:+ Py.quoted "headline" +:+ "]";
   ".UserInfo-bio"].

Definition behance_location_selectors : list string :=
  ["[class*=" +:+ Py.quoted "location" +:+ "]";
   "[class*=" +:+ Py.quoted "Location" +:+ "]"; ".UserInfo-location"].

Definition behance_skills_selector : string :=
  "[class*=" +:+ Py.quoted "field" +:+ "], [class*=" +:+ Py.quoted "skill" +:+ "]".

Definition behance_skills : M unit :=
  try_except
    (skill_els ← page_query_selector_all behance_skills_selector;
     for_each (Py.slice_to skill_els 10) (fun el =>
       raw ← inner_text el;
       let skill := Py.strip raw in
       when (Py.truthy skill && (Py.len skill <? 50))
         (modify (upd_profile (append_skill skill)));;
       mret Continue))
    (fun _ => mret tt).

Definition extract_behance_profile (profile_url : string) : M profile_dict :=
  modify (set_profile (new_profile profile_url));;
  try_except
    (first_match behance_name_selectors (fun name_el =>
       raw ← inner_text name_el;
       let text := Py.strip raw in
       if Py.truthy text && (1 <? Py.len text) && (Py.len text <? 100)
       then modify (upd_profile (set_fullName text));; mret Break
       else mret Continue);;
     first_match behance_bio_selectors (fun bio_el =>
       raw ← inner_text bio_el;
       let text := Py.strip raw in
       if Py.truthy text && (10 <? Py.len text) && (Py.len text <? 500)
       then modify (upd_profile (set_bio text));; mret Break
       else mret Continue);;
     first_match behance_location_selectors (fun loc_el =>
       raw ← inner_text loc_el;
       modify (upd_profile (set_location (Py.strip raw)));;
       mret Break);;
     behance_skills)
    (fun _ => mret tt);;
  get profile.

(** *** Stack Overflow: [extract_stackoverflow_profile], lines 430-482 *)

Definition stackoverflow_name_selectors : list string :=
  ["h1"; ".fs-headline2"; "[itemprop=" +:+ Py.quoted "name" +:+ "]"; ".user-card-name"].

Definition stackoverflow_skills_selector : string := ".s-tag, .post-tag, .tag".

Definition stackoverflow_skills : M unit :=
  try_except
    (tag_els ← page_query_selector_all stackoverflow_skills_selector;
     modify (set_seen ∅);;
     for_each (Py.slice_to tag_els 15) (fun el =>
       raw ← inner_text el;
       let tag := Py.strip raw in
       sn ← get seen;
       when (Py.truthy tag && negb (bool_decide (tag ∈ sn)))
         (modify (upd_profile (append_skill tag));;
          modify (set_seen ({[tag]} ∪ sn)));;
       mret Continue))
    (fun _ => mret tt).

Definition extract_stackoverflow_profile (profile_url : string) : M profile_dict :=
  modify (set_profile (new_profile profile_url));;
  try_except
    (first_match stackoverflow_name_selectors (fun name_el =>
       raw ← inner_text name_el;
       let text := Py.strip raw in
       if Py.truthy text && (Py.len text <? 100)
       then modify (upd_profile (set_fullName text));; mret Break
       else mret Continue);;
     try_one ".js-about-me-content, .user-about-me" (fun bio_el =>
       raw ← inner_text bio_el;
       modify (upd_profile (set_bio (Py.take 500 (Py.strip raw)))));;
     try_one ("[itemprop=" +:+ Py.quoted "homeLocation" +:+ "], .user-card-location")
       (fun loc_el =>
          raw ← inner_text loc_el;
          modify (upd_profile (set_location (Py.strip raw))));;
     stackoverflow_skills)
    (fun _ => mret tt);;
  get profile.

(** *** Dev.to: [extract_devto_profile], lines 568-612 *)

Definition devto_name_selectors : list string :=
  ["h1"; ".profile-header__name"; ".crayons-title"; ".profile-details h1"].

Definition devto_bio_selectors : list string :=
  [".profile-header__bio"; ".profile-header__summary"; ".profile-details p"].

Definition extract_devto_profile (profile_url : string) : M profile_dict :=
  modify (set_profile (new_profile profile_url));;
  try_except
    (first_match devto_name_selectors (fun name_el =>
       raw ← inner_text name_el;
       let text := Py.strip raw in
       if Py.truthy text && (1 <? Py.len text) && (Py.len text <? 100)
       then modify (upd_profile (set_fullName text));; mret Break
       else mret Continue);;
     first_match devto_bio_selectors (fun bio_el =>
       raw ← inner_text bio_el;
       let text := Py.strip raw in
       if Py.truthy text && (5 <? Py.len text)
       then modify (upd_profile (set_bio (Py.take 500 text)));; mret Break
       else mret Continue);;
     try_one ("[class*=" +:+ Py.quoted "location" +:+ "]") (fun loc_el =>
       raw ← inner_text loc_el;
       modify (upd_profile (set_location (Py.strip raw)))))
    (fun _ => mret tt);;
  get profile.

(** *** GitHub: [scrape_github_profiles], lines 56-143 *)

Definition github_search_url (query location : string) : string :=
  "https://github.com/search?q=type%3Auser+location%3A" +:+ location +:+ "+"
  +:+ query +:+ "&type=users".

Definition github_selectors : list string :=
  ["a[data-hovercard-type=" +:+ Py.quoted "user" +:+ "]";
   "div[data-testid=" +:+ Py.quoted "results-list" +:+ "] a";
   ".user-list-item a";
   "a.Link--primary"].

Definition github_skip_paths : list string :=
  ["search"; "explore"; "marketplace"; "features"; "pricing";
   "login"; "signup"; "join"; "settings"; "notifications"; "about"].

(** Lines 79-99: the selector strategies. *)
Definition github_selector_pass (existing_urls : list string) : M unit :=
  modify (set_profile_urls []);;
  for_each github_selectors (fun selector =>
    try_except
      (links ← page_query_selector_all selector;
       for_each links (fun link =>
         href ← get_attribute link "href";
         match href with
         | Some h =>
             when (Py.truthy h && Py.startswith "/" h && (Py.count "/" h =? 1))
               (add_candidate existing_urls ("https://github.com" +:+ h))
         | None => mret tt
         end;;
         mret Continue);;
       mret Continue)
      (fun _ => mret Continue)).

(** The filter of lines 108-110 on one match of the regular expression. *)
Definition github_path_ok (m : string) : bool :=
  (Py.count "/" m =? 1)
  && (let path := Py.tail m in
      Py.truthy path && (1 <? Py.len path)
      && negb (Py.mem (Py.lower path) github_skip_paths)).

(** Lines 101-113: the scan of the markup. *)
Definition github_regex_fallback (existing_urls : list string) : M unit :=
  urls ← get profile_urls;
  when (Z.of_nat (length urls) <? 3)
    (content ← page_content;
     for_each (Py.findall_href "/" content) (fun m =>
       when (github_path_ok m)
         (add_candidate existing_urls ("https://github.com" +:+ m));;
       mret Continue)).

(** Lines 117-134: the per-profile loop. *)
Definition github_scrape_loop (max_profiles : Z) : M unit :=
  urls ← get profile_urls;
  for_each (Py.slice_to urls max_profiles) (fun profile_url =>
    try_except
      (page_goto profile_url;;
       p ← extract_github_profile profile_url;
       when (Py.truthy (fullName p))
         (modify (append_profile (set_source "GitHub" p)));;
       mret Continue)
      (fun _ => mret Continue)).

Definition scrape_github_profiles (query location : string) (max_profiles : Z)
    (existing_urls : list string) : M (list profile_dict) :=
  modify (set_profiles []);;
  modify (set_browser false);;
  try_except
    (playwright_enter;;
     with_exit
       (chromium_launch ["--no-sandbox"; "--disable-dev-shm-usage"];;
        modify (set_browser true);;
        browser_new_context;;
        context_new_page;;
        page_goto (github_search_url query location);;
        github_selector_pass existing_urls;;
        github_regex_fallback existing_urls;;
        github_scrape_loop max_profiles;;
        browser_close AfterLoop)
       playwright_exit)
    (fun _ =>
       b ← get browser;
       when b (browser_close InHandler));;
  get profiles.

(** *** Behance: [scrape_behance_profiles], lines 229-302 *)

Definition behance_search_url (query location : string) : string :=
  "https://www.behance.net/search/users?search=" +:+ query +:+ "%20" +:+ location.

Definition behance_skip_paths : list string :=
  ["search"; "galleries"; "joblist"; "adobe"; "features";
   "assets"; "onboarding"; "hire"; "login"; "signup"; "privacy";
   "tos"; "help"; "feedback"; "misc"; "about"; "careers"; "gallery"].

(** The filter of lines 267-269 on one match of the regular expression. *)
Definition behance_path_ok (m : string) : bool :=
  let path :=
    Py.split_head "?" (Py.split_head "/" (Py.remove "https://www.behance.net/" m)) in
  Py.truthy path && (2 <? Py.len path)
  && negb (Py.mem (Py.lower path) behance_skip_paths)
  && negb (Py.startswith "gallery" path).

(** Lines 256-271: every candidate comes from the scan of the markup. *)
Definition behance_discover (existing_urls : list string) : M unit :=
  modify (set_profile_urls []);;
  content ← page_content;
  for_each (Py.findall_href "https://www.behance.net/" content) (fun m =>
    when (behance_path_ok m) (add_candidate existing_urls m);;
    mret Continue).

(** Lines 275-293. *)
Definition behance_scrape_loop (max_profiles : Z) : M unit :=
  modify (set_scraped 0);;
  urls ← get profile_urls;
  for_each urls (fun profile_url =>
    n ← get scraped;
    if max_profiles <=? n then mret Break
    else
      try_except
        (page_goto profile_url;;
         p ← extract_behance_profile profile_url;
         when (Py.truthy (fullName p))
           (modify (append_profile (set_source "Behance" p));;
            modify (fun s => set_scraped (scraped s + 1) s));;
         mret Continue)
        (fun _ => mret Continue)).

Definition scrape_behance_profiles (query location : string) (max_profiles : Z)
    (existing_urls : list string) : M (list profile_dict) :=
  modify (set_profiles []);;
  modify (set_browser false);;
  try_except
    (playwright_enter;;
     with_exit
       (chromium_launch ["--no-sandbox"];;
        modify (set_browser true);;
        browser_new_context;;
        context_new_page;;
        page_goto (behance_search_url query location);;
        scroll_to_end;;
        behance_discover existing_urls;;
        behance_scrape_loop max_profiles;;
        browser_close AfterLoop)
       playwright_exit)
    (fun _ =>
       b ← get browser;
       when b (browser_close InHandler));;
  get profiles.

(** *** Stack Overflow: [scrape_stackoverflow_profiles], lines 367-427 *)

(** Line 384: neither the query nor the location enters the address. *)
Definition stackoverflow_search_url (query location : string) : string :=
  "https://stackoverflow.com/users?tab=reputation&filter=all".

(** Lines 390-400. *)
Definition stackoverflow_discover (existing_urls : list string) : M unit :=
  modify (set_profile_urls []);;
  links ← page_query_selector_all ("a[href*=" +:+ Py.quoted "/users/" +:+ "]");
  for_each links (fun link =>
    href ← get_attribute link "href";
    match href with
    | Some h =>
        when (Py.truthy h && Py.contains "/users/" h)
          (let full_url :=
             if Py.startswith "http" h then h else "https://stackoverflow.com" +:+ h in
           when (Py.is_user_url full_url) (add_candidate existing_urls full_url))
    | None => mret tt
    end;;
    mret Continue).

(** Lines 404-418. *)
Definition stackoverflow_scrape_loop (max_profiles : Z) : M unit :=
  urls ← get profile_urls;
  for_each (Py.slice_to urls max_profiles) (fun profile_url =>
    try_except
      (page_goto profile_url;;
       p ← extract_stackoverflow_profile profile_url;
       when (Py.truthy (fullName p))
         (modify (append_profile (set_source "Stack Overflow" p)));;
       mret Continue)
      (fun _ => mret Continue)).

Definition scrape_stackoverflow_profiles (query location : string) (max_profiles : Z)
    (existing_urls : list string) : M (list profile_dict) :=
  modify (set_profiles []);;
  modify (set_browser false);;
  try_except
    (playwright_enter;;
     with_exit
       (chromium_launch ["--no-sandbox"];;
        modify (set_browser true);;
        browser_new_context;;
        context_new_page;;
        page_goto (stackoverflow_search_url query location);;
        stackoverflow_discover existing_urls;;
        stackoverflow_scrape_loop max_profiles;;
        browser_close AfterLoop)
       playwright_exit)
    (fun _ =>
       b ← get browser;
       when b (browser_close InHandler));;
  get profiles.

(** *** Dev.to: [scrape_devto_profiles], lines 488-565 *)

(** Line 504: the query does not enter the address. *)
Definition devto_search_url (query : string) : string := "https://dev.to/".

Definition devto_skip : list string :=
  ["search"; "top"; "latest"; "settings"; "enter"; "signout";
   "signin"; "notifications"; "reading"; "new"; "tags"; "about";
   "t"; "html"; "css"; "javascript"; "python"; "webdev"; "react"].

(** Lines 512-529. *)
Definition devto_discover (existing_urls : list string) : M unit :=
  modify (set_profile_urls []);;
  author_links ← page_query_selector_all
    ("a[href^=" +:+ Py.quoted "/" +:+ "][class*=" +:+ Py.quoted "author"
     +:+ "], .crayons-story__secondary a");
  for_each author_links (fun link =>
    try_except
      (href ← get_attribute link "href";
       match href with
       | Some h =>
           when (Py.truthy h && Py.startswith "/" h && (Py.count "/" h =? 1))
             (let path := Py.tail h in
              when (Py.truthy path && (2 <? Py.len path)
                    && negb (Py.mem (Py.lower path) devto_skip))
                (add_candidate existing_urls ("https://dev.to" +:+ h)))
       | None => mret tt
       end;;
       mret Continue)
      (fun _ => mret Continue)).

(** Lines 533-556. *)
Definition devto_scrape_loop (max_profiles : Z) : M unit :=
  modify (set_scraped 0);;
  urls ← get profile_urls;
  for_each urls (fun profile_url =>
    n ← get scraped;
    if max_profiles <=? n then mret Break
    else
      try_except
        (page_goto profile_url;;
         profile_check ← page_query_selector
           ".profile-header, .crayons-card--profile, .profile-details";
         match profile_check with
         | None => mret Continue
         | Some _ =>
             p ← extract_devto_profile profile_url;
             when (Py.truthy (fullName p))
               (modify (append_profile (set_source "Dev.to" p));;
                modify (fun s => set_scraped (scraped s + 1) s));;
             mret Continue
         end)
        (fun _ => mret Continue)).

Definition scrape_devto_profiles (query : string) (max_profiles : Z)
    (existing_urls : list string) : M (list profile_dict) :=
  modify (set_profiles []);;
  modify (set_browser false);;
  try_except
    (playwright_enter;;
     with_exit
       (chromium_launch ["--no-sandbox"];;
        modify (set_browser true);;
        browser_new_context;;
        context_new_page;;
        page_goto (devto_search_url query);;
        scroll_to_end;;
        devto_discover existing_urls;;
        devto_scrape_loop max_profiles;;
        browser_close AfterLoop)
       playwright_exit)
    (fun _ =>
       b ← get browser;
       when b (browser_close InHandler));;
  get profiles.

(** *** The dispatcher: [scrape_profiles], lines 29-50 *)

Definition banner (platform query location : string) (max_profiles : Z) : string :=
  "[Scraper] Platform: " +:+ platform +:+ ", Query: " +:+ query
  +:+ ", Location: " +:+ location +:+ ", Max: " +:+ pretty max_profiles.

Definition scrape_profiles (platform query location : string) (max_profiles : Z)
    (existing_urls : list string) : M (list profile_dict) :=
  let platform := Py.lower platform in
  modify (print_stderr (banner platform query location max_profiles));;
  if String.eqb platform "github" then
    scrape_github_profiles query location max_profiles existing_urls
  else if String.eqb platform "behance" then
    scrape_behance_profiles query location max_profiles existing_urls
  else if String.eqb platform "stackoverflow" then
    scrape_stackoverflow_profiles query location max_profiles existing_urls
  else if String.eqb platform "devto" then
    scrape_devto_profiles query max_profiles existing_urls
  else
    modify (print_stderr ("Unknown platform: " +:+ platform));;
    mret [].

End Model.

Arguments set_world {W}.
Arguments print_stderr {W}.
Arguments set_browser {W}.
Arguments set_profiles {W}.
Arguments set_profile_urls {W}.
Arguments set_scraped {W}.
Arguments set_profile {W}.
Arguments set_seen {W}.
Arguments raise {W A}.
Arguments try_except {W A}.
Arguments with_exit {W A}.
Arguments get {W A}.
Arguments modify {W}.
Arguments call {W A}.
Arguments for_each {W X}.
Arguments when {W}.
Arguments playwright_enter {W El}.
Arguments playwright_exit {W El}.
Arguments chromium_launch {W El}.
Arguments browser_new_context {W El}.
Arguments context_new_page {W El}.
Arguments page_goto {W El}.
Arguments keyboard_press {W El}.
Arguments page_query_selector_all {W El}.
Arguments page_query_selector {W El}.
Arguments get_attribute {W El}.
Arguments inner_text {W El}.
Arguments page_content {W El}.
Arguments browser_close {W El}.
Arguments upd_profile {W}.
Arguments append_profile {W}.
Arguments first_match {W El}.
Arguments try_one {W El}.
Arguments add_candidate {W}.
Arguments scroll_to_end {W El}.
Arguments github_skills {W El}.
Arguments extract_github_profile {W El}.
Arguments behance_skills {W El}.
Arguments extract_behance_profile {W El}.
Arguments stackoverflow_skills {W El}.
Arguments extract_stackoverflow_profile {W El}.
Arguments extract_devto_profile {W El}.
Arguments github_selector_pass {W El}.
Arguments github_regex_fallback {W El}.
Arguments github_scrape_loop {W El}.
Arguments scrape_github_profiles {W El}.
Arguments behance_discover {W El}.
Arguments behance_scrape_loop {W El}.
Arguments scrape_behance_profiles {W El}.
Arguments stackoverflow_discover {W El}.
Arguments stackoverflow_scrape_loop {W El}.
Arguments scrape_stackoverflow_profiles {W El}.
Arguments devto_discover {W El}.
Arguments devto_scrape_loop {W El}.
Arguments scrape_devto_profiles {W El}.
Arguments scrape_profiles {W El}.
Arguments pw_start {W El}.
Arguments pw_stop {W El}.
Arguments pw_launch {W El}.
Arguments pw_new_context {W El}.
Arguments pw_new_page {W El}.
Arguments pw_goto {W El}.
Arguments pw_press {W El}.
Arguments pw_query_selector_all {W El}.
Arguments pw_query_selector {W El}.
Arguments pw_get_attribute {W El}.
Arguments pw_inner_text {W El}.
Arguments pw_content {W El}.
Arguments pw_close {W El}.

Arguments Store {W} _ _ _ _ _ _ _ _ _.
Arguments world {W} _.
Arguments trace {W} _.
Arguments stderr {W} _.
Arguments browser {W} _.
Arguments profiles {W} _.
Arguments profile_urls {W} _.
Arguments scraped {W} _.
Arguments profile {W} _.
Arguments seen {W} _.

(** The operations of a trace, in order. *)
Definition ops (t : list event) : list op := ev_op <$> t.

(** The addresses navigated to, in order. *)
Definition gotos (t : list event) : list string :=
  omap (fun e => match ev_op e with OpGoto u => Some u | _ => None end) t.

(** The places from which [browser.close()] was called, in order. *)
Definition closes (t : list event) : list close_site :=
  omap (fun e => match ev_op e with OpClose c => Some c | _ => None end) t.

(** Whether the markup of the page was read. *)
Definition reads_markup (t : list event) : bool :=
  bool_decide (OpContent ∈ ops t).

(** A fresh store over the world [w]: nothing recorded, nothing printed. *)
Definition fresh {W} (w : W) : store W :=
  Store w [] [] false [] [] 0 (new_profile "") ∅.

(** ** A browser over fixed pages, to run the scraper on *)

Module Fixture.

Record element : Type := Element {
  el_href : option string;
  el_text : result string
}.

Record page : Type := Page {
  by_selector : list (string * list element);
  markup : string
}.

Record site : Type := Site {
  launch_ok : bool;
  close_ok : bool;
  pages : list (string * page)
}.

Fixpoint assoc {A} (k : string) (l : list (string * A)) : option A :=
  match l with
  | [] => None
  | (k', v) :: l' => if String.eqb k k' then Some v else assoc k l'
  end.

Definition blank : page := Page [] "".

Definition select (sel : string) (pg : page) : list element :=
  default [] (assoc sel (by_selector pg)).

Definition guarded (ok : bool) (msg : string) (w : page) : result unit * page :=
  if ok then (Ok tt, w) else (Raise msg, w).

(** The world is the page currently loaded. *)
Definition browser_of (st : site) : playwright page element :=
  {| pw_start := fun w => (Ok tt, w);
     pw_stop := fun w => (Ok tt, w);
     pw_launch := fun _ => guarded (launch_ok st) "launch failed";
     pw_new_context := fun w => (Ok tt, w);
     pw_new_page := fun w => (Ok tt, w);
     pw_goto := fun url w =>
       match assoc url (pages st) with
       | Some pg => (Ok tt, pg)
       | None => (Raise "Timeout 20000ms exceeded", w)
       end;
     pw_press := fun _ w => (Ok tt, w);
     pw_query_selector_all := fun sel w => (Ok (select sel w), w);
     pw_query_selector := fun sel w => (Ok (head (select sel w)), w);
     pw_get_attribute := fun el _ w => (Ok (el_href el), w);
     pw_inner_text := fun el w => (el_text el, w);
     pw_content := fun w => (Ok (markup w), w);
     pw_close := guarded (close_ok st) "close failed" |}.

Definition start : store page := fresh blank.

Definition link (href : string) : element := Element (Some href) (Ok href).
Definition text (s : string) : element := Element None (Ok s).

(** A person page on any of the platforms: a heading and some skills. *)
Definition person (name : string) (langs : list string) : page :=
  Page [("h1", [text name]); ("span.p-name", [text name]);
        (".profile-header, .crayons-card--profile, .profile-details", [text name]);
        (github_skills_selector, map text langs);
        (behance_skills_selector, map text langs);
        (stackoverflow_skills_selector, map text langs)] "".

Definition github_listing : page :=
  Page [("a[data-hovercard-type=" +:+ Py.quoted "user" +:+ "]",
         [link "/ada"; link "/ada"; link "/grace"])]
       ("<a " +:+ Py.href_attr "/settings" +:+ "><a " +:+ Py.href_attr "/linus" +:+ ">").

Definition github_site (close_works : bool) : site :=
  Site true close_works
    [(github_search_url "fullstack" "India", github_listing);
     ("https://github.com/ada", person "Ada" ["Coq"; "OCaml"; "Coq"]);
     ("https://github.com/linus", person "Linus" ["C"])].

(** A listing whose first candidate cannot be loaded. *)
Definition github_site_ghost : site :=
  Site true true
    [(github_search_url "fullstack" "India",
      Page [("a[data-hovercard-type=" +:+ Py.quoted "user" +:+ "]",
             [link "/ghost"; link "/ada"; link "/linus"])] "");
     ("https://github.com/ada", person "Ada" ["Coq"]);
     ("https://github.com/linus", person "Linus" ["C"])].

(** Markup made of anchors. *)
Definition anchors (hrefs : list string) : string :=
  fold_right (λ h acc, "<a " +:+ Py.href_attr h +:+ ">" +:+ acc) "" hrefs.

Definition behance_site : site :=
  Site true true
    [(behance_search_url "logo" "Berlin",
      Page [] (anchors ["https://www.behance.net/gallery";
                        "https://www.behance.net/ghost";
                        "https://www.behance.net/ada";
                        "https://www.behance.net/bob"]));
     ("https://www.behance.net/ada", person "Ada" ["UI"; "UI"; "Branding"]);
     ("https://www.behance.net/bob", person "Bob" ["Print"])].

Definition stackoverflow_site : site :=
  Site true true
    [(stackoverflow_search_url "rust" "Oslo",
      Page [("a[href*=" +:+ Py.quoted "/users/" +:+ "]",
             [link "/users/22656/jon-skeet"; link "/users/signup";
              link "https://stackoverflow.com/users/1/jeff"])]
           (anchors ["/users/99/hidden"]));
     ("https://stackoverflow.com/users/22656/jon-skeet",
      person "Jon Skeet" ["c#"; "java"; "c#"])].

Definition devto_site : site :=
  Site true true
    [(devto_search_url "rust",
      Page [("a[href^=" +:+ Py.quoted "/" +:+ "][class*=" +:+ Py.quoted "author"
             +:+ "], .crayons-story__secondary a",
             [link "/ben"; link "/top"; link "/jess"])] "");
     ("https://dev.to/ben", person "Ben" ["ruby"]);
     ("https://dev.to/jess", Page [("h1", [text "Jess"])] "")].

(** A browser that shows one page whatever is asked of it. *)
Definition still (pg : page) : playwright unit element :=
  {| pw_start := fun w => (Ok tt, w);
     pw_stop := fun w => (Ok tt, w);
     pw_launch := fun _ w => (Ok tt, w);
     pw_new_context := fun w => (Ok tt, w);
     pw_new_page := fun w => (Ok tt, w);
     pw_goto := fun _ w => (Ok tt, w);
     pw_press := fun _ w => (Ok tt, w);
     pw_query_selector_all := fun sel w => (Ok (select sel pg), w);
     pw_query_selector := fun sel w => (Ok (head (select sel pg)), w);
     pw_get_attribute := fun el _ w => (Ok (el_href el), w);
     pw_inner_text := fun el w => (el_text el, w);
     pw_content := fun w => (Ok (markup pg), w);
     pw_close := fun w => (Ok tt, w) |}.

(** The text of an element, empty when reading it raises. *)
Definition text_of (el : element) : string :=
  match el_text el with Ok t => t | Raise _ => "" end.

(** A Stack Overflow profile page with a repeated tag, shown still. *)
Definition jon_tags : list string := ["c#"; " java "; "c#"].

Definition jon_page : playwright unit element := still (person "Jon Skeet" jon_tags).

Definition jon_run : result profile_dict * store unit :=
  extract_stackoverflow_profile jon_page "https://stackoverflow.com/users/22656"
    (fresh tt).

Definition jon : profile_dict :=
  match jon_run.1 with Ok p => p | Raise _ => new_profile "" end.

(** The GitHub listing after the selector strategies found two candidates. *)
Definition two_candidates : store page :=
  set_profile_urls ["https://github.com/ada"; "https://github.com/grace"]
    (fresh github_listing).

(** The records of a run, none when it raised. *)
Definition records {W} (run : result (list profile_dict) * store W) : list profile_dict :=
  match run.1 with Ok ps => ps | Raise _ => [] end.

Definition run (st : site) (platform query location : string) (max_profiles : Z)
    (existing_urls : list string) : result (list profile_dict) * store page :=
  scrape_profiles (browser_of st) platform query location max_profiles existing_urls
    start.

End Fixture.

(** ** Reasoning about the monad *)

Section Logic.

Context {W El : Type}.

Implicit Types (s : store W) (R : relation (store W)).

(** [m] moves every store to one related by [R], whether it returns or
    raises. *)
Definition steps R {A} (m : M W A) : Prop := ∀ s, R s (m s).2.

Lemma run_bind {A B} (m : M W A) (f : A → M W B) s :
  (m ≫= f) s = match m s with
               | (Ok a, s') => f a s'
               | (Raise e, s') => (Raise e, s')
               end.
Proof. reflexivity. Qed.

Lemma run_get {A} (f : store W → A) s : get f s = (Ok (f s), s).
Proof. reflexivity. Qed.

Lemma run_modify (f : store W → store W) s : modify f s = (Ok tt, f s).
Proof. reflexivity. Qed.

Lemma run_ret {A} (a : A) s : mret (M:=M W) a s = (Ok a, s).
Proof. reflexivity. Qed.

Lemma steps_ret R `{!Reflexive R} {A} (a : A) : steps R (mret a).
Proof. intros s. reflexivity. Qed.

Lemma steps_get R `{!Reflexive R} {A} (f : store W → A) : steps R (get f).
Proof. intros s. reflexivity. Qed.

Lemma steps_raise R `{!Reflexive R} {A} e : steps R (raise (A:=A) e).
Proof. intros s. reflexivity. Qed.

Lemma steps_modify R f : (∀ s, R s (f s)) → steps R (modify f).
Proof. intros Hf s. apply Hf. Qed.

Lemma steps_call R {A} o (f : W → result A * W) :
  (∀ s b w, R s (set_world w (Event o b) s)) → steps R (call o f).
Proof. intros Hf s. unfold call. destruct (f (world s)) as [r w]. apply Hf. Qed.

Lemma steps_bind R `{!Transitive R} {A B} (m : M W A) (f : A → M W B) :
  steps R m → (∀ a, steps R (f a)) → steps R (m ≫= f).
Proof.
  intros Hm Hf s. unfold mbind, M_bind. specialize (Hm s).
  destruct (m s) as [[a|e] s1]; simpl in *; [|done].
  etrans; [exact Hm | apply Hf].
Qed.

Lemma steps_try R `{!Transitive R} {A} (m : M W A) h :
  steps R m → (∀ e, steps R (h e)) → steps R (try_except m h).
Proof.
  intros Hm Hh s. unfold try_except. specialize (Hm s).
  destruct (m s) as [[a|e] s1]; simpl in *; [done|].
  etrans; [exact Hm | apply Hh].
Qed.

Lemma steps_with_exit R `{!PreOrder R} {A} (body : M W A) exit :
  steps R body → steps R exit → steps R (with_exit body exit).
Proof.
  intros Hb Hx s. unfold with_exit. specialize (Hb s).
  destruct (body s) as [[a|e] s1]; simpl in *;
    (etrans; [exact Hb|]); apply (steps_bind R); auto;
    intros; first [apply steps_ret | apply steps_raise]; apply _.
Qed.

Lemma steps_for_each R `{!PreOrder R} {X} (xs : list X) body :
  (∀ x, steps R (body x)) → steps R (for_each xs body).
Proof.
  intros Hb. induction xs as [|x xs IH]; simpl.
  - apply steps_ret; apply _.
  - apply steps_bind; [apply _ | apply Hb |].
    intros [|]; [exact IH | apply steps_ret; apply _].
Qed.

Lemma steps_when R `{!Reflexive R} b m : steps R m → steps R (when b m).
Proof. intros Hm. destruct b; [exact Hm | by apply steps_ret]. Qed.

Lemma steps_weaken R R' {A} (m : M W A) :
  (∀ s s', R s s' → R' s s') → steps R m → steps R' m.
Proof. intros HR Hm s. apply HR, Hm. Qed.

(** *** The relations stepped along *)

(** A projection of the store is left as it was. *)
Definition keeps {A} (f : store W → A) : relation (store W) :=
  λ s s', f s' = f s.

(** A property of the store survives. *)
Definition preserves (I : store W → Prop) : relation (store W) :=
  λ s s', I s → I s'.

(** The trace grows by calls of operations in the class [P] only. *)
Definition emits (P : op → bool) : relation (store W) :=
  λ s s', ∃ evs, trace s' = trace s ++ evs ∧ Forall (λ e, P (ev_op e) = true) evs.

Definition both R1 R2 : relation (store W) := λ s s', R1 s s' ∧ R2 s s'.

Global Instance keeps_preorder {A} (f : store W → A) : PreOrder (keeps f).
Proof. split; unfold keeps; [done | intros x y z ??; congruence]. Qed.

Global Instance preserves_preorder I : PreOrder (preserves I).
Proof. split; unfold preserves; [intros x; auto | intros x y z ??; auto]. Qed.

Global Instance emits_preorder P : PreOrder (emits P).
Proof.
  split.
  - intros s. exists []. by rewrite app_nil_r.
  - intros x y z (e1 & E1 & H1) (e2 & E2 & H2).
    exists (e1 ++ e2). rewrite E2, E1, app_assoc. split; [done | by apply Forall_app].
Qed.

Global Instance both_preorder R1 R2 `{!PreOrder R1, !PreOrder R2} :
  PreOrder (both R1 R2).
Proof.
  split.
  - intros s. split; reflexivity.
  - intros x y z [??] [??]. split; etrans; eauto.
Qed.

Lemma emits_call P o b w s : P o = true → emits P s (set_world w (Event o b) s).
Proof. intros Ho. exists [Event o b]. split; [done | by constructor]. Qed.

Lemma emits_same P s s' : trace s' = trace s → emits P s s'.
Proof. intros E. exists []. by rewrite app_nil_r. Qed.

Lemma emits_weaken (P Q : op → bool) s s' :
  (∀ o, P o = true → Q o = true) → emits P s s' → emits Q s s'.
Proof.
  intros HPQ (evs & E & Hevs). exists evs. split; [done|].
  eapply Forall_impl; [exact Hevs | naive_solver].
Qed.

End Logic.

Create HintDb scraper.

#[global] Hint Unfold first_match try_one scroll_to_end
  playwright_enter playwright_exit chromium_launch browser_new_context
  context_new_page page_goto keyboard_press page_query_selector_all
  page_query_selector get_attribute inner_text page_content browser_close
  : scraper.

(** Closes a goal [R s s'] where [s'] is [s] after one assignment or one
    recorded call and [R] is built from [keeps] and [emits]. *)
Create HintDb scraper_leaf.

Ltac leaf1 :=
  first [ reflexivity
        | apply emits_call; reflexivity
        | apply emits_same; reflexivity
        | exact (λ x, x)
        | solve [auto with scraper_leaf] ].

Ltac leaf := intros; unfold both, keeps; repeat apply conj; leaf1.

Ltac unfold_monad :=
  unfold mbind, M_bind, mret, M_ret, try_except, with_exit, get, modify, when,
    call, raise in *.

(** Walks through a monadic term; [known] is tried first on every subterm. *)
Ltac steps_go known :=
  repeat first
    [ known
    | match goal with
      | |- steps _ (mret _) => apply steps_ret; apply _
      | |- steps _ (get _) => apply steps_get; apply _
      | |- steps _ (raise _) => apply steps_raise; apply _
      | |- steps _ (_ ≫= _) => apply steps_bind; [apply _ | | intros ?]
      | |- steps _ (try_except _ _) => apply steps_try; [apply _ | | intros ?]
      | |- steps _ (with_exit _ _) => apply steps_with_exit; [apply _ | | ]
      | |- steps _ (for_each _ _) => apply steps_for_each; [apply _ | intros ?]
      | |- steps _ (when _ _) => apply steps_when; [apply _ | ]
      | |- steps _ (modify _) => apply steps_modify; leaf
      | |- steps _ (call _ _) => apply steps_call; leaf
      | |- steps _ (match ?x with _ => _ end) => destruct x eqn:?
      | |- steps _ (let _ := _ in _) => cbv zeta
      | |- steps _ _ => progress autounfold with scraper
      end ].

(** ** The extractors *)

(** Operations an extractor performs on the loaded page. *)
Definition query_op (o : op) : bool :=
  match o with
  | OpQuerySelector _ | OpQuerySelectorAll _ | OpInnerText => true
  | _ => false
  end.

Section Extractors.

Context {W El : Type} (api : playwright W El).

(** What an extractor leaves alone. *)
Definition framed : relation (store W) :=
  both (keeps browser) (both (keeps profiles) (both (keeps profile_urls)
    (both (keeps scraped) (both (keeps stderr) (emits query_op))))).

Definition extracting : relation (store W) :=
  both framed (keeps (λ s, profileUrl (profile s))).

Global Instance framed_preorder : PreOrder framed.
Proof. unfold framed. apply _. Qed.

Global Instance extracting_preorder : PreOrder extracting.
Proof. unfold extracting. apply _. Qed.

(** The shape shared by the four extractors: a fresh record, a guarded body,
    and the record returned whatever happened in the body. *)
Lemma extractor_run (body : M W unit) url s :
  steps extracting body →
  ∃ s', (modify (set_profile (new_profile url));;
         try_except body (λ _, mret tt);;
         get profile) s = (Ok (profile s'), s')
        ∧ profileUrl (profile s') = url ∧ framed s s'.
Proof.
  intros Hb. unfold mbind, M_bind, modify, try_except, get, mret, M_ret.
  specialize (Hb (set_profile (new_profile url) s)).
  destruct (body _) as [[[]|e] s1]; simpl in Hb; destruct Hb as [Hf Hu];
    (eexists; split; [reflexivity|]; split; [exact Hu|]);
    (etrans; [|exact Hf]); unfold framed; leaf.
Qed.

Lemma extractor_final (body : M W unit) url s :
  (modify (set_profile (new_profile url));;
   try_except body (λ _, mret tt);;
   get profile) s
  = (Ok (profile (body (set_profile (new_profile url) s)).2),
     (body (set_profile (new_profile url) s)).2).
Proof.
  unfold_monad. by destruct (body _) as [[[]|e] s1].
Qed.

Ltac extractor_frame :=
  intros; apply extractor_run; unfold extracting, framed;
  autounfold with scraper; steps_go fail.

Lemma extract_github_profile_run url s :
  ∃ s', extract_github_profile api url s = (Ok (profile s'), s')
        ∧ profileUrl (profile s') = url ∧ framed s s'.
Proof. unfold extract_github_profile, github_skills. extractor_frame. Qed.

Lemma extract_behance_profile_run url s :
  ∃ s', extract_behance_profile api url s = (Ok (profile s'), s')
        ∧ profileUrl (profile s') = url ∧ framed s s'.
Proof. unfold extract_behance_profile, behance_skills. extractor_frame. Qed.

Lemma extract_stackoverflow_profile_run url s :
  ∃ s', extract_stackoverflow_profile api url s = (Ok (profile s'), s')
        ∧ profileUrl (profile s') = url ∧ framed s s'.
Proof. unfold extract_stackoverflow_profile, stackoverflow_skills. extractor_frame. Qed.

Lemma extract_devto_profile_run url s :
  ∃ s', extract_devto_profile api url s = (Ok (profile s'), s')
        ∧ profileUrl (profile s') = url ∧ framed s s'.
Proof. unfold extract_devto_profile. extractor_frame. Qed.

End Extractors.

(** ** Sequencing with assertions, and loops that accumulate *)

Section Sequencing.

Context {W El : Type}.

Implicit Types (s : store W) (P Q : store W → Prop).

(** From a store satisfying [P], [m] ends in a store satisfying [Q],
    whether it returns or raises. *)
Definition post P {A} (m : M W A) Q : Prop := ∀ s, P s → Q (m s).2.

Lemma post_bind P Q1 Q {A B} (m : M W A) (f : A → M W B) :
  post P m Q1 → (∀ a, post Q1 (f a) Q) → (∀ s, Q1 s → Q s) → post P (m ≫= f) Q.
Proof.
  intros Hm Hf Hq s HP. unfold mbind, M_bind. specialize (Hm s HP).
  destruct (m s) as [[a|e] s1]; simpl in *; [by apply Hf | by apply Hq].
Qed.

Lemma post_try P Q1 Q {A} (m : M W A) h :
  post P m Q1 → (∀ e, post Q1 (h e) Q) → (∀ s, Q1 s → Q s) → post P (try_except m h) Q.
Proof.
  intros Hm Hh Hq s HP. unfold try_except. specialize (Hm s HP).
  destruct (m s) as [[a|e] s1]; simpl in *; [by apply Hq | by apply Hh].
Qed.

Lemma post_steps R P Q {A} (m : M W A) :
  steps R m → (∀ s s', P s → R s s' → Q s') → post P m Q.
Proof. intros Hm HR s HP. eapply HR; [exact HP | apply Hm]. Qed.

Lemma steps_both R1 R2 {A} (m : M W A) :
  steps R1 m → steps R2 m → steps (both R1 R2) m.
Proof. intros H1 H2 s. split; [apply H1 | apply H2]. Qed.

(** A loop whose effect is described item by item: [Rx x] for the body at
    [x], [Rl xs] for the loop over [xs]; the loop may stop early. *)
Lemma for_each_indexed {X} (Rx : X → relation (store W))
    (Rl : list X → relation (store W)) xs body :
  (∀ s, Rl [] s s) →
  (∀ x xs s s1, Rx x s s1 → Rl (x :: xs) s s1) →
  (∀ x xs s s1 s2, Rx x s s1 → Rl xs s1 s2 → Rl (x :: xs) s s2) →
  (∀ x, steps (Rx x) (body x)) →
  steps (Rl xs) (for_each xs body).
Proof.
  intros Hnil Hstop Hcons Hb. induction xs as [|x xs IH]; intros s; simpl.
  - apply Hnil.
  - unfold mbind, M_bind. specialize (Hb x s).
    destruct (body x s) as [[[|]|e] s1]; simpl in *; eauto.
Qed.

(** A loop whose body always returns [Continue]: every item is visited. *)
Lemma for_each_total {X} (Rx : X → relation (store W))
    (Rl : list X → relation (store W)) xs body :
  (∀ s, Rl [] s s) →
  (∀ x xs s s1 s2, Rx x s s1 → Rl xs s1 s2 → Rl (x :: xs) s s2) →
  (∀ x s, ∃ s', body x s = (Ok Continue, s') ∧ Rx x s s') →
  ∀ s, ∃ s', for_each xs body s = (Ok tt, s') ∧ Rl xs s s'.
Proof.
  intros Hnil Hcons Hb. induction xs as [|x xs IH]; intros s; simpl.
  - eexists; split; [reflexivity | apply Hnil].
  - unfold mbind, M_bind. destruct (Hb x s) as (s1 & -> & H1).
    destruct (IH s1) as (s2 & -> & H2). eauto.
Qed.

End Sequencing.

(** ** The skills field *)

Section Skills.

Context {W El : Type} (api : playwright W El).

Implicit Types (s : store W).

Definition no_skills s : Prop := skills (profile s) = [].

(** Every harvested skill is recorded in [seen], and none twice. *)
Definition seen_covers s : Prop :=
  NoDup (skills (profile s)) ∧ ∀ x, x ∈ skills (profile s) → x ∈ seen s.

(** The page does not change under the extractor: whenever the text of an
    element, or the list matching a selector, is obtained, it is the same. *)
Definition static_text (text_of : El → string) : Prop :=
  ∀ h w, match (pw_inner_text api h w).1 with
         | Ok t => t = text_of h
         | Raise _ => True
         end.

Definition static_elements (sel : string) (els : list El) : Prop :=
  ∀ w, match (pw_query_selector_all api sel w).1 with
       | Ok l => l = els
       | Raise _ => True
       end.

(** The element [el] contributes nothing or its own stripped text. *)
Definition reads_skill (el : El) : relation (store W) := λ s s',
  ∃ δ, skills (profile s') = skills (profile s) ++ δ
       ∧ (δ = [] ∨ ∃ t, (pw_inner_text api el (world s)).1 = Ok t ∧ δ = [Py.strip t]).

(** The elements [els] contribute, in their order, some of their texts. *)
Definition reads_skills (els : list El) : relation (store W) := λ s s',
  ∃ Δ, skills (profile s') = skills (profile s) ++ Δ
       ∧ (length Δ ≤ length els)%nat
       ∧ ∀ text_of, static_text text_of →
           Δ `sublist_of` ((λ h, Py.strip (text_of h)) <$> els).

Lemma reads_skills_nil s : reads_skills [] s s.
Proof. exists []. rewrite app_nil_r. split_and!; [done | done | intros; constructor]. Qed.

Lemma reads_skills_one el els s s1 : reads_skill el s s1 → reads_skills (el :: els) s s1.
Proof.
  intros (δ & E & Hδ). exists δ. split; [done|].
  destruct Hδ as [->|(t & Ht & ->)]; simpl.
  - split; [lia | intros; apply sublist_nil_l].
  - split; [lia|]. intros text_of Hs.
    specialize (Hs el (world s)). rewrite Ht in Hs. subst t.
    apply sublist_skip, sublist_nil_l.
Qed.

Lemma reads_skills_cons el els s s1 s2 :
  reads_skill el s s1 → reads_skills els s1 s2 → reads_skills (el :: els) s s2.
Proof.
  intros (δ & E & Hδ) (Δ & E' & Hlen & Hsub).
  exists (δ ++ Δ). rewrite E', E, app_assoc. split; [done|].
  destruct Hδ as [->|(t & Ht & ->)]; simpl.
  - split; [lia|]. intros text_of Hs. by apply sublist_cons, Hsub.
  - split; [lia|]. intros text_of Hs.
    specialize (Hs el (world s)) as Hel. rewrite Ht in Hel. subst t.
    by apply sublist_skip, Hsub.
Qed.

Lemma reads_skills_take n els s s' :
  reads_skills (take n els) s s' → reads_skills els s s'.
Proof.
  intros (Δ & E & Hlen & Hsub). exists Δ. split; [done|]. split.
  - rewrite length_take in Hlen. lia.
  - intros text_of Hs. etrans; [by apply Hsub|].
    apply fmap_sublist, sublist_take.
Qed.

(** The loop body of lines 212-216 and of lines 471-475. *)
Lemma seen_body_steps el :
  steps (both (preserves seen_covers) (reads_skill el))
    (raw ← inner_text api el;
     let skill := Py.strip raw in
     sn ← get seen;
     when (Py.truthy skill && negb (bool_decide (skill ∈ sn)))
       (modify (upd_profile (append_skill skill));;
        modify (set_seen ({[skill]} ∪ sn)));;
     mret Continue).
Proof.
  intros s. unfold inner_text. unfold_monad.
  destruct (pw_inner_text api el (world s)) as [[raw|e] w] eqn:E; simpl.
  - destruct (Py.truthy (Py.strip raw) && negb (bool_decide (Py.strip raw ∈ seen s)))
      eqn:C; simpl.
    + apply andb_true_iff in C as [_ C]. apply negb_true_iff, bool_decide_eq_false in C.
      split.
      * intros [Hnd Hcov]. split; simpl.
        -- apply NoDup_app. split_and!; [done | | apply NoDup_singleton].
           intros x Hx ->%list_elem_of_singleton. by apply C, Hcov.
        -- intros x [Hx| ->%list_elem_of_singleton]%elem_of_app; set_solver.
      * exists [Py.strip raw]. split; [done|]. right. exists raw. by rewrite E.
    + split; [by intros ?|]. exists []. by rewrite app_nil_r; auto.
  - split; [by intros ?|]. exists []. by rewrite app_nil_r; auto.
Qed.

Lemma seen_loop_steps els :
  steps (both (preserves seen_covers) (reads_skills els))
    (for_each els (λ el,
       raw ← inner_text api el;
       let skill := Py.strip raw in
       sn ← get seen;
       when (Py.truthy skill && negb (bool_decide (skill ∈ sn)))
         (modify (upd_profile (append_skill skill));;
          modify (set_seen ({[skill]} ∪ sn)));;
       mret Continue)).
Proof.
  apply (for_each_indexed
    (λ el, both (preserves seen_covers) (reads_skill el))
    (λ els, both (preserves seen_covers) (reads_skills els))).
  - intros; split; [done | apply reads_skills_nil].
  - intros ???? [??]; split; [done | by apply reads_skills_one].
  - intros ????? [??] [??]; split;
      [unfold preserves in *; auto | by eapply reads_skills_cons].
  - apply seen_body_steps.
Qed.

(** The loop body of lines 352-354. *)
Lemma plain_body_steps el :
  steps (reads_skill el)
    (raw ← inner_text api el;
     let skill := Py.strip raw in
     when (Py.truthy skill && (Py.len skill <? 50))
       (modify (upd_profile (append_skill skill)));;
     mret Continue).
Proof.
  intros s. unfold inner_text. unfold_monad.
  destruct (pw_inner_text api el (world s)) as [[raw|e] w] eqn:E; simpl.
  - destruct (Py.truthy (Py.strip raw) && (Py.len (Py.strip raw) <? 50)); simpl.
    + exists [Py.strip raw]. split; [done|]. right. exists raw. by rewrite E.
    + exists []. by rewrite app_nil_r; auto.
  - exists []. by rewrite app_nil_r; auto.
Qed.

(** What the skills of a record are, relative to the elements [sel] selects. *)
Definition in_page_order (sel : string) s : Prop :=
  ∀ els text_of, static_elements sel els → static_text text_of →
    skills (profile s) `sublist_of` ((λ h, Py.strip (text_of h)) <$> els).

Lemma no_skills_in_page_order sel s : no_skills s → in_page_order sel s.
Proof. intros Hs els text_of _ _. rewrite Hs. apply sublist_nil_l. Qed.

Lemma github_skills_post :
  post no_skills (github_skills api)
    (λ s, NoDup (skills (profile s)) ∧ in_page_order github_skills_selector s).
Proof.
  intros s Hs. cbv beta.
  remember (github_skills api s).2 as sf eqn:Ef.
  unfold github_skills, page_query_selector_all in Ef.
  unfold try_except at 1 in Ef. unfold mbind at 1, M_bind at 1 in Ef.
  unfold call at 1 in Ef.
  destruct (pw_query_selector_all api github_skills_selector (world s))
    as [[els0|e] w] eqn:E.
  - unfold mbind at 1, M_bind at 1, modify at 1 in Ef.
    match type of Ef with context [for_each ?xs ?b ?st] =>
      set (s1 := st) in Ef; set (body := b) in Ef
    end.
    assert (both (preserves seen_covers) (reads_skills els0) s1
              (for_each els0 body s1).2) as [HJ (Δ & HΔ & _ & Hsub)]
      by apply seen_loop_steps.
    assert (sf = (for_each els0 body s1).2) as ->.
    { rewrite Ef. by destruct (for_each els0 body s1) as [[[]|?] ?]. }
    split.
    + apply HJ. split; simpl; rewrite Hs; [constructor | set_solver].
    + intros els text_of Hels Htxt. specialize (Hels (world s)).
      rewrite E in Hels. simpl in Hels. subst els0.
      rewrite HΔ. simpl. rewrite Hs. simpl. by apply Hsub.
  - simpl in Ef. subst sf.
    split; simpl; [rewrite Hs; constructor | by apply no_skills_in_page_order].
Qed.

Lemma stackoverflow_skills_post :
  post no_skills (stackoverflow_skills api)
    (λ s, NoDup (skills (profile s)) ∧ (length (skills (profile s)) ≤ 15)%nat
          ∧ in_page_order stackoverflow_skills_selector s).
Proof.
  intros s Hs. cbv beta.
  remember (stackoverflow_skills api s).2 as sf eqn:Ef.
  unfold stackoverflow_skills, page_query_selector_all in Ef.
  unfold try_except at 1 in Ef. unfold mbind at 1, M_bind at 1 in Ef.
  unfold call at 1 in Ef.
  destruct (pw_query_selector_all api stackoverflow_skills_selector (world s))
    as [[els0|e] w] eqn:E.
  - unfold mbind at 1, M_bind at 1, modify at 1 in Ef.
    match type of Ef with context [for_each ?xs ?b ?st] =>
      set (s1 := st) in Ef; set (body := b) in Ef
    end.
    assert (both (preserves seen_covers) (reads_skills (Py.slice_to els0 15)) s1
              (for_each (Py.slice_to els0 15) body s1).2) as [HJ HR]
      by apply seen_loop_steps.
    assert (sf = (for_each (Py.slice_to els0 15) body s1).2) as ->.
    { rewrite Ef. by destruct (for_each _ body s1) as [[[]|?] ?]. }
    split; [|split].
    + apply HJ. split; simpl; rewrite Hs; [constructor | set_solver].
    + destruct HR as (Δ & HΔ & Hlen & _). rewrite HΔ. simpl. rewrite Hs. simpl.
      etrans; [exact Hlen|]. apply firstn_le_length.
    + apply reads_skills_take in HR as (Δ & HΔ & _ & Hsub).
      intros els text_of Hels Htxt. specialize (Hels (world s)).
      rewrite E in Hels. simpl in Hels. subst els0.
      rewrite HΔ. simpl. rewrite Hs. simpl. by apply Hsub.
  - simpl in Ef. subst sf.
    split_and!; simpl; [rewrite Hs; constructor | rewrite Hs; simpl; lia
                       | by apply no_skills_in_page_order].
Qed.

Lemma behance_skills_post :
  post no_skills (behance_skills api)
    (λ s, (length (skills (profile s)) ≤ 10)%nat
          ∧ in_page_order behance_skills_selector s).
Proof.
  intros s Hs. cbv beta.
  remember (behance_skills api s).2 as sf eqn:Ef.
  unfold behance_skills, page_query_selector_all in Ef.
  unfold try_except at 1 in Ef. unfold mbind at 1, M_bind at 1 in Ef.
  unfold call at 1 in Ef.
  destruct (pw_query_selector_all api behance_skills_selector (world s))
    as [[els0|e] w] eqn:E.
  - match type of Ef with context [for_each ?xs ?b ?st] =>
      set (s1 := st) in Ef; set (body := b) in Ef
    end.
    pose proof (for_each_indexed reads_skill reads_skills (Py.slice_to els0 10) body
      reads_skills_nil reads_skills_one reads_skills_cons plain_body_steps s1) as HR.
    assert (sf = (for_each (Py.slice_to els0 10) body s1).2) as ->.
    { rewrite Ef. by destruct (for_each _ body s1) as [[[]|?] ?]. }
    split.
    + destruct HR as (Δ & HΔ & Hlen & _). rewrite HΔ. simpl. rewrite Hs. simpl.
      etrans; [exact Hlen|]. apply firstn_le_length.
    + apply reads_skills_take in HR as (Δ & HΔ & _ & Hsub).
      intros els text_of Hels Htxt. specialize (Hels (world s)).
      rewrite E in Hels. simpl in Hels. subst els0.
      rewrite HΔ. simpl. rewrite Hs. simpl. by apply Hsub.
  - simpl in Ef. subst sf.
    split; simpl; [rewrite Hs; simpl; lia | by apply no_skills_in_page_order].
Qed.

(** Up to the skills block an extractor leaves the skills empty. *)
Ltac skills_chain final side :=
  repeat first
    [ final
    | apply (post_bind no_skills no_skills);
      [ apply (post_steps (keeps (λ s, skills (profile s))));
        [ autounfold with scraper; steps_go fail
        | unfold keeps, no_skills; intros ???; congruence ]
      | intros ?
      | side ] ].

Lemma extract_github_profile_skills url s p s' :
  extract_github_profile api url s = (Ok p, s') →
  NoDup (skills p)
  ∧ ∀ els text_of, static_elements github_skills_selector els → static_text text_of →
      skills p `sublist_of` ((λ h, Py.strip (text_of h)) <$> els).
Proof.
  unfold extract_github_profile. rewrite extractor_final. intros [= <- _].
  match goal with |- context [(?b ?st).2] =>
    cut (post no_skills b (λ s, NoDup (skills (profile s))
                                ∧ in_page_order github_skills_selector s));
      [intros Hp; by apply (Hp st)|]
  end.
  skills_chain ltac:(apply github_skills_post)
    ltac:(intros ? Hn; split;
          [rewrite Hn; constructor | by apply no_skills_in_page_order]).
Qed.

Lemma extract_stackoverflow_profile_skills url s p s' :
  extract_stackoverflow_profile api url s = (Ok p, s') →
  NoDup (skills p) ∧ (length (skills p) ≤ 15)%nat
  ∧ ∀ els text_of, static_elements stackoverflow_skills_selector els →
      static_text text_of →
      skills p `sublist_of` ((λ h, Py.strip (text_of h)) <$> els).
Proof.
  unfold extract_stackoverflow_profile. rewrite extractor_final. intros [= <- _].
  match goal with |- context [(?b ?st).2] =>
    cut (post no_skills b (λ s, NoDup (skills (profile s))
                                ∧ (length (skills (profile s)) ≤ 15)%nat
                                ∧ in_page_order stackoverflow_skills_selector s));
      [intros Hp; by apply (Hp st)|]
  end.
  skills_chain ltac:(apply stackoverflow_skills_post)
    ltac:(intros ? Hn; split_and!;
          [rewrite Hn; constructor | rewrite Hn; simpl; lia
          | by apply no_skills_in_page_order]).
Qed.

Lemma extract_behance_profile_skills url s p s' :
  extract_behance_profile api url s = (Ok p, s') →
  (length (skills p) ≤ 10)%nat
  ∧ ∀ els text_of, static_elements behance_skills_selector els → static_text text_of →
      skills p `sublist_of` ((λ h, Py.strip (text_of h)) <$> els).
Proof.
  unfold extract_behance_profile. rewrite extractor_final. intros [= <- _].
  match goal with |- context [(?b ?st).2] =>
    cut (post no_skills b (λ s, (length (skills (profile s)) ≤ 10)%nat
                                ∧ in_page_order behance_skills_selector s));
      [intros Hp; by apply (Hp st)|]
  end.
  skills_chain ltac:(apply behance_skills_post)
    ltac:(intros ? Hn; split;
          [rewrite Hn; simpl; lia | by apply no_skills_in_page_order]).
Qed.

(** The Dev.to extractor has no skills block. *)
Lemma extract_devto_profile_skills url s p s' :
  extract_devto_profile api url s = (Ok p, s') → skills p = [].
Proof.
  unfold extract_devto_profile. rewrite extractor_final. intros [= <- _].
  match goal with |- context [(?b ?st).2] =>
    cut (steps (keeps (λ s, skills (profile s))) b);
      [intros Hp; by rewrite (Hp st)|]
  end.
  autounfold with scraper. steps_go fail.
Qed.

End Skills.


(** ** Discovery of candidate addresses *)

(** Operations a discovery block performs on the listing page. *)
Definition discovery_op (o : op) : bool :=
  match o with
  | OpQuerySelectorAll _ | OpGetAttribute _ | OpContent | OpPress _ => true
  | _ => false
  end.

(** Everything but reading the markup. *)
Definition no_markup_op (o : op) : bool :=
  match o with OpContent => false | _ => true end.

Section Discovery.

Context {W El : Type} (api : playwright W El).

Implicit Types (s : store W) (existing_urls : list string).

(** The candidates are pairwise distinct and none is already known. *)
Definition urls_ok existing_urls s : Prop :=
  NoDup (profile_urls s) ∧ ∀ u, u ∈ profile_urls s → u ∉ existing_urls.

Definition discovering existing_urls : relation (store W) :=
  both (keeps browser) (both (keeps profiles) (both (keeps stderr)
    (both (emits discovery_op) (preserves (urls_ok existing_urls))))).

Global Instance discovering_preorder existing_urls : PreOrder (discovering existing_urls).
Proof. unfold discovering. apply _. Qed.

Lemma urls_ok_fresh existing_urls s : urls_ok existing_urls (set_profile_urls [] s).
Proof. split; simpl; [constructor | set_solver]. Qed.

Lemma urls_ok_reset existing_urls s :
  preserves (urls_ok existing_urls) s (set_profile_urls [] s).
Proof. intros _. apply urls_ok_fresh. Qed.

Lemma add_candidate_steps existing_urls u :
  steps (discovering existing_urls) (add_candidate existing_urls u).
Proof.
  intros s. unfold add_candidate, Py.mem. unfold_monad.
  destruct (negb (bool_decide (u ∈ profile_urls s))
            && negb (bool_decide (u ∈ existing_urls))) eqn:C; simpl;
    [|reflexivity].
  apply andb_true_iff in C as [C1 C2].
  apply negb_true_iff, bool_decide_eq_false in C1, C2.
  unfold discovering, both, keeps. repeat apply conj; try leaf1.
  intros [Hnd Hex]. split; simpl.
  - apply NoDup_app. split_and!; [done | | apply NoDup_singleton].
    by intros x Hx ->%list_elem_of_singleton.
  - intros x [Hx| ->%list_elem_of_singleton]%elem_of_app; auto.
Qed.

End Discovery.

#[global] Hint Resolve urls_ok_reset : scraper_leaf.

Section DiscoveryBlocks.

Context {W El : Type} (api : playwright W El).

Implicit Types (s : store W) (existing_urls : list string).

Ltac discovery_frame :=
  unfold discovering; autounfold with scraper;
  steps_go ltac:(apply add_candidate_steps).

Lemma scroll_to_end_steps existing_urls :
  steps (discovering existing_urls) (scroll_to_end api).
Proof. discovery_frame. Qed.

Lemma github_selector_pass_steps existing_urls :
  steps (discovering existing_urls) (github_selector_pass api existing_urls).
Proof. unfold github_selector_pass. discovery_frame. Qed.

Lemma github_regex_fallback_steps existing_urls :
  steps (discovering existing_urls) (github_regex_fallback api existing_urls).
Proof. unfold github_regex_fallback. discovery_frame. Qed.

Lemma behance_discover_steps existing_urls :
  steps (discovering existing_urls) (behance_discover api existing_urls).
Proof. unfold behance_discover. discovery_frame. Qed.

Lemma stackoverflow_discover_steps existing_urls :
  steps (discovering existing_urls) (stackoverflow_discover api existing_urls).
Proof. unfold stackoverflow_discover. discovery_frame. Qed.

Lemma devto_discover_steps existing_urls :
  steps (discovering existing_urls) (devto_discover api existing_urls).
Proof. unfold devto_discover. discovery_frame. Qed.

(** A discovery block starts from an empty list, so it ends with distinct
    unknown candidates whatever the store was. *)
Lemma github_selector_pass_urls existing_urls s :
  urls_ok existing_urls (github_selector_pass api existing_urls s).2.
Proof.
  change (github_selector_pass api existing_urls s)
    with (github_selector_pass api existing_urls (set_profile_urls [] s)).
  apply github_selector_pass_steps, urls_ok_fresh.
Qed.

Lemma behance_discover_urls existing_urls s :
  urls_ok existing_urls (behance_discover api existing_urls s).2.
Proof.
  change (behance_discover api existing_urls s)
    with (behance_discover api existing_urls (set_profile_urls [] s)).
  apply behance_discover_steps, urls_ok_fresh.
Qed.

Lemma stackoverflow_discover_urls existing_urls s :
  urls_ok existing_urls (stackoverflow_discover api existing_urls s).2.
Proof.
  change (stackoverflow_discover api existing_urls s)
    with (stackoverflow_discover api existing_urls (set_profile_urls [] s)).
  apply stackoverflow_discover_steps, urls_ok_fresh.
Qed.

Lemma devto_discover_urls existing_urls s :
  urls_ok existing_urls (devto_discover api existing_urls s).2.
Proof.
  change (devto_discover api existing_urls s)
    with (devto_discover api existing_urls (set_profile_urls [] s)).
  apply devto_discover_steps, urls_ok_fresh.
Qed.

(** *** The scan of the markup *)

(** Every address in [added] was made by [mk] from a match that passes the
    filter [ok], and is not already known. *)
Definition picked (ok : string → bool) (mk : string → string) existing_urls
    (matches added : list string) : Prop :=
  Forall (λ u, ∃ m, m ∈ matches ∧ u = mk m ∧ ok m = true ∧ u ∉ existing_urls) added.

(** The loop over the matches appends picked addresses and calls nothing. *)
Definition picks ok mk existing_urls (matches : list string) : relation (store W) :=
  λ s s', trace s' = trace s
          ∧ ∃ added, profile_urls s' = profile_urls s ++ added
                     ∧ picked ok mk existing_urls matches added.

Lemma picked_mono ok mk existing_urls ms ms' added :
  (∀ m, m ∈ ms → m ∈ ms') →
  picked ok mk existing_urls ms added → picked ok mk existing_urls ms' added.
Proof.
  intros Hsub Hp. eapply Forall_impl; [exact Hp|].
  intros u (m & Hm & ?). exists m. auto.
Qed.

Lemma pick_one ok mk existing_urls m :
  steps (picks ok mk existing_urls [m])
    (when (ok m) (add_candidate existing_urls (mk m));; mret Continue).
Proof.
  intros s. unfold add_candidate, Py.mem. unfold_monad.
  destruct (ok m) eqn:Hok; simpl.
  - destruct (negb (bool_decide (mk m ∈ profile_urls s))
              && negb (bool_decide (mk m ∈ existing_urls))) eqn:C; simpl.
    + apply andb_true_iff in C as [_ C2].
      apply negb_true_iff, bool_decide_eq_false in C2.
      split; [done|]. exists [mk m]. split; [done|].
      constructor; [|constructor]. exists m. set_solver.
    + split; [done|]. exists []. rewrite app_nil_r. split; [done | constructor].
  - split; [done|]. exists []. rewrite app_nil_r. split; [done | constructor].
Qed.

Lemma pick_all ok mk existing_urls ms :
  steps (picks ok mk existing_urls ms)
    (for_each ms (λ m, when (ok m) (add_candidate existing_urls (mk m));; mret Continue)).
Proof.
  apply (for_each_indexed (λ m, picks ok mk existing_urls [m])
           (picks ok mk existing_urls)).
  - intros s. split; [done|]. exists []. rewrite app_nil_r. split; [done | constructor].
  - intros m ms' s s1 (Ht & added & Hu & Hp). split; [done|].
    exists added. split; [done|]. eapply picked_mono; [|exact Hp].
    intros x Hx. rewrite elem_of_cons. rewrite list_elem_of_singleton in Hx. auto.
  - intros m ms' s s1 s2 (Ht & a1 & Hu & Hp) (Ht' & a2 & Hu' & Hp').
    split; [congruence|]. exists (a1 ++ a2). rewrite Hu', Hu, app_assoc.
    split; [done|]. apply Forall_app. split.
    + eapply picked_mono; [|exact Hp].
      intros x Hx. rewrite elem_of_cons. rewrite list_elem_of_singleton in Hx. auto.
    + eapply picked_mono; [|exact Hp'].
      intros x Hx. rewrite elem_of_cons. auto.
  - intros m. apply pick_one.
Qed.

(** Lines 102-113: with three candidates or more the markup is not read and
    nothing changes. *)
Lemma github_regex_fallback_skipped existing_urls s :
  (3 ≤ length (profile_urls s))%nat →
  github_regex_fallback api existing_urls s = (Ok tt, s).
Proof.
  intros Hlen. unfold github_regex_fallback. unfold_monad.
  destruct (Z.ltb_spec (Z.of_nat (length (profile_urls s))) 3); [lia | done].
Qed.

(** With fewer than three the markup is read, once, and what is added
    comes from its matches through the filter. *)
Lemma github_regex_fallback_runs existing_urls s :
  (length (profile_urls s) < 3)%nat →
  let s' := (github_regex_fallback api existing_urls s).2 in
  ∃ added,
    profile_urls s' = profile_urls s ++ added
    ∧ match (pw_content api (world s)).1 with
      | Ok content =>
          trace s' = trace s ++ [Event OpContent true]
          ∧ picked github_path_ok (λ m, "https://github.com" +:+ m) existing_urls
              (Py.findall_href "/" content) added
      | Raise _ => trace s' = trace s ++ [Event OpContent false] ∧ added = []
      end.
Proof.
  intros Hlen. cbv zeta.
  remember (github_regex_fallback api existing_urls s).2 as sf eqn:Ef.
  unfold github_regex_fallback, page_content in Ef.
  unfold mbind at 1, M_bind at 1, get at 1 in Ef.
  destruct (Z.ltb_spec (Z.of_nat (length (profile_urls s))) 3); [|lia].
  unfold when at 1 in Ef. unfold mbind at 1, M_bind at 1, call at 1 in Ef.
  destruct (pw_content api (world s)) as [[content|e] w]; simpl.
  - match type of Ef with context [for_each ?xs ?b ?st] =>
      assert (picks github_path_ok (λ m, "https://github.com" +:+ m) existing_urls
                xs st (for_each xs b st).2) as (Ht & added & Hu & Hp)
        by apply pick_all
    end.
    rewrite <- Ef in Ht, Hu. exists added. rewrite Hu, Ht. done.
  - simpl in Ef. subst sf. exists []. by rewrite app_nil_r.
Qed.

(** Lines 256-271: Behance reads the markup whatever else happened, and
    every candidate comes from its matches through the filter. *)
Lemma behance_discover_runs existing_urls s :
  let s' := (behance_discover api existing_urls s).2 in
  match (pw_content api (world s)).1 with
  | Ok content =>
      trace s' = trace s ++ [Event OpContent true]
      ∧ picked behance_path_ok (λ m, m) existing_urls
          (Py.findall_href "https://www.behance.net/" content) (profile_urls s')
  | Raise _ => trace s' = trace s ++ [Event OpContent false] ∧ profile_urls s' = []
  end.
Proof.
  cbv zeta.
  remember (behance_discover api existing_urls s).2 as sf eqn:Ef.
  unfold behance_discover, page_content in Ef.
  unfold mbind at 1, M_bind at 1, modify at 1 in Ef.
  unfold mbind at 1, M_bind at 1, call at 1 in Ef. simpl in Ef.
  destruct (pw_content api (world s)) as [[content|e] w]; simpl;
    [|by subst sf].
  match type of Ef with context [for_each ?xs ?b ?st] =>
    assert (picks behance_path_ok (λ m, m) existing_urls
              xs st (for_each xs b st).2) as (Ht & added & Hu & Hp)
      by apply pick_all
  end.
  rewrite <- Ef in Ht, Hu. rewrite Hu, Ht. done.
Qed.

End DiscoveryBlocks.

(** ** The per-profile loops *)

(** Operations of the per-profile loop. *)
Definition visit_op (o : op) : bool :=
  match o with
  | OpGoto _ | OpQuerySelector _ | OpQuerySelectorAll _ | OpInnerText => true
  | _ => false
  end.

Lemma gotos_app t1 t2 : gotos (t1 ++ t2) = gotos t1 ++ gotos t2.
Proof. apply omap_app. Qed.

Lemma closes_app t1 t2 : closes (t1 ++ t2) = closes t1 ++ closes t2.
Proof. apply omap_app. Qed.

Lemma gotos_none (P : op → bool) evs :
  (∀ u, P (OpGoto u) = false) →
  Forall (λ e, P (ev_op e) = true) evs → gotos evs = [].
Proof.
  intros HP. induction 1 as [|[o b] evs Ho _ IH]; [done|].
  change (Event o b :: evs) with ([Event o b] ++ evs).
  rewrite gotos_app, IH, app_nil_r. simpl in Ho.
  destruct o; try done. by rewrite HP in Ho.
Qed.

Lemma closes_none (P : op → bool) evs :
  (∀ c, P (OpClose c) = false) →
  Forall (λ e, P (ev_op e) = true) evs → closes evs = [].
Proof.
  intros HP. induction 1 as [|[o b] evs Ho _ IH]; [done|].
  change (Event o b :: evs) with ([Event o b] ++ evs).
  rewrite closes_app, IH, app_nil_r. simpl in Ho.
  destruct o; try done. by rewrite HP in Ho.
Qed.

Section Loops.

Context {W El : Type} (api : playwright W El).

Implicit Types (s : store W).

(** What the attempt on one candidate leaves behind: one navigation, and
    no record or one record for that address with a name. *)
Definition visits (counting : bool) (url : string) : relation (store W) := λ s s',
  browser s' = browser s ∧ stderr s' = stderr s ∧ profile_urls s' = profile_urls s
  ∧ (∃ evs, trace s' = trace s ++ evs ∧ gotos evs = [url]
            ∧ Forall (λ e, visit_op (ev_op e) = true) evs)
  ∧ ∃ ps, profiles s' = profiles s ++ ps
          ∧ (length ps ≤ 1)%nat
          ∧ Forall (λ p, profileUrl p = url ∧ fullName p ≠ "") ps
          ∧ scraped s' = if counting then scraped s + Z.of_nat (length ps)
                         else scraped s.

(** The same for the candidates [urls], attempted in order. *)
Definition visits_all (counting : bool) (urls : list string) : relation (store W) :=
  λ s s',
  browser s' = browser s ∧ stderr s' = stderr s ∧ profile_urls s' = profile_urls s
  ∧ (∃ evs, trace s' = trace s ++ evs ∧ gotos evs = urls
            ∧ Forall (λ e, visit_op (ev_op e) = true) evs)
  ∧ ∃ ps, profiles s' = profiles s ++ ps
          ∧ Forall (λ p, fullName p ≠ "") ps
          ∧ (profileUrl <$> ps) `sublist_of` urls
          ∧ scraped s' = if counting then scraped s + Z.of_nat (length ps)
                         else scraped s.

Lemma visits_all_nil c s : visits_all c [] s s.
Proof.
  split_and!; try done.
  - exists []. by rewrite app_nil_r.
  - exists []. rewrite app_nil_r. split_and!; try done.
    destruct c; simpl; lia.
Qed.

Lemma visits_all_cons c url urls s s1 s2 :
  visits c url s s1 → visits_all c urls s1 s2 → visits_all c (url :: urls) s s2.
Proof.
  intros (Hb & He & Hu & (evs & Ht & Hg & Hv) & ps & Hp & Hlen & Hps & Hsc)
         (Hb' & He' & Hu' & (evs' & Ht' & Hg' & Hv') & ps' & Hp' & Hn' & Hsub' & Hsc').
  split_and!; try congruence.
  - exists (evs ++ evs'). rewrite Ht', Ht, app_assoc, gotos_app, Hg, Hg'.
    split_and!; [done | done | by apply Forall_app].
  - exists (ps ++ ps'). rewrite Hp', Hp, app_assoc. split_and!; [done | | |].
    + apply Forall_app. split; [|done]. eapply Forall_impl; [exact Hps | by intros q [_ ?]].
    + rewrite fmap_app. destruct ps as [|p [|]]; simpl in *; [| |lia].
      * by apply sublist_cons.
      * apply Forall_cons in Hps as [[-> _] _]. by apply sublist_skip.
    + rewrite Hsc', Hsc. destruct c; [|done]. rewrite length_app. lia.
Qed.

Lemma truthy_nonempty x : Py.truthy x = true → x ≠ "".
Proof. by destruct x. Qed.

(** An extractor as the loops use it: it returns the record it built, for
    the address it was given, and touches nothing else. *)
Definition extractor_ok (extract : string → M W profile_dict) : Prop :=
  ∀ url s, ∃ s', extract url s = (Ok (profile s'), s')
                 ∧ profileUrl (profile s') = url ∧ framed s s'.

(** The store after a navigation to [url] and an extraction there. *)
Lemma visited_frame b w url s s2 :
  framed (set_world w (Event (OpGoto url) b) s) s2 →
  browser s2 = browser s ∧ stderr s2 = stderr s ∧ profile_urls s2 = profile_urls s
  ∧ profiles s2 = profiles s ∧ scraped s2 = scraped s
  ∧ ∃ evs, trace s2 = trace s ++ evs ∧ gotos evs = [url]
           ∧ Forall (λ e, visit_op (ev_op e) = true) evs.
Proof.
  intros (Hb & Hp & Hu & Hsc & He & evs & Ht & Hq). split_and!; try done.
  exists (Event (OpGoto url) b :: evs). split_and!.
  - rewrite Ht. simpl. by rewrite <- app_assoc.
  - change (gotos ([Event (OpGoto url) b] ++ evs) = [url]).
    rewrite gotos_app, (gotos_none query_op evs); [reflexivity | done | exact Hq].
  - constructor; [done|]. eapply Forall_impl; [exact Hq|].
    intros [[] ?]; simpl; congruence.
Qed.

Lemma failed_visit c w url s :
  visits c url s (set_world w (Event (OpGoto url) false) s).
Proof.
  split_and!; try done.
  - exists [Event (OpGoto url) false]. split_and!; try done. by repeat constructor.
  - exists []. rewrite app_nil_r. split_and!; try done; [simpl; lia|].
    destruct c; simpl; lia.
Qed.

(** The loop body of lines 119-134 and of lines 406-418. *)
Lemma visit_plain extract tag url s :
  extractor_ok extract →
  ∃ s', try_except
          (page_goto api url;;
           p ← extract url;
           when (Py.truthy (fullName p))
             (modify (append_profile (set_source tag p)));;
           mret Continue)
          (λ _, mret Continue) s = (Ok Continue, s')
        ∧ visits false url s s'.
Proof.
  intros Hx. unfold page_goto. unfold_monad.
  destruct (pw_goto api url (world s)) as [[[]|e] w]; simpl.
  - destruct (Hx url (set_world w (Event (OpGoto url) true) s)) as (s2 & -> & Hurl & Hf).
    apply visited_frame in Hf as (Hb & He & Hu & Hp & Hsc & Hev).
    destruct (Py.truthy (fullName (profile s2))) eqn:Hn; simpl.
    + eexists. split; [reflexivity|]. split_and!; try done.
      exists [set_source tag (profile s2)]. simpl. rewrite Hp.
      split_and!; try done. repeat constructor; [done|].
      by apply truthy_nonempty.
    + eexists. split; [reflexivity|]. split_and!; try done.
      exists []. rewrite app_nil_r. split_and!; try done. simpl; lia.
  - eexists. split; [reflexivity | apply failed_visit].
Qed.

(** The guarded part of the loop body of lines 280-293. *)
Lemma visit_counted extract tag url s :
  extractor_ok extract →
  ∃ s', try_except
          (page_goto api url;;
           p ← extract url;
           when (Py.truthy (fullName p))
             (modify (append_profile (set_source tag p));;
              modify (λ s, set_scraped (scraped s + 1) s));;
           mret Continue)
          (λ _, mret Continue) s = (Ok Continue, s')
        ∧ visits true url s s'.
Proof.
  intros Hx. unfold page_goto. unfold_monad.
  destruct (pw_goto api url (world s)) as [[[]|e] w]; simpl.
  - destruct (Hx url (set_world w (Event (OpGoto url) true) s)) as (s2 & -> & Hurl & Hf).
    apply visited_frame in Hf as (Hb & He & Hu & Hp & Hsc & Hev).
    destruct (Py.truthy (fullName (profile s2))) eqn:Hn; simpl.
    + eexists. split; [reflexivity|]. split_and!; try done.
      exists [set_source tag (profile s2)]. simpl. rewrite Hp, Hsc.
      split_and!; try done. repeat constructor; [done|].
      by apply truthy_nonempty.
    + eexists. split; [reflexivity|]. split_and!; try done.
      exists []. rewrite app_nil_r. split_and!; try done; simpl; lia.
  - eexists. split; [reflexivity | apply failed_visit].
Qed.

(** The guarded part of the loop body of lines 538-556, with its check that
    the page is a profile. *)
Lemma visit_checked extract tag check url s :
  extractor_ok extract →
  ∃ s', try_except
          (page_goto api url;;
           profile_check ← page_query_selector api check;
           match profile_check with
           | None => mret Continue
           | Some _ =>
               p ← extract url;
               when (Py.truthy (fullName p))
                 (modify (append_profile (set_source tag p));;
                  modify (λ s, set_scraped (scraped s + 1) s));;
               mret Continue
           end)
          (λ _, mret Continue) s = (Ok Continue, s')
        ∧ visits true url s s'.
Proof.
  intros Hx. unfold page_goto, page_query_selector. unfold_monad.
  destruct (pw_goto api url (world s)) as [[[]|e] w]; simpl;
    [|eexists; split; [reflexivity | apply failed_visit]].
  set (s1 := set_world w (Event (OpGoto url) true) s).
  assert (Hquiet : ∀ b w', framed s1 (set_world w' (Event (OpQuerySelector check) b) s1))
    by (intros; unfold framed; leaf).
  assert (Hskip : ∀ b w',
    visits true url s (set_world w' (Event (OpQuerySelector check) b) s1)).
  { intros b w'. specialize (Hquiet b w').
    apply visited_frame in Hquiet as (Hb & He & Hu & Hp & Hsc & Hev).
    split_and!; try done. exists []. rewrite app_nil_r.
    split_and!; try done; simpl; lia. }
  destruct (pw_query_selector api check w) as [[[el|]|e] w']; simpl;
    [|eexists; split; [reflexivity | apply Hskip]..].
  destruct (Hx url (set_world w' (Event (OpQuerySelector check) true) s1))
    as (s2 & -> & Hurl & Hf).
  assert (Hf' : framed s1 s2) by (etrans; [apply Hquiet | exact Hf]).
  apply visited_frame in Hf' as (Hb & He & Hu & Hp & Hsc & Hev).
  destruct (Py.truthy (fullName (profile s2))) eqn:Hn; simpl.
  - eexists. split; [reflexivity|]. split_and!; try done.
    exists [set_source tag (profile s2)]. simpl. rewrite Hp, Hsc.
    split_and!; try done. repeat constructor; [done|].
    by apply truthy_nonempty.
  - eexists. split; [reflexivity|]. split_and!; try done.
    exists []. rewrite app_nil_r. split_and!; try done; simpl; lia.
Qed.

Lemma github_extractor_ok : extractor_ok (extract_github_profile api).
Proof. intros url s. apply extract_github_profile_run. Qed.

Lemma behance_extractor_ok : extractor_ok (extract_behance_profile api).
Proof. intros url s. apply extract_behance_profile_run. Qed.

Lemma stackoverflow_extractor_ok : extractor_ok (extract_stackoverflow_profile api).
Proof. intros url s. apply extract_stackoverflow_profile_run. Qed.

Lemma devto_extractor_ok : extractor_ok (extract_devto_profile api).
Proof. intros url s. apply extract_devto_profile_run. Qed.

(** Lines 118-134: every one of the sliced candidates is attempted. *)
Lemma github_scrape_loop_run max s :
  ∃ s', github_scrape_loop api max s = (Ok tt, s')
        ∧ visits_all false (Py.slice_to (profile_urls s) max) s s'.
Proof.
  unfold github_scrape_loop. rewrite run_bind, run_get.
  apply (for_each_total (visits false) (visits_all false)).
  - apply visits_all_nil.
  - apply visits_all_cons.
  - intros url s1. apply visit_plain, github_extractor_ok.
Qed.

(** Lines 405-418. *)
Lemma stackoverflow_scrape_loop_run max s :
  ∃ s', stackoverflow_scrape_loop api max s = (Ok tt, s')
        ∧ visits_all false (Py.slice_to (profile_urls s) max) s s'.
Proof.
  unfold stackoverflow_scrape_loop. rewrite run_bind, run_get.
  apply (for_each_total (visits false) (visits_all false)).
  - apply visits_all_nil.
  - apply visits_all_cons.
  - intros url s1. apply visit_plain, stackoverflow_extractor_ok.
Qed.

(** A loop that stops once [scraped] has reached [max_profiles]: the
    candidates attempted are a prefix of the list, and the loop stops short
    of the end only with the count reached. *)
Lemma counted_loop (attempt : string → M W flow) max_profiles urls s :
  (∀ url s, ∃ s', attempt url s = (Ok Continue, s') ∧ visits true url s s') →
  ∃ s' visited,
    for_each urls (λ url,
      n ← get scraped;
      if max_profiles <=? n then mret Break else attempt url) s = (Ok tt, s')
    ∧ visits_all true visited s s'
    ∧ visited `prefix_of` urls
    ∧ (visited = urls ∨ max_profiles ≤ scraped s')
    ∧ (scraped s ≤ max_profiles → scraped s' ≤ max_profiles).
Proof.
  intros Ha. revert s. induction urls as [|url urls IH]; intros s; simpl.
  - exists s, []. split_and!; auto using visits_all_nil.
  - rewrite run_bind, run_bind, run_get.
    destruct (Z.leb_spec max_profiles (scraped s)) as [Hge|Hlt].
    + rewrite run_ret. exists s, [].
      split_and!; auto using visits_all_nil, prefix_nil.
    + destruct (Ha url s) as (s1 & -> & Hv).
      destruct (IH s1) as (s2 & visited & -> & Hall & Hpre & Hend & Hcap).
      exists s2, (url :: visited). split_and!.
      * done.
      * by eapply visits_all_cons.
      * by apply prefix_cons.
      * destruct Hend as [->|?]; auto.
      * intros _. apply Hcap.
        destruct Hv as (_ & _ & _ & _ & ps & _ & Hlen & _ & ->). lia.
Qed.

(** Lines 276-293. *)
Lemma behance_scrape_loop_run max_profiles s :
  ∃ s' visited,
    behance_scrape_loop api max_profiles s = (Ok tt, s')
    ∧ visits_all true visited (set_scraped 0 s) s'
    ∧ visited `prefix_of` profile_urls s
    ∧ (visited = profile_urls s ∨ max_profiles ≤ scraped s')
    ∧ (0 ≤ max_profiles → scraped s' ≤ max_profiles).
Proof.
  unfold behance_scrape_loop. rewrite run_bind, run_modify, run_bind, run_get.
  apply (counted_loop _ max_profiles (profile_urls s) (set_scraped 0 s)).
  intros url s1. apply visit_counted, behance_extractor_ok.
Qed.

(** Lines 534-556. *)
Lemma devto_scrape_loop_run max_profiles s :
  ∃ s' visited,
    devto_scrape_loop api max_profiles s = (Ok tt, s')
    ∧ visits_all true visited (set_scraped 0 s) s'
    ∧ visited `prefix_of` profile_urls s
    ∧ (visited = profile_urls s ∨ max_profiles ≤ scraped s')
    ∧ (0 ≤ max_profiles → scraped s' ≤ max_profiles).
Proof.
  unfold devto_scrape_loop. rewrite run_bind, run_modify, run_bind, run_get.
  apply (counted_loop _ max_profiles (profile_urls s) (set_scraped 0 s)).
  intros url s1. apply visit_checked, devto_extractor_ok.
Qed.

(** *** What the session needs to know of a loop *)

Definition looped (max_profiles : Z) : relation (store W) := λ s s',
  browser s' = browser s ∧ stderr s' = stderr s
  ∧ (∃ evs, trace s' = trace s ++ evs
            ∧ Forall (λ e, visit_op (ev_op e) = true) evs)
  ∧ ∃ ps, profiles s' = profiles s ++ ps
          ∧ Forall (λ p, fullName p ≠ "") ps
          ∧ (profileUrl <$> ps) `sublist_of` profile_urls s
          ∧ (0 ≤ max_profiles → Z.of_nat (length ps) ≤ max_profiles).

Definition loop_ok (max_profiles : Z) (loop : M W unit) : Prop :=
  ∀ s, ∃ s', loop s = (Ok tt, s') ∧ looped max_profiles s s'.

Lemma prefix_is_sublist {A} (l1 l2 : list A) : l1 `prefix_of` l2 → l1 `sublist_of` l2.
Proof. intros [k ->]. by apply sublist_inserts_r. Qed.

Lemma slice_to_sublist {A} (l : list A) m : Py.slice_to l m `sublist_of` l.
Proof. unfold Py.slice_to. destruct (0 <=? m); apply sublist_take. Qed.

Lemma slice_to_length {A} (l : list A) m :
  0 ≤ m → Z.of_nat (length (Py.slice_to l m)) ≤ m.
Proof.
  intros Hm. unfold Py.slice_to. destruct (Z.leb_spec 0 m); [|lia].
  rewrite length_take. lia.
Qed.

Lemma sliced_looped max_profiles s s' :
  visits_all false (Py.slice_to (profile_urls s) max_profiles) s s' →
  looped max_profiles s s'.
Proof.
  intros (Hb & He & Hu & (evs & Ht & _ & Hv) & ps & Hp & Hn & Hsub & _).
  split_and!; try done; [by exists evs|].
  exists ps. split_and!; try done.
  - etrans; [exact Hsub | apply slice_to_sublist].
  - intros Hm. apply sublist_length in Hsub. rewrite length_fmap in Hsub.
    pose proof (slice_to_length (profile_urls s) max_profiles Hm). lia.
Qed.

Lemma counted_looped max_profiles visited s s' :
  visits_all true visited (set_scraped 0 s) s' →
  visited `prefix_of` profile_urls s →
  (0 ≤ max_profiles → scraped s' ≤ max_profiles) →
  looped max_profiles s s'.
Proof.
  intros (Hb & He & Hu & (evs & Ht & _ & Hv) & ps & Hp & Hn & Hsub & Hsc) Hpre Hcap.
  split_and!; try done; [by exists evs|].
  exists ps. split_and!; try done.
  - etrans; [exact Hsub | by apply prefix_is_sublist].
  - intros Hm. specialize (Hcap Hm). simpl in Hsc. lia.
Qed.

Lemma github_loop_ok max_profiles : loop_ok max_profiles (github_scrape_loop api max_profiles).
Proof.
  intros s. destruct (github_scrape_loop_run max_profiles s) as (s' & -> & Hv).
  exists s'. split; [done | by apply sliced_looped].
Qed.

Lemma stackoverflow_loop_ok max_profiles :
  loop_ok max_profiles (stackoverflow_scrape_loop api max_profiles).
Proof.
  intros s. destruct (stackoverflow_scrape_loop_run max_profiles s) as (s' & -> & Hv).
  exists s'. split; [done | by apply sliced_looped].
Qed.

Lemma behance_loop_ok max_profiles :
  loop_ok max_profiles (behance_scrape_loop api max_profiles).
Proof.
  intros s.
  destruct (behance_scrape_loop_run max_profiles s) as (s' & v & -> & Hv & Hpre & _ & Hcap).
  exists s'. split; [done | by eapply counted_looped].
Qed.

Lemma devto_loop_ok max_profiles :
  loop_ok max_profiles (devto_scrape_loop api max_profiles).
Proof.
  intros s.
  destruct (devto_scrape_loop_run max_profiles s) as (s' & v & -> & Hv & Hpre & _ & Hcap).
  exists s'. split; [done | by eapply counted_looped].
Qed.

End Loops.

(** ** One browser session *)

(** Whether the event [e] is in the trace. *)
Definition occurs (e : event) (t : list event) : bool :=
  existsb (λ e', bool_decide (e' = e)) t.

(** The browser was launched. *)
Definition launched (t : list event) : bool := occurs (Event OpLaunch true) t.

(** The page was opened. *)
Definition page_opened (t : list event) : bool := occurs (Event OpNewPage true) t.

Lemma occurs_app e t1 t2 : occurs e (t1 ++ t2) = occurs e t1 || occurs e t2.
Proof. apply existsb_app. Qed.

Lemma occurs_none (P : op → bool) e evs :
  P (ev_op e) = false →
  Forall (λ e', P (ev_op e') = true) evs → occurs e evs = false.
Proof.
  intros HP. induction 1 as [|e' evs He' _ IH]; [done|].
  simpl. rewrite IH, orb_false_r. apply bool_decide_eq_false.
  intros ->. congruence.
Qed.

Section Session.

Context {W El : Type} (api : playwright W El).

Implicit Types (s : store W).

(** The shape shared by the four pipelines: open a session, load the
    listing, discover, visit, close. *)
Definition session_body (args : list string) (search_url : string)
    (discover loop : M W unit) : M W unit :=
  chromium_launch api args;;
  modify (set_browser true);;
  browser_new_context api;;
  context_new_page api;;
  page_goto api search_url;;
  discover;;
  loop;;
  browser_close api AfterLoop.

Definition session (args : list string) (search_url : string)
    (discover loop : M W unit) : M W (list profile_dict) :=
  modify (set_profiles []);;
  modify (set_browser false);;
  try_except
    (playwright_enter api;;
     with_exit (session_body args search_url discover loop) (playwright_exit api))
    (λ _,
       b ← get browser;
       when b (browser_close api InHandler));;
  get profiles.

(** The records of a result list. *)
Definition records_ok (existing_urls : list string) (max_profiles : Z)
    (ps : list profile_dict) : Prop :=
  Forall (λ p, fullName p ≠ "") ps
  ∧ NoDup (profileUrl <$> ps)
  ∧ Forall (λ p, profileUrl p ∉ existing_urls) ps
  ∧ (0 ≤ max_profiles → Z.of_nat (length ps) ≤ max_profiles).

Lemma records_ok_nil existing_urls max_profiles : records_ok existing_urls max_profiles [].
Proof. split_and!; try constructor. simpl; lia. Qed.

Lemma records_ok_looped existing_urls max_profiles s s' :
  profiles s = [] → urls_ok existing_urls s → looped max_profiles s s' →
  records_ok existing_urls max_profiles (profiles s').
Proof.
  intros Hnil [Hnd Hex] (_ & _ & _ & ps & -> & Hn & Hsub & Hlen).
  rewrite Hnil. simpl. split_and!; try done.
  - by eapply sublist_NoDup.
  - apply Forall_forall. intros p Hp. apply Hex.
    eapply elem_of_sublist; [|exact Hsub]. by apply list_elem_of_fmap_2.
Qed.

(** The guarded part of a session, lines 64-136 of the GitHub pipeline and
    their counterparts: [ended] tells whether the close after the loop was
    reached. *)
Definition body_outcome (existing_urls : list string) (max_profiles : Z)
    (search_url : string) (ended : bool) s (r : result unit) s' : Prop :=
  stderr s' = stderr s
  ∧ records_ok existing_urls max_profiles (profiles s')
  ∧ launched (trace s') = browser s'
  ∧ closes (trace s') = (if ended then [AfterLoop] else [])
  ∧ (ended = true → browser s' = true)
  ∧ (ended = false → is_ok r = false)
  ∧ (if page_opened (trace s') then ∃ rest, gotos (trace s') = search_url :: rest
     else gotos (trace s') = []).

End Session.

Section SessionRuns.

Context {W El : Type} (api : playwright W El).

Implicit Types (s : store W).

(** One recorded call at the head of a sequence, in a hypothesis. *)
Ltac step_call E :=
  rewrite run_bind in E;
  match type of E with
  | context [call ?o ?f ?st] =>
      change (call o f st)
        with (let '(r, w) := f (world st) in (r, set_world w (Event o (is_ok r)) st))
        in E;
      destruct (f (world st)) as [[[]|?e] ?w]
  end; simpl in E.

(** The guarded part stopped at a failed call, in the hypothesis [E]. *)
Ltac stopped_early :=
  match goal with
  | E : (Raise _, _) = (_, _),
    Hla : occurs (Event OpLaunch true) _ = false,
    Hpo : occurs (Event OpNewPage true) _ = false,
    Hcl : closes _ = [], Hgo : gotos _ = [], Hp : profiles _ = [] |- _ =>
      injection E as <- <-; exists false;
      unfold body_outcome, launched, page_opened; simpl;
      rewrite ?occurs_app, ?closes_app, ?gotos_app, ?Hla, ?Hpo, ?Hcl, ?Hgo, ?Hp;
      simpl; split_and!; try done; first [apply records_ok_nil | by exists []]
  end.

Lemma body_run args search_url (discover loop : M W unit) existing_urls max_profiles
    s r s' :
  launched (trace s) = false → page_opened (trace s) = false →
  closes (trace s) = [] → gotos (trace s) = [] →
  profiles s = [] → browser s = false →
  steps (discovering existing_urls) discover →
  (∀ s, is_ok (discover s).1 = true → urls_ok existing_urls (discover s).2) →
  loop_ok max_profiles loop →
  session_body api args search_url discover loop s = (r, s') →
  ∃ ended, body_outcome existing_urls max_profiles search_url ended s r s'.
Proof.
  intros Hla Hpo Hcl Hgo Hp Hb Hd Hu Hl E.
  unfold launched, page_opened in Hla, Hpo.
  unfold session_body, chromium_launch, browser_new_context,
    context_new_page, page_goto, browser_close in E.
  step_call E; [|stopped_early].
  rewrite run_bind, run_modify in E.
  step_call E; [|stopped_early].
  step_call E; [|stopped_early].
  step_call E; [|stopped_early].
  rewrite run_bind in E.
  match type of E with context [discover ?st] => set (s5 := st) in * end.
  pose proof (Hd s5) as (HbD & HpD & HeD & (evsD & HtD & HfD) & _).
  pose proof (Hu s5) as HuD.
  unfold keeps in HbD, HpD, HeD. simpl in HbD, HpD, HeD, HtD.
  rewrite Hp in HpD.
  pose proof (closes_none discovery_op evsD ltac:(done) HfD) as HcD.
  pose proof (gotos_none discovery_op evsD ltac:(done) HfD) as HgD.
  destruct (discover s5) as [[[]|e] sD]; cbn [fst snd] in *; simpl in E.
  2:{ injection E as <- <-. exists false. unfold body_outcome, launched, page_opened.
      rewrite HtD, HeD, HpD, HbD, !occurs_app, !closes_app, !gotos_app, HcD, HgD,
        Hla, Hpo, Hcl, Hgo.
      simpl. split_and!; try done; [apply records_ok_nil | by exists []]. }
  specialize (HuD eq_refl). rewrite run_bind in E.
  destruct (Hl sD) as (sL & EL & HL). rewrite EL in E.
  pose proof (records_ok_looped existing_urls max_profiles sD sL HpD HuD HL) as Hrec.
  destruct HL as (HbL & HeL & (evsL & HtL & HfL) & _).
  pose proof (closes_none visit_op evsL ltac:(done) HfL) as HcL.
  unfold call in E.
  destruct (pw_close api (world sL)) as [rc wc]. injection E as <- <-.
  exists true. unfold body_outcome, launched, page_opened. simpl.
  rewrite HtL, HtD, HeL, HeD, HbL, HbD, !occurs_app, !closes_app, !gotos_app, HcD, HcL,
    HgD, Hla, Hpo, Hcl, Hgo.
  split_and!; try done. simpl. eauto.
Qed.

(** The whole of a session as its caller sees it. *)
Definition session_outcome (existing_urls : list string) (max_profiles : Z)
    (search_url : string) s (r : result (list profile_dict)) s' : Prop :=
  stderr s' = stderr s
  ∧ records_ok existing_urls max_profiles (profiles s')
  ∧ (r = Ok (profiles s')
     ∨ ∃ e, r = Raise e ∧ last (trace s') = Some (Event (OpClose InHandler) false))
  ∧ (if launched (trace s')
     then closes (trace s') ∈ [[AfterLoop]; [InHandler]; [AfterLoop; InHandler]]
     else closes (trace s') = [])
  ∧ (if page_opened (trace s')
     then ∃ rest, gotos (trace s') = search_url :: rest
     else gotos (trace s') = []).

Lemma session_run args search_url (discover loop : M W unit) existing_urls max_profiles
    s r s' :
  trace s = [] →
  steps (discovering existing_urls) discover →
  (∀ s, is_ok (discover s).1 = true → urls_ok existing_urls (discover s).2) →
  loop_ok max_profiles loop →
  session api args search_url discover loop s = (r, s') →
  session_outcome existing_urls max_profiles search_url s r s'.
Proof.
  intros Ht Hd Hu Hl E. unfold session in E.
  rewrite run_bind, run_modify, run_bind, run_modify, run_bind in E.
  unfold try_except in E. rewrite run_bind in E.
  unfold playwright_enter at 1, call at 1 in E. simpl in E.
  destruct (pw_start api (world s)) as [[[]|e0] w0]; simpl in E.
  2:{ rewrite run_get in E. injection E as <- <-.
      unfold session_outcome, launched, page_opened. simpl. rewrite Ht. simpl.
      split_and!; try done; [apply records_ok_nil | by left]. }
  unfold with_exit in E.
  match type of E with context [session_body ?a ?b ?c ?d ?e ?st] =>
    destruct (session_body a b c d e st) as [rB sB] eqn:EB
  end.
  apply (body_run _ _ _ _ existing_urls max_profiles) in EB
    as (ended & HeB & Hrec & Hla & Hcl & Hend & Hraise & Hpg);
    try done; try (simpl; rewrite Ht; reflexivity).
  simpl in HeB.
  assert (Hout : ∀ b w, 
    let s2 := set_world w (Event OpStop b) sB in
    (browser s2 = true ∨ ended = false) → 
    ∀ r' s3, (b' ← get browser; when b' (browser_close api InHandler)) s2 = (r', s3) →
    session_outcome existing_urls max_profiles search_url s
      (match r' with Ok _ => Ok (profiles s3) | Raise e => Raise e end) s3).
  { intros b w s2 Hbr r' s3. rewrite run_bind, run_get.
    unfold when, browser_close, call, mret, M_ret.
    subst s2. simpl. destruct (browser sB) eqn:HbB; simpl.
    - destruct (pw_close api w) as [rc wc]. intros [= <- <-].
      unfold session_outcome, launched, page_opened in *. simpl.
      rewrite !occurs_app, !closes_app, !gotos_app, Hla, Hcl. simpl.
      rewrite !orb_false_r, !app_nil_r.
      split_and!; try done.
      + destruct rc; simpl; [by left | right]. eexists. split; [done|].
        by rewrite last_snoc.
      + destruct ended; simpl; rewrite !elem_of_cons; auto.
    - intros [= <- <-]. destruct Hbr as [Hbr| ->]; [simpl in Hbr; congruence|].
      unfold session_outcome, launched, page_opened in *. simpl.
      rewrite !occurs_app, !closes_app, !gotos_app, Hla, Hcl. simpl.
      rewrite !orb_false_r, !app_nil_r. split_and!; try done. by left. }
  assert (Hbr : ∀ b w, is_ok rB = false ∨ b = false →
    browser (set_world w (Event OpStop b) sB) = true ∨ ended = false).
  { intros b w _. destruct ended; [left; by apply Hend | by right]. }
  assert (Hhandled : ∀ b w, is_ok rB = false ∨ b = false →
    (let (r0, s0) :=
       (get browser ≫= λ b', when b' (browser_close api InHandler))
         (set_world w (Event OpStop b) sB) in
     match r0 with
     | Ok _ => get profiles s0
     | Raise e => (Raise e, s0)
     end) = (r, s') →
    session_outcome existing_urls max_profiles search_url s r s').
  { intros b w Hor. specialize (Hout b w (Hbr b w Hor)).
    destruct ((get browser ≫= _) _) as [r' s3]. specialize (Hout r' s3 eq_refl).
    destruct r'; intros [= <- <-]; exact Hout. }
  unfold playwright_exit in E.
  destruct rB as [[]|eB]; rewrite run_bind in E; unfold call at 1 in E;
    destruct (pw_stop api (world sB)) as [[[]|ex] wx]; simpl in E;
    try (eapply Hhandled; [|exact E]; simpl; auto; fail).
  injection E as <- <-.
  destruct ended; [|by specialize (Hraise eq_refl)].
  specialize (Hend eq_refl).
  unfold session_outcome, launched, page_opened in *. simpl.
  rewrite !occurs_app, !closes_app, !gotos_app, Hla, Hcl, Hend. simpl.
  rewrite !orb_false_r, !app_nil_r.
  split_and!; try done; [by left | rewrite !elem_of_cons; auto].
Qed.

(** *** The four pipelines are sessions *)

Lemma bind_ext {A B} (m : M W A) (f g : A → M W B) s :
  (∀ a s, f a s = g a s) → (m ≫= f) s = (m ≫= g) s.
Proof. intros Hfg. rewrite !run_bind. destruct (m s) as [[a|e] s1]; auto. Qed.

Lemma bind_assoc {A B C} (m : M W A) (f : A → M W B) (g : B → M W C) s :
  (m ≫= λ a, f a ≫= g) s = ((m ≫= f) ≫= g) s.
Proof. rewrite !run_bind. by destruct (m s) as [[a|e] s1]. Qed.

Lemma with_exit_ext {A} (b1 b2 : M W A) exit s :
  (∀ s, b1 s = b2 s) → with_exit b1 exit s = with_exit b2 exit s.
Proof. intros Hb. unfold with_exit. by rewrite Hb. Qed.

Lemma try_except_ext {A} (m1 m2 : M W A) h s :
  (∀ s, m1 s = m2 s) → try_except m1 h s = try_except m2 h s.
Proof. intros Hm. unfold try_except. by rewrite Hm. Qed.

Lemma session_two_stage args search_url (d1 d2 loop : M W unit) s :
  (modify (set_profiles []);;
   modify (set_browser false);;
   try_except
     (playwright_enter api;;
      with_exit
        (chromium_launch api args;;
         modify (set_browser true);;
         browser_new_context api;;
         context_new_page api;;
         page_goto api search_url;;
         d1;;
         d2;;
         loop;;
         browser_close api AfterLoop)
        (playwright_exit api))
     (λ _,
        b ← get browser;
        when b (browser_close api InHandler));;
   get profiles) s
  = session api args search_url (d1;; d2) loop s.
Proof.
  unfold session, session_body.
  do 2 (apply bind_ext; intros _ ?).
  rewrite !(run_bind (try_except _ _)).
  erewrite try_except_ext; [reflexivity|].
  intros ?. apply bind_ext. intros _ ?. apply with_exit_ext. intros ?.
  do 5 (apply bind_ext; intros _ ?). apply bind_assoc.
Qed.

Lemma scrape_github_profiles_session query location max_profiles existing_urls s :
  scrape_github_profiles api query location max_profiles existing_urls s
  = session api ["--no-sandbox"; "--disable-dev-shm-usage"]
      (github_search_url query location)
      (github_selector_pass api existing_urls;; github_regex_fallback api existing_urls)
      (github_scrape_loop api max_profiles) s.
Proof. apply session_two_stage. Qed.

Lemma scrape_behance_profiles_session query location max_profiles existing_urls s :
  scrape_behance_profiles api query location max_profiles existing_urls s
  = session api ["--no-sandbox"] (behance_search_url query location)
      (scroll_to_end api;; behance_discover api existing_urls)
      (behance_scrape_loop api max_profiles) s.
Proof. apply session_two_stage. Qed.

Lemma scrape_stackoverflow_profiles_session query location max_profiles existing_urls s :
  scrape_stackoverflow_profiles api query location max_profiles existing_urls s
  = session api ["--no-sandbox"] (stackoverflow_search_url query location)
      (stackoverflow_discover api existing_urls)
      (stackoverflow_scrape_loop api max_profiles) s.
Proof. reflexivity. Qed.

Lemma scrape_devto_profiles_session query max_profiles existing_urls s :
  scrape_devto_profiles api query max_profiles existing_urls s
  = session api ["--no-sandbox"] (devto_search_url query)
      (scroll_to_end api;; devto_discover api existing_urls)
      (devto_scrape_loop api max_profiles) s.
Proof. apply session_two_stage. Qed.

Lemma discover_seq existing_urls (d1 d2 : M W unit) :
  steps (discovering existing_urls) d1 →
  steps (discovering existing_urls) d2 →
  steps (discovering existing_urls) (d1;; d2).
Proof. intros H1 H2. apply steps_bind; [apply _ | done | by intros _]. Qed.

(** When the second of two blocks starts from an empty list, the pair ends
    with distinct unknown candidates whenever it returns. *)
Lemma discover_then existing_urls (d1 d2 : M W unit) s :
  (∀ s, urls_ok existing_urls (d2 s).2) →
  is_ok ((d1;; d2) s).1 = true → urls_ok existing_urls ((d1;; d2) s).2.
Proof.
  intros H2. rewrite run_bind. destruct (d1 s) as [[[]|e] s1]; simpl; [|done].
  intros _. apply H2.
Qed.

Lemma github_discover_urls existing_urls s :
  urls_ok existing_urls
    ((github_selector_pass api existing_urls;;
      github_regex_fallback api existing_urls) s).2.
Proof.
  rewrite run_bind.
  pose proof (github_selector_pass_urls api existing_urls s) as Hu.
  destruct (github_selector_pass api existing_urls s) as [[[]|e] s1]; simpl in *;
    [|done].
  by apply github_regex_fallback_steps.
Qed.

Lemma scrape_github_profiles_outcome query location max_profiles existing_urls s r s' :
  trace s = [] →
  scrape_github_profiles api query location max_profiles existing_urls s = (r, s') →
  session_outcome existing_urls max_profiles (github_search_url query location) s r s'.
Proof.
  intros Ht. rewrite scrape_github_profiles_session. apply session_run; [done | | |].
  - apply discover_seq;
      [apply github_selector_pass_steps | apply github_regex_fallback_steps].
  - intros s0 _. apply github_discover_urls.
  - apply github_loop_ok.
Qed.

Lemma scrape_behance_profiles_outcome query location max_profiles existing_urls s r s' :
  trace s = [] →
  scrape_behance_profiles api query location max_profiles existing_urls s = (r, s') →
  session_outcome existing_urls max_profiles (behance_search_url query location) s r s'.
Proof.
  intros Ht. rewrite scrape_behance_profiles_session. apply session_run; [done | | |].
  - apply discover_seq; [apply scroll_to_end_steps | apply behance_discover_steps].
  - intros s0. apply discover_then, behance_discover_urls.
  - apply behance_loop_ok.
Qed.

Lemma scrape_stackoverflow_profiles_outcome query location max_profiles existing_urls
    s r s' :
  trace s = [] →
  scrape_stackoverflow_profiles api query location max_profiles existing_urls s = (r, s') →
  session_outcome existing_urls max_profiles (stackoverflow_search_url query location)
    s r s'.
Proof.
  intros Ht. rewrite scrape_stackoverflow_profiles_session.
  apply session_run; [done | | |].
  - apply stackoverflow_discover_steps.
  - intros s0 _. apply stackoverflow_discover_urls.
  - apply stackoverflow_loop_ok.
Qed.

Lemma scrape_devto_profiles_outcome query max_profiles existing_urls s r s' :
  trace s = [] →
  scrape_devto_profiles api query max_profiles existing_urls s = (r, s') →
  session_outcome existing_urls max_profiles (devto_search_url query) s r s'.
Proof.
  intros Ht. rewrite scrape_devto_profiles_session. apply session_run; [done | | |].
  - apply discover_seq; [apply scroll_to_end_steps | apply devto_discover_steps].
  - intros s0. apply discover_then, devto_discover_urls.
  - apply devto_loop_ok.
Qed.

End SessionRuns.

(** ** The dispatcher *)

Definition known_platforms : list string :=
  ["github"; "behance"; "stackoverflow"; "devto"].

(** The address a pipeline loads first. *)
Definition platform_search_url (platform query location : string) : string :=
  if String.eqb platform "github" then github_search_url query location
  else if String.eqb platform "behance" then behance_search_url query location
  else if String.eqb platform "stackoverflow" then stackoverflow_search_url query location
  else devto_search_url query.

Section Dispatch.

Context {W El : Type} (api : playwright W El).

Implicit Types (s : store W).

(** An unrecognised platform: two lines on the error channel, no browser
    call, an empty list. *)
Lemma scrape_profiles_unknown platform query location max_profiles existing_urls s :
  Py.lower platform ∉ known_platforms →
  scrape_profiles api platform query location max_profiles existing_urls s
  = (Ok [],
     print_stderr ("Unknown platform: " +:+ Py.lower platform)
       (print_stderr (banner (Py.lower platform) query location max_profiles) s)).
Proof.
  intros Hp. unfold scrape_profiles. cbv zeta. rewrite run_bind, run_modify.
  unfold known_platforms in Hp. rewrite !not_elem_of_cons in Hp.
  destruct Hp as (H1 & H2 & H3 & H4 & _).
  apply String.eqb_neq in H1, H2, H3, H4. rewrite H1, H2, H3, H4.
  by rewrite run_bind, run_modify.
Qed.

(** A recognised platform: the outcome of its session. *)
Lemma scrape_profiles_known platform query location max_profiles existing_urls s r s' :
  trace s = [] →
  Py.lower platform ∈ known_platforms →
  scrape_profiles api platform query location max_profiles existing_urls s = (r, s') →
  session_outcome existing_urls max_profiles
    (platform_search_url (Py.lower platform) query location)
    (print_stderr (banner (Py.lower platform) query location max_profiles) s) r s'.
Proof.
  intros Ht Hp. unfold scrape_profiles, platform_search_url. cbv zeta.
  rewrite run_bind, run_modify.
  destruct (String.eqb_spec (Py.lower platform) "github");
    [by apply scrape_github_profiles_outcome|].
  destruct (String.eqb_spec (Py.lower platform) "behance");
    [by apply scrape_behance_profiles_outcome|].
  destruct (String.eqb_spec (Py.lower platform) "stackoverflow");
    [by apply scrape_stackoverflow_profiles_outcome|].
  destruct (String.eqb_spec (Py.lower platform) "devto");
    [by apply scrape_devto_profiles_outcome|].
  unfold known_platforms in Hp. rewrite !elem_of_cons, elem_of_nil in Hp. tauto.
Qed.

(** The call returns the list it accumulated, unless the close in the
    handler raised. *)
Definition returns_profiles (r : result (list profile_dict)) s' : Prop :=
  r = Ok (profiles s')
  ∨ ∃ e, r = Raise e ∧ last (trace s') = Some (Event (OpClose InHandler) false).

(** Whatever the platform, the accumulated records are in order and are
    what the call returns. *)
Lemma scrape_profiles_records platform query location max_profiles existing_urls w r s' :
  scrape_profiles api platform query location max_profiles existing_urls (fresh w)
  = (r, s') →
  records_ok existing_urls max_profiles (profiles s') ∧ returns_profiles r s'.
Proof.
  intros E.
  destruct (decide (Py.lower platform ∈ known_platforms)) as [Hp|Hp].
  - by apply scrape_profiles_known in E as (_ & Hrec & Hret & _).
  - rewrite scrape_profiles_unknown in E by done. injection E as <- <-.
    split; [apply records_ok_nil | by left].
Qed.

End Dispatch.

(** ** The properties the specification states *)

(** *** The caller never sees an exception (C1) *)

(** C1 (fails on the code): the top-level scrape is claimed never to raise,
    also when the close in the fatal-error handler fails.  On GitHub, with a
    search page that cannot be loaded and a browser whose close raises, the
    exception of line 141 reaches the caller of [scrape_profiles]. *)
Theorem scrape_profiles_raises_when_cleanup_fails :
  (Fixture.run (Fixture.github_site false) "github" "full" "India" 5 []).1
  = Raise "close failed"
  ∧ closes (trace (Fixture.run (Fixture.github_site false) "github" "full" "India" 5 []).2)
    = [InHandler].
Proof. split; vm_compute; reflexivity. Qed.

(** *** The cap on the number of records (C2) *)

(** C2: for a non-negative [max_profiles], on every platform, the list of
    records has at most [max_profiles] elements; it is the list returned
    whenever the call returns. *)
Theorem result_length_at_most_max {W El} (api : playwright W El)
    platform query location max_profiles existing_urls w r s' :
  0 ≤ max_profiles →
  scrape_profiles api platform query location max_profiles existing_urls (fresh w)
  = (r, s') →
  Z.of_nat (length (profiles s')) ≤ max_profiles ∧ returns_profiles r s'.
Proof.
  intros Hmax E. apply scrape_profiles_records in E as ((_ & _ & _ & Hlen) & Hret).
  auto.
Qed.

Lemma result_length_at_most_max_witness :
  0 ≤ 1
  ∧ Z.of_nat (length (profiles
      (Fixture.run (Fixture.github_site true) "GitHub" "fullstack" "India" 1 []).2)) ≤ 1
  ∧ returns_profiles
      (Fixture.run (Fixture.github_site true) "GitHub" "fullstack" "India" 1 []).1
      (Fixture.run (Fixture.github_site true) "GitHub" "fullstack" "India" 1 []).2.
Proof.
  split; [lia|].
  apply (result_length_at_most_max (Fixture.browser_of (Fixture.github_site true))
           "GitHub" "fullstack" "India" 1 [] Fixture.blank);
    [lia | vm_compute; reflexivity].
Defined.

(** *** Distinct addresses, none already known (C3) *)

(** C3: no two records of the list have the same [profileUrl], and no
    [profileUrl] is one of [existing_urls]; the list is the one returned
    whenever the call returns. *)
Theorem result_urls_distinct_and_new {W El} (api : playwright W El)
    platform query location max_profiles existing_urls w r s' :
  scrape_profiles api platform query location max_profiles existing_urls (fresh w)
  = (r, s') →
  NoDup (profileUrl <$> profiles s')
  ∧ Forall (λ p, profileUrl p ∉ existing_urls) (profiles s')
  ∧ returns_profiles r s'.
Proof.
  intros E. apply scrape_profiles_records in E as ((_ & Hnd & Hex & _) & Hret). auto.
Qed.

Lemma result_urls_distinct_and_new_witness :
  NoDup (profileUrl <$> profiles
    (Fixture.run (Fixture.github_site true) "github" "fullstack" "India" 5
       ["https://github.com/ada"]).2)
  ∧ Forall (λ p, profileUrl p ∉ ["https://github.com/ada"])
      (profiles
         (Fixture.run (Fixture.github_site true) "github" "fullstack" "India" 5
            ["https://github.com/ada"]).2)
  ∧ returns_profiles
      (Fixture.run (Fixture.github_site true) "github" "fullstack" "India" 5
         ["https://github.com/ada"]).1
      (Fixture.run (Fixture.github_site true) "github" "fullstack" "India" 5
         ["https://github.com/ada"]).2.
Proof.
  apply (result_urls_distinct_and_new (Fixture.browser_of (Fixture.github_site true))
           "github" "fullstack" "India" 5 ["https://github.com/ada"] Fixture.blank).
  vm_compute; reflexivity.
Defined.

(** *** Every record has a name (C4) *)

(** C4: every record of the list has a non-empty [fullName], so a record
    whose name is still empty after extraction is not in it; the list is the
    one returned whenever the call returns. *)
Theorem result_names_nonempty {W El} (api : playwright W El)
    platform query location max_profiles existing_urls w r s' :
  scrape_profiles api platform query location max_profiles existing_urls (fresh w)
  = (r, s') →
  Forall (λ p, fullName p ≠ "") (profiles s') ∧ returns_profiles r s'.
Proof.
  intros E. apply scrape_profiles_records in E as ((Hn & _) & Hret). auto.
Qed.

Lemma result_names_nonempty_witness :
  Forall (λ p, fullName p ≠ "")
    (profiles (Fixture.run Fixture.devto_site "devto" "rust" "Oslo" 5 []).2)
  ∧ returns_profiles
      (Fixture.run Fixture.devto_site "devto" "rust" "Oslo" 5 []).1
      (Fixture.run Fixture.devto_site "devto" "rust" "Oslo" 5 []).2.
Proof.
  apply (result_names_nonempty (Fixture.browser_of Fixture.devto_site)
           "devto" "rust" "Oslo" 5 [] Fixture.blank).
  vm_compute; reflexivity.
Defined.

(** *** Closing the browser (C5) *)

(** The claim as the specification words it: whenever the browser was
    launched, it is closed from one and the same place. *)
Definition closes_at_one_site : Prop :=
  ∃ site, ∀ W El (api : playwright W El) platform query location max_profiles
            existing_urls w,
    let s' := (scrape_profiles api platform query location max_profiles
                 existing_urls (fresh w)).2 in
    launched (trace s') = true → closes (trace s') = [site].

(** C5 (fails on the code): a run that completes closes the browser after
    the loop, a run whose search page cannot be loaded closes it in the
    handler, and a run whose first close raises closes it twice. *)
Lemma closes_at_two_sites : ¬ closes_at_one_site.
Proof.
  intros [site Hsite].
  pose proof (Hsite _ _ (Fixture.browser_of (Fixture.github_site true))
                "github" "fullstack" "India" 5 [] Fixture.blank) as H1.
  pose proof (Hsite _ _ (Fixture.browser_of (Fixture.github_site true))
                "github" "full" "India" 5 [] Fixture.blank) as H2.
  cbv zeta in H1, H2.
  assert (E1 : closes (trace (scrape_profiles (Fixture.browser_of (Fixture.github_site true))
                "github" "fullstack" "India" 5 [] (fresh Fixture.blank)).2) = [AfterLoop])
    by (vm_compute; reflexivity).
  assert (E2 : closes (trace (scrape_profiles (Fixture.browser_of (Fixture.github_site true))
                "github" "full" "India" 5 [] (fresh Fixture.blank)).2) = [InHandler])
    by (vm_compute; reflexivity).
  rewrite E1 in H1. rewrite E2 in H2.
  specialize (H1 ltac:(vm_compute; reflexivity)).
  specialize (H2 ltac:(vm_compute; reflexivity)).
  congruence.
Qed.

(** C5 (as amended): whenever the browser was launched, [browser.close()]
    is called before the scrape returns or raises, on every path: after the
    loop, or in the handler, or at both places when the first close or the
    exit of Playwright raised.  Without a launched browser it is not called. *)
Theorem browser_closed_on_every_path {W El} (api : playwright W El)
    platform query location max_profiles existing_urls w r s' :
  scrape_profiles api platform query location max_profiles existing_urls (fresh w)
  = (r, s') →
  if launched (trace s')
  then closes (trace s') ∈ [[AfterLoop]; [InHandler]; [AfterLoop; InHandler]]
  else closes (trace s') = [].
Proof.
  intros E.
  destruct (decide (Py.lower platform ∈ known_platforms)) as [Hp|Hp].
  - by apply scrape_profiles_known in E as (_ & _ & _ & Hcl & _).
  - rewrite scrape_profiles_unknown in E by done. by injection E as _ <-.
Qed.

Lemma browser_closed_on_every_path_witness :
  closes (trace (Fixture.run (Fixture.github_site false) "github" "fullstack" "India" 5 []).2)
  ∈ [[AfterLoop]; [InHandler]; [AfterLoop; InHandler]].
Proof.
  exact (browser_closed_on_every_path (Fixture.browser_of (Fixture.github_site false))
           "github" "fullstack" "India" 5 [] Fixture.blank
           (Fixture.run (Fixture.github_site false) "github" "fullstack" "India" 5 []).1
           (Fixture.run (Fixture.github_site false) "github" "fullstack" "India" 5 []).2
           ltac:(vm_compute; reflexivity)).
Defined.

(** *** The search address (C6) *)

Lemma list_ascii_app (a b : string) :
  list_ascii_of_string (a +:+ b) = list_ascii_of_string a ++ list_ascii_of_string b.
Proof. induction a as [|c a IH]; simpl; [done | by rewrite IH]. Qed.

Lemma list_ascii_inj (a b : string) :
  list_ascii_of_string a = list_ascii_of_string b → a = b.
Proof.
  intros E. rewrite <- (string_of_list_ascii_of_string a),
    <- (string_of_list_ascii_of_string b). by rewrite E.
Qed.

Lemma append_cancel_l (a x y : string) : a +:+ x = a +:+ y → x = y.
Proof.
  intros E. apply list_ascii_inj. apply (f_equal list_ascii_of_string) in E.
  rewrite !list_ascii_app in E. by apply app_inv_head in E.
Qed.

Lemma append_cancel_r (a x y : string) : x +:+ a = y +:+ a → x = y.
Proof.
  intros E. apply list_ascii_inj. apply (f_equal list_ascii_of_string) in E.
  rewrite !list_ascii_app in E. by apply app_inv_tail in E.
Qed.

Lemma github_search_url_inj q1 q2 location :
  github_search_url q1 location = github_search_url q2 location → q1 = q2.
Proof.
  unfold github_search_url. intros E.
  do 3 apply append_cancel_l in E. by apply append_cancel_r in E.
Qed.

Lemma behance_search_url_inj q1 q2 location :
  behance_search_url q1 location = behance_search_url q2 location → q1 = q2.
Proof.
  unfold behance_search_url. intros E.
  apply append_cancel_l in E.
  assert (E' : q1 +:+ ("%20" +:+ location) = q2 +:+ ("%20" +:+ location)) by exact E.
  by apply append_cancel_r in E'.
Qed.

(** C6 (fails on the code): on Stack Overflow no two queries lead to
    different search addresses. *)
Lemma stackoverflow_search_ignores_query :
  ¬ ∃ q1 q2 location,
      q1 ≠ q2
      ∧ platform_search_url "stackoverflow" q1 location
        ≠ platform_search_url "stackoverflow" q2 location.
Proof. intros (q1 & q2 & location & _ & Hne). by apply Hne. Qed.

(** C6 (as amended): on every platform the first navigation of a session is
    to the platform's search address; on GitHub and Behance that address is
    built from the query and the location, and distinct queries give distinct
    addresses; on Stack Overflow and Dev.to it is a fixed address. *)
Theorem first_navigation_is_search_url {W El} (api : playwright W El)
    platform query location max_profiles existing_urls w r s' :
  Py.lower platform ∈ known_platforms →
  scrape_profiles api platform query location max_profiles existing_urls (fresh w)
  = (r, s') →
  (if page_opened (trace s')
   then ∃ rest, gotos (trace s')
                = platform_search_url (Py.lower platform) query location :: rest
   else gotos (trace s') = [])
  ∧ (∀ q1 q2 loc, q1 ≠ q2 →
       platform_search_url "github" q1 loc ≠ platform_search_url "github" q2 loc)
  ∧ (∀ q1 q2 loc, q1 ≠ q2 →
       platform_search_url "behance" q1 loc ≠ platform_search_url "behance" q2 loc)
  ∧ (∀ q loc, platform_search_url "stackoverflow" q loc
              = "https://stackoverflow.com/users?tab=reputation&filter=all")
  ∧ (∀ q loc, platform_search_url "devto" q loc = "https://dev.to/").
Proof.
  intros Hp E. split_and!.
  - by apply scrape_profiles_known in E as (_ & _ & _ & _ & Hg).
  - intros q1 q2 loc Hne Heq. by apply Hne, (github_search_url_inj q1 q2 loc).
  - intros q1 q2 loc Hne Heq. by apply Hne, (behance_search_url_inj q1 q2 loc).
  - done.
  - done.
Qed.

Lemma first_navigation_is_search_url_witness :
  if page_opened
       (trace (Fixture.run Fixture.behance_site "Behance" "logo" "Berlin" 1 []).2)
  then ∃ rest,
         gotos (trace (Fixture.run Fixture.behance_site "Behance" "logo" "Berlin" 1 []).2)
         = platform_search_url (Py.lower "Behance") "logo" "Berlin" :: rest
  else gotos (trace (Fixture.run Fixture.behance_site "Behance" "logo" "Berlin" 1 []).2)
       = [].
Proof.
  exact (proj1 (first_navigation_is_search_url (Fixture.browser_of Fixture.behance_site)
           "Behance" "logo" "Berlin" 1 [] Fixture.blank
           (Fixture.run Fixture.behance_site "Behance" "logo" "Berlin" 1 []).1
           (Fixture.run Fixture.behance_site "Behance" "logo" "Berlin" 1 []).2
           ltac:(refine (bool_decide_unpack _ _); vm_compute; exact I)
           ltac:(vm_compute; reflexivity))).
Defined.

(** *** The skills field (C7) *)

(** A record returned by one of the four extractors. *)
Definition extracted_by {W El} (api : playwright W El) (p : profile_dict) : Prop :=
  ∃ url s s',
    extract_github_profile api url s = (Ok p, s')
    ∨ extract_behance_profile api url s = (Ok p, s')
    ∨ extract_stackoverflow_profile api url s = (Ok p, s')
    ∨ extract_devto_profile api url s = (Ok p, s').

(** The claim as the specification words it, for the duplicates. *)
Definition skills_never_repeat : Prop :=
  ∀ W El (api : playwright W El) p, extracted_by api p → NoDup (skills p).

(** C7 (fails on the code): the Behance extractor keeps a skill that two
    elements of the page carry. *)
Lemma behance_skills_repeat : ¬ skills_never_repeat.
Proof.
  intros Hclaim.
  set (api := Fixture.still (Fixture.person "Ada" ["UI"; "UI"; "Branding"])).
  set (run := extract_behance_profile api "https://www.behance.net/ada" (fresh tt)).
  assert (Hrun : ∃ p s', run = (Ok p, s') ∧ skills p = ["UI"; "UI"; "Branding"]).
  { eexists _, _. split; vm_compute; reflexivity. }
  destruct Hrun as (p & s' & Hrun & Hskills).
  assert (Hnd : NoDup (skills p)).
  { apply (Hclaim _ _ api). exists "https://www.behance.net/ada", (fresh tt), s'. auto. }
  rewrite Hskills in Hnd. apply NoDup_cons in Hnd as [Hin _].
  apply Hin. constructor.
Qed.

(** The list [l] follows the order of the elements that [sel] selects, on a
    page that does not change while it is read. *)
Definition page_order {W El} (api : playwright W El) (sel : string)
    (l : list string) : Prop :=
  ∀ els text_of, static_elements api sel els → static_text api text_of →
    l `sublist_of` ((λ h, Py.strip (text_of h)) <$> els).

(** The answers of the page to the two queries of a skills block do not
    depend on the moment they are asked: [selected] is what
    [query_selector_all] gives for [sel], a list of elements or an
    exception, and [text h] what [inner_text] gives for the element [h]. *)
Definition page_answers {W El} (api : playwright W El) (sel : string)
    (selected : result (list El)) (text : El → result string) : Prop :=
  (∀ w, (pw_query_selector_all api sel w).1 = selected)
  ∧ (∀ h w, (pw_inner_text api h w).1 = text h).

(** The texts of [els], read in order up to the first that cannot be read:
    an exception ends the loop and the block. *)
Fixpoint texts_read {El} (text : El → result string) (els : list El) : list string :=
  match els with
  | [] => []
  | h :: els' =>
      match text h with
      | Ok t => t :: texts_read text els'
      | Raise _ => []
      end
  end.

(** The non-empty strings of [l] in order, each the first time it occurs
    only; [kept] holds the strings already taken. *)
Fixpoint distinct_from (kept l : list string) : list string :=
  match l with
  | [] => []
  | x :: l' =>
      if Py.truthy x && negb (Py.mem x kept)
      then x :: distinct_from (x :: kept) l'
      else distinct_from kept l'
  end.

Definition distinct (l : list string) : list string := distinct_from [] l.

(** The skills a Behance record takes from the texts [l]. *)
Definition short_nonempty (l : list string) : list string :=
  List.filter (λ x, Py.truthy x && (Py.len x <? 50)) l.

(** The list [l] follows the order of the first [n] elements that [sel]
    selects, on a page that does not change while it is read. *)
Definition first_in_page_order {W El} (api : playwright W El) (sel : string) (n : nat)
    (l : list string) : Prop :=
  ∀ els text_of, static_elements api sel els → static_text api text_of →
    l `sublist_of` ((λ h, Py.strip (text_of h)) <$> take n els).

Section SkillsExact.

Context {W El : Type} (api : playwright W El).

Implicit Types (s : store W).

(** [m] returns, and leaves the skills of the record as they are. *)
Definition quiet {A} (m : M W A) : Prop :=
  ∀ s, ∃ a s', m s = (Ok a, s') ∧ skills (profile s') = skills (profile s).

Lemma quiet_bind {A B} (m : M W A) (f : A → M W B) :
  quiet m → (∀ a, quiet (f a)) → quiet (m ≫= f).
Proof.
  intros Hm Hf s. destruct (Hm s) as (a & s1 & E & H1).
  destruct (Hf a s1) as (b & s2 & E2 & H2). exists b, s2.
  rewrite run_bind, E. split; [done | congruence].
Qed.

Lemma quiet_ret {A} (a : A) : quiet (mret a).
Proof. intros s. by exists a, s. Qed.

Lemma quiet_get {A} (f : store W → A) : quiet (get f).
Proof. intros s. by exists (f s), s. Qed.

Lemma quiet_when b (m : M W unit) : quiet m → quiet (when b m).
Proof. intros Hm. destruct b; [exact Hm | apply quiet_ret]. Qed.

(** A block under [try ... except: pass] returns whatever it does. *)
Lemma quiet_guarded {A} (m : M W A) (a0 : A) :
  steps (keeps (λ s, skills (profile s))) m → quiet (try_except m (λ _, mret a0)).
Proof.
  intros Hm s. specialize (Hm s). unfold keeps in Hm. unfold try_except.
  destruct (m s) as [[a|e] s1]; simpl in Hm; [by exists a, s1 | by exists a0, s1].
Qed.

Lemma quiet_for_each {X} (xs : list X) (body : X → M W flow) :
  (∀ x, quiet (body x)) → quiet (for_each xs body).
Proof.
  intros Hb. induction xs as [|x xs IH]; simpl; [apply quiet_ret|].
  apply quiet_bind; [apply Hb|]. intros [|]; [exact IH | apply quiet_ret].
Qed.

Lemma quiet_first_match sels (on_el : El → M W flow) :
  (∀ h, steps (keeps (λ s, skills (profile s))) (on_el h)) →
  quiet (first_match api sels on_el).
Proof.
  intros Hon. unfold first_match. apply quiet_for_each. intros sel.
  apply quiet_guarded. apply steps_bind; [apply _ | |].
  - unfold page_query_selector. apply steps_call. by intros.
  - intros [h|]; [apply Hon | apply steps_ret; apply _].
Qed.

Lemma quiet_try_one sel (on_el : El → M W unit) :
  (∀ h, steps (keeps (λ s, skills (profile s))) (on_el h)) →
  quiet (try_one api sel on_el).
Proof.
  intros Hon. unfold try_one.
  apply quiet_guarded. apply steps_bind; [apply _ | |].
  - unfold page_query_selector. apply steps_call. by intros.
  - intros [h|]; [apply Hon | apply steps_ret; apply _].
Qed.

(** What follows a quiet block starts without skills as well. *)
Lemma post_after_quiet {A B} (m : M W A) (f : A → M W B) Q :
  quiet m → (∀ a, post no_skills (f a) Q) → post no_skills (m ≫= f) Q.
Proof.
  intros Hm Hf s Hs. destruct (Hm s) as (a & s1 & E & H1).
  rewrite run_bind, E. apply Hf. unfold no_skills in *. congruence.
Qed.

(** The loop of lines 212-216 and of lines 471-475, read by read. *)
Lemma seen_loop_exact (text : El → result string) els :
  (∀ h w, (pw_inner_text api h w).1 = text h) →
  ∀ s acc, (∀ x, x ∈ seen s ↔ x ∈ acc) →
    skills (profile
      (for_each els (λ el,
         raw ← inner_text api el;
         let skill := Py.strip raw in
         sn ← get seen;
         when (Py.truthy skill && negb (bool_decide (skill ∈ sn)))
           (modify (upd_profile (append_skill skill));;
            modify (set_seen ({[skill]} ∪ sn)));;
         mret Continue) s).2)
    = skills (profile s) ++ distinct_from acc (Py.strip <$> texts_read text els).
Proof.
  intros Ht. induction els as [|h els IH]; intros s acc Hacc; simpl.
  - by rewrite app_nil_r.
  - rewrite run_bind, run_bind. unfold inner_text at 1, call at 1.
    specialize (Ht h (world s)).
    destruct (pw_inner_text api h (world s)) as [[raw|e] w]; simpl in Ht; rewrite <- Ht;
      simpl; [|by rewrite app_nil_r].
    rewrite run_bind, run_get. cbn [seen set_world].
    assert (Hmem : bool_decide (Py.strip raw ∈ seen s) = Py.mem (Py.strip raw) acc)
      by apply bool_decide_ext, Hacc.
    rewrite Hmem.
    destruct (Py.truthy (Py.strip raw) && negb (Py.mem (Py.strip raw) acc)); simpl.
    + rewrite (IH _ (Py.strip raw :: acc)).
      * simpl. by rewrite <- app_assoc.
      * intros x. simpl. rewrite elem_of_union, elem_of_singleton, elem_of_cons, Hacc.
        done.
    + by rewrite (IH _ acc).
Qed.

(** The loop of lines 351-354, read by read. *)
Lemma plain_loop_exact (text : El → result string) els :
  (∀ h w, (pw_inner_text api h w).1 = text h) →
  ∀ s,
    skills (profile
      (for_each els (λ el,
         raw ← inner_text api el;
         let skill := Py.strip raw in
         when (Py.truthy skill && (Py.len skill <? 50))
           (modify (upd_profile (append_skill skill)));;
         mret Continue) s).2)
    = skills (profile s) ++ short_nonempty (Py.strip <$> texts_read text els).
Proof.
  intros Ht. induction els as [|h els IH]; intros s; simpl.
  - by rewrite app_nil_r.
  - rewrite run_bind, run_bind. unfold inner_text at 1, call at 1.
    specialize (Ht h (world s)).
    destruct (pw_inner_text api h (world s)) as [[raw|e] w]; simpl in Ht; rewrite <- Ht;
      simpl; [|by rewrite app_nil_r].
    destruct (Py.truthy (Py.strip raw) && (Py.len (Py.strip raw) <? 50)); simpl.
    + rewrite IH. simpl. by rewrite <- app_assoc.
    + by rewrite IH.
Qed.

Lemma guarded_final {A} (m : M W A) (a0 : A) s :
  (try_except m (λ _, mret a0) s).2 = (m s).2.
Proof. unfold try_except. by destruct (m s) as [[a|e] s1]. Qed.

(** Lines 209-218. *)
Lemma github_skills_exact selected text :
  page_answers api github_skills_selector selected text →
  post no_skills (github_skills api)
    (λ s, skills (profile s)
          = match selected with
            | Ok els => distinct (Py.strip <$> texts_read text els)
            | Raise _ => []
            end).
Proof.
  intros [Hsel Htxt] s Hs. cbv beta. unfold github_skills. rewrite guarded_final.
  unfold page_query_selector_all. rewrite run_bind. unfold call at 1.
  specialize (Hsel (world s)).
  destruct (pw_query_selector_all api github_skills_selector (world s)) as [[els|e] w];
    simpl in Hsel; subst selected; [|exact Hs].
  rewrite run_bind, run_modify.
  rewrite (seen_loop_exact text els Htxt _ []); [simpl; by rewrite Hs|].
  intros x. simpl. set_solver.
Qed.

(** Lines 468-477. *)
Lemma stackoverflow_skills_exact selected text :
  page_answers api stackoverflow_skills_selector selected text →
  post no_skills (stackoverflow_skills api)
    (λ s, skills (profile s)
          = match selected with
            | Ok els => distinct (Py.strip <$> texts_read text (Py.slice_to els 15))
            | Raise _ => []
            end).
Proof.
  intros [Hsel Htxt] s Hs. cbv beta. unfold stackoverflow_skills. rewrite guarded_final.
  unfold page_query_selector_all. rewrite run_bind. unfold call at 1.
  specialize (Hsel (world s)).
  destruct (pw_query_selector_all api stackoverflow_skills_selector (world s))
    as [[els|e] w]; simpl in Hsel; subst selected; [|exact Hs].
  rewrite run_bind, run_modify.
  rewrite (seen_loop_exact text _ Htxt _ []); [simpl; by rewrite Hs|].
  intros x. simpl. set_solver.
Qed.

(** Lines 349-356. *)
Lemma behance_skills_exact selected text :
  page_answers api behance_skills_selector selected text →
  post no_skills (behance_skills api)
    (λ s, skills (profile s)
          = match selected with
            | Ok els => short_nonempty (Py.strip <$> texts_read text (Py.slice_to els 10))
            | Raise _ => []
            end).
Proof.
  intros [Hsel Htxt] s Hs. cbv beta. unfold behance_skills. rewrite guarded_final.
  unfold page_query_selector_all. rewrite run_bind. unfold call at 1.
  specialize (Hsel (world s)).
  destruct (pw_query_selector_all api behance_skills_selector (world s))
    as [[els|e] w]; simpl in Hsel; subst selected; [|exact Hs].
  rewrite (plain_loop_exact text _ Htxt). simpl. by rewrite Hs.
Qed.

(** Only texts of fewer than 50 characters become a skill on Behance. *)
Lemma behance_skills_short :
  post no_skills (behance_skills api)
    (λ s, Forall (λ k, Py.len k < 50) (skills (profile s))).
Proof.
  assert (Hsteps : steps (preserves (λ s, Forall (λ k, Py.len k < 50)
                                            (skills (profile s))))
                     (behance_skills api)).
  { unfold behance_skills.
    apply steps_try; [apply _ | | intros; apply steps_ret; apply _].
    apply steps_bind; [apply _ | |intros els].
    { unfold page_query_selector_all. apply steps_call. leaf. }
    apply steps_for_each; [apply _ | intros el].
    apply steps_bind; [apply _ | |intros raw].
    { unfold inner_text. apply steps_call. leaf. }
    cbv zeta. apply steps_bind; [apply _ | | intros; apply steps_ret; apply _].
    destruct (Py.truthy (Py.strip raw) && (Py.len (Py.strip raw) <? 50)) eqn:C;
      [|apply steps_ret; apply _].
    apply steps_modify. intros s Hs. simpl. apply Forall_app. split; [done|].
    repeat constructor. apply andb_true_iff in C as [_ C]. by apply Z.ltb_lt. }
  intros s Hs. apply Hsteps. rewrite Hs. constructor.
Qed.

(** Only the first 15 elements are read on Stack Overflow. *)
Lemma stackoverflow_skills_first :
  post no_skills (stackoverflow_skills api)
    (λ s, first_in_page_order api stackoverflow_skills_selector 15 (skills (profile s))).
Proof.
  intros s Hs. cbv beta. unfold stackoverflow_skills. rewrite guarded_final.
  unfold page_query_selector_all. rewrite run_bind. unfold call at 1.
  destruct (pw_query_selector_all api stackoverflow_skills_selector (world s))
    as [[els0|e] w] eqn:E.
  - rewrite run_bind, run_modify.
    match goal with |- context [for_each ?xs ?b ?st] =>
      destruct (seen_loop_steps api xs st) as [_ (Δ & HΔ & _ & Hsub)]
    end.
    intros els text_of Hels Htxt. specialize (Hels (world s)).
    rewrite E in Hels. simpl in Hels. subst els0.
    cbv zeta in HΔ. rewrite HΔ. simpl. rewrite Hs. simpl. by apply Hsub.
  - intros els text_of _ _. simpl. rewrite Hs. apply sublist_nil_l.
Qed.

(** Only the first 10 elements are read on Behance. *)
Lemma behance_skills_first :
  post no_skills (behance_skills api)
    (λ s, first_in_page_order api behance_skills_selector 10 (skills (profile s))).
Proof.
  intros s Hs. cbv beta. unfold behance_skills. rewrite guarded_final.
  unfold page_query_selector_all. rewrite run_bind. unfold call at 1.
  destruct (pw_query_selector_all api behance_skills_selector (world s))
    as [[els0|e] w] eqn:E.
  - match goal with |- context [for_each ?xs ?b ?st] =>
      destruct (for_each_indexed (reads_skill api) (reads_skills api) xs b
                  (reads_skills_nil api) (reads_skills_one api) (reads_skills_cons api)
                  (plain_body_steps api) st) as (Δ & HΔ & _ & Hsub)
    end.
    intros els text_of Hels Htxt. specialize (Hels (world s)).
    rewrite E in Hels. simpl in Hels. subst els0.
    cbv zeta in HΔ. rewrite HΔ. simpl. rewrite Hs. simpl. by apply Hsub.
  - intros els text_of _ _. simpl. rewrite Hs. apply sublist_nil_l.
Qed.

(** The blocks that come before the skills block return and leave the
    skills empty, so the skills of the record are those the block collects
    when it starts without any. *)
Ltac quiet_block :=
  first
    [ apply quiet_get
    | apply quiet_first_match; intros ?; autounfold with scraper; steps_go fail
    | apply quiet_try_one; intros ?; autounfold with scraper; steps_go fail
    | apply quiet_when; apply quiet_try_one; intros ?; autounfold with scraper;
      steps_go fail ].

Ltac upto_skills :=
  repeat match goal with
    | |- post no_skills (_ ≫= _) _ => apply post_after_quiet; [quiet_block | intros ?]
    end.

Lemma extract_github_profile_collects (Q : list string → Prop) url s p s' :
  extract_github_profile api url s = (Ok p, s') →
  post no_skills (github_skills api) (λ s, Q (skills (profile s))) →
  Q (skills p).
Proof.
  unfold extract_github_profile. rewrite extractor_final. intros [= <- _] HQ.
  match goal with |- context [(?b ?st).2] =>
    cut (post no_skills b (λ s, Q (skills (profile s))));
      [intros Hp; by apply (Hp st)|]
  end.
  upto_skills. exact HQ.
Qed.

Lemma extract_stackoverflow_profile_collects (Q : list string → Prop) url s p s' :
  extract_stackoverflow_profile api url s = (Ok p, s') →
  post no_skills (stackoverflow_skills api) (λ s, Q (skills (profile s))) →
  Q (skills p).
Proof.
  unfold extract_stackoverflow_profile. rewrite extractor_final. intros [= <- _] HQ.
  match goal with |- context [(?b ?st).2] =>
    cut (post no_skills b (λ s, Q (skills (profile s))));
      [intros Hp; by apply (Hp st)|]
  end.
  upto_skills. exact HQ.
Qed.

Lemma extract_behance_profile_collects (Q : list string → Prop) url s p s' :
  extract_behance_profile api url s = (Ok p, s') →
  post no_skills (behance_skills api) (λ s, Q (skills (profile s))) →
  Q (skills p).
Proof.
  unfold extract_behance_profile. rewrite extractor_final. intros [= <- _] HQ.
  match goal with |- context [(?b ?st).2] =>
    cut (post no_skills b (λ s, Q (skills (profile s))));
      [intros Hp; by apply (Hp st)|]
  end.
  upto_skills. exact HQ.
Qed.

End SkillsExact.

(** C7 (as amended): the skills are the stripped texts of some of the
    selected elements, in page order, on GitHub, Stack Overflow and Behance;
    GitHub and Stack Overflow keep no skill twice; Stack Overflow reads the
    first 15 elements only and Behance the first 10, of which it keeps the
    texts of fewer than 50 characters; Dev.to harvests no skill.  On a page
    whose answers do not depend on the moment, the field is exactly: the
    non-empty stripped texts of the elements read, up to the first element
    that cannot be read, each the first time only on GitHub and on Stack
    Overflow, and those of fewer than 50 characters, repeated or not, on
    Behance; it is empty when the elements cannot be selected. *)
Theorem skills_per_platform {W El} (api : playwright W El) url s p s' :
  (extract_github_profile api url s = (Ok p, s') →
   NoDup (skills p) ∧ page_order api github_skills_selector (skills p)
   ∧ ∀ selected text, page_answers api github_skills_selector selected text →
       skills p = match selected with
                  | Ok els => distinct (Py.strip <$> texts_read text els)
                  | Raise _ => []
                  end)
  ∧ (extract_stackoverflow_profile api url s = (Ok p, s') →
     NoDup (skills p) ∧ (length (skills p) ≤ 15)%nat
     ∧ first_in_page_order api stackoverflow_skills_selector 15 (skills p)
     ∧ ∀ selected text, page_answers api stackoverflow_skills_selector selected text →
         skills p = match selected with
                    | Ok els =>
                        distinct (Py.strip <$> texts_read text (Py.slice_to els 15))
                    | Raise _ => []
                    end)
  ∧ (extract_behance_profile api url s = (Ok p, s') →
     (length (skills p) ≤ 10)%nat
     ∧ first_in_page_order api behance_skills_selector 10 (skills p)
     ∧ Forall (λ k, Py.len k < 50) (skills p)
     ∧ ∀ selected text, page_answers api behance_skills_selector selected text →
         skills p = match selected with
                    | Ok els =>
                        short_nonempty
                          (Py.strip <$> texts_read text (Py.slice_to els 10))
                    | Raise _ => []
                    end)
  ∧ (extract_devto_profile api url s = (Ok p, s') → skills p = []).
Proof.
  split_and!.
  - intros E. destruct (extract_github_profile_skills api _ _ _ _ E) as [Hnd Hord].
    split_and!; [done | done |]. intros selected text Hpage.
    apply (extract_github_profile_collects api
             (λ l, l = match selected with
                       | Ok els => distinct (Py.strip <$> texts_read text els)
                       | Raise _ => []
                       end) _ _ _ _ E).
    by apply github_skills_exact.
  - intros E.
    destruct (extract_stackoverflow_profile_skills api _ _ _ _ E) as (Hnd & Hlen & _).
    split_and!; [done | done | |].
    + apply (extract_stackoverflow_profile_collects api
               (first_in_page_order api stackoverflow_skills_selector 15) _ _ _ _ E).
      apply stackoverflow_skills_first.
    + intros selected text Hpage.
      apply (extract_stackoverflow_profile_collects api
               (λ l, l = match selected with
                         | Ok els =>
                             distinct (Py.strip <$> texts_read text (Py.slice_to els 15))
                         | Raise _ => []
                         end) _ _ _ _ E).
      by apply stackoverflow_skills_exact.
  - intros E. destruct (extract_behance_profile_skills api _ _ _ _ E) as [Hlen _].
    split_and!; [done | | |].
    + apply (extract_behance_profile_collects api
               (first_in_page_order api behance_skills_selector 10) _ _ _ _ E).
      apply behance_skills_first.
    + apply (extract_behance_profile_collects api
               (Forall (λ k, Py.len k < 50)) _ _ _ _ E).
      apply behance_skills_short.
    + intros selected text Hpage.
      apply (extract_behance_profile_collects api
               (λ l, l = match selected with
                         | Ok els =>
                             short_nonempty
                               (Py.strip <$> texts_read text (Py.slice_to els 10))
                         | Raise _ => []
                         end) _ _ _ _ E).
      by apply behance_skills_exact.
  - apply extract_devto_profile_skills.
Qed.

(** A Stack Overflow page with the tags [c#], [java] between blanks and
    [c#] again: the record lists [c#] and [java]. *)
Lemma skills_per_platform_witness :
  skills Fixture.jon = ["c#"; "java"]
  ∧ NoDup (skills Fixture.jon) ∧ (length (skills Fixture.jon) ≤ 15)%nat
  ∧ skills Fixture.jon `sublist_of` ["c#"; "java"; "c#"]
  ∧ skills Fixture.jon = distinct ["c#"; "java"; "c#"].
Proof.
  split; [vm_compute; reflexivity|].
  destruct (proj1 (proj2 (skills_per_platform Fixture.jon_page
              "https://stackoverflow.com/users/22656" (fresh tt) Fixture.jon
              Fixture.jon_run.2))
              ltac:(vm_compute; reflexivity)) as (Hnd & Hlen & Hord & Hexact).
  split_and!; [exact Hnd | exact Hlen | |].
  - refine (Hord (Fixture.text <$> Fixture.jon_tags) Fixture.text_of _ _).
    + intros w. vm_compute. reflexivity.
    + intros h w. unfold Fixture.text_of. simpl. by destruct (Fixture.el_text h).
  - refine (Hexact (Ok (Fixture.text <$> Fixture.jon_tags)) Fixture.el_text _).
    split; [intros w; vm_compute; reflexivity | intros h w; reflexivity].
Defined.

(** *** The scan of the markup as a fallback (C8) *)

Section Markup.

Context {W El : Type} (api : playwright W El).

Lemma stackoverflow_never_reads_markup query location max_profiles existing_urls :
  steps (emits no_markup_op)
    (scrape_stackoverflow_profiles api query location max_profiles existing_urls).
Proof.
  unfold scrape_stackoverflow_profiles, stackoverflow_discover,
    stackoverflow_scrape_loop, extract_stackoverflow_profile, stackoverflow_skills,
    add_candidate.
  autounfold with scraper. steps_go fail.
Qed.

Lemma devto_never_reads_markup query max_profiles existing_urls :
  steps (emits no_markup_op)
    (scrape_devto_profiles api query max_profiles existing_urls).
Proof.
  unfold scrape_devto_profiles, devto_discover, devto_scrape_loop,
    extract_devto_profile, add_candidate.
  autounfold with scraper. steps_go fail.
Qed.

Lemma no_markup_read (s s' : store W) :
  trace s = [] → emits no_markup_op s s' → reads_markup (trace s') = false.
Proof.
  intros Ht (evs & -> & Hevs). rewrite Ht, app_nil_l.
  apply bool_decide_eq_false. unfold ops. intros Hin.
  apply list_elem_of_fmap in Hin as (e & He & Hin).
  rewrite Forall_forall in Hevs. specialize (Hevs e Hin).
  by rewrite <- He in Hevs.
Qed.

End Markup.

(** The claim as the specification words it, in what it implies for a
    discovery that ended with fewer than three candidates. *)
Definition regex_fallback_everywhere : Prop :=
  ∀ W El (api : playwright W El) platform query location max_profiles existing_urls w,
    Py.lower platform ∈ known_platforms →
    let run := scrape_profiles api platform query location max_profiles
                 existing_urls (fresh w) in
    is_ok run.1 = true →
    (length (profile_urls run.2) < 3)%nat →
    reads_markup (trace run.2) = true.

(** C8 (fails on the code): on Stack Overflow the selector finds two
    candidates, the markup holds a third, and the markup is not read. *)
Lemma stackoverflow_has_no_regex_fallback : ¬ regex_fallback_everywhere.
Proof.
  intros Hclaim.
  specialize (Hclaim _ _ (Fixture.browser_of Fixture.stackoverflow_site)
                "stackoverflow" "rust" "Oslo" 5 [] Fixture.blank
                ltac:(refine (bool_decide_unpack _ _); vm_compute; exact I)
                ltac:(vm_compute; reflexivity)
                ltac:(vm_compute; lia)).
  vm_compute in Hclaim. discriminate.
Qed.

(** C8 (as amended): on GitHub the markup is scanned exactly when the
    selector strategies left fewer than three candidates, and what the scan
    adds passed the denylist and the shape filter; on Behance the markup is
    always scanned, and every candidate passed the Behance filter; on Stack
    Overflow and Dev.to the markup is never read. *)
Theorem regex_fallback_per_platform {W El} (api : playwright W El)
    existing_urls (s : store W) :
  ((3 ≤ length (profile_urls s))%nat →
   github_regex_fallback api existing_urls s = (Ok tt, s))
  ∧ ((length (profile_urls s) < 3)%nat →
     let s' := (github_regex_fallback api existing_urls s).2 in
     ∃ added,
       profile_urls s' = profile_urls s ++ added
       ∧ match (pw_content api (world s)).1 with
         | Ok content =>
             trace s' = trace s ++ [Event OpContent true]
             ∧ picked github_path_ok (λ m, "https://github.com" +:+ m) existing_urls
                 (Py.findall_href "/" content) added
         | Raise _ => trace s' = trace s ++ [Event OpContent false] ∧ added = []
         end)
  ∧ (let s' := (behance_discover api existing_urls s).2 in
     match (pw_content api (world s)).1 with
     | Ok content =>
         trace s' = trace s ++ [Event OpContent true]
         ∧ picked behance_path_ok (λ m, m) existing_urls
             (Py.findall_href "https://www.behance.net/" content) (profile_urls s')
     | Raise _ => trace s' = trace s ++ [Event OpContent false] ∧ profile_urls s' = []
     end)
  ∧ (∀ query location max_profiles w,
       reads_markup (trace (scrape_stackoverflow_profiles api query location
                              max_profiles existing_urls (fresh w)).2) = false)
  ∧ (∀ query max_profiles w,
       reads_markup (trace (scrape_devto_profiles api query max_profiles
                              existing_urls (fresh w)).2) = false).
Proof.
  split_and!.
  - apply github_regex_fallback_skipped.
  - apply github_regex_fallback_runs.
  - apply behance_discover_runs.
  - intros. eapply no_markup_read; [|apply stackoverflow_never_reads_markup]. done.
  - intros. eapply no_markup_read; [|apply devto_never_reads_markup]. done.
Qed.

Lemma regex_fallback_per_platform_witness :
  (length (profile_urls Fixture.two_candidates) < 3)%nat
  ∧ ∃ added,
      profile_urls
        (github_regex_fallback (Fixture.browser_of (Fixture.github_site true)) []
           Fixture.two_candidates).2
      = profile_urls Fixture.two_candidates ++ added
      ∧ trace
          (github_regex_fallback (Fixture.browser_of (Fixture.github_site true)) []
             Fixture.two_candidates).2
        = trace Fixture.two_candidates ++ [Event OpContent true]
      ∧ picked github_path_ok (λ m, "https://github.com" +:+ m) []
          ["/settings"; "/linus"] added.
Proof.
  assert (Hfew : (length (profile_urls Fixture.two_candidates) < 3)%nat)
    by (vm_compute; lia).
  split; [exact Hfew|].
  exact (proj1 (proj2 (regex_fallback_per_platform
           (Fixture.browser_of (Fixture.github_site true)) [] Fixture.two_candidates))
           Hfew).
Defined.

(** *** An unrecognised platform (C9) *)



(** *** How the cap is counted (C10) *)

(** Every navigation of [visited] is made while fewer than [max_profiles]
    of the records [ps] have been collected: the records split into those
    of the pages before it, fewer than [max_profiles], and those of the
    pages from it on. *)
Definition below_cap (max_profiles : Z) (visited : list string)
    (ps : list profile_dict) : Prop :=
  ∀ before url after, visited = before ++ url :: after →
    ∃ ps1 ps2,
      ps = ps1 ++ ps2
      ∧ (profileUrl <$> ps1) `sublist_of` before
      ∧ (profileUrl <$> ps2) `sublist_of` url :: after
      ∧ Z.of_nat (length ps1) < max_profiles.

Section Cap.

Context {W El : Type} (api : playwright W El).

(** The counted loop asks for a page only while [scraped] is below
    [max_profiles]: the candidates attempted are a prefix of the list, the
    loop stops short of the end only with the count reached, and every
    attempt is made with the count below [max_profiles]. *)
Lemma counted_loop_below (attempt : string → M W flow) max_profiles urls (s : store W) :
  (∀ url s, ∃ s', attempt url s = (Ok Continue, s') ∧ visits true url s s') →
  ∃ s' visited ps,
    for_each urls (λ url,
      n ← get scraped;
      if max_profiles <=? n then mret Break else attempt url) s = (Ok tt, s')
    ∧ visits_all true visited s s'
    ∧ visited `prefix_of` urls
    ∧ (visited = urls ∨ max_profiles ≤ scraped s')
    ∧ (scraped s ≤ max_profiles → scraped s' ≤ max_profiles)
    ∧ profiles s' = profiles s ++ ps
    ∧ ∀ before url after, visited = before ++ url :: after →
        ∃ ps1 ps2,
          ps = ps1 ++ ps2
          ∧ (profileUrl <$> ps1) `sublist_of` before
          ∧ (profileUrl <$> ps2) `sublist_of` url :: after
          ∧ scraped s + Z.of_nat (length ps1) < max_profiles.
Proof.
  intros Ha. revert s. induction urls as [|url urls IH]; intros s; simpl.
  - exists s, [], []. rewrite app_nil_r.
    split_and!; auto using visits_all_nil. by intros [|??] ???.
  - rewrite run_bind, run_bind, run_get.
    destruct (Z.leb_spec max_profiles (scraped s)) as [Hge|Hlt].
    + rewrite run_ret. exists s, [], []. rewrite app_nil_r.
      split_and!; auto using visits_all_nil, prefix_nil. by intros [|??] ???.
    + destruct (Ha url s) as (s1 & -> & Hv).
      destruct (IH s1) as (s2 & visited & ps' & -> & Hall & Hpre & Hend & Hcap & Hp'
                           & Hbelow).
      pose proof (visits_all_cons _ _ _ _ _ _ Hv Hall) as Hcons.
      destruct Hv as (_ & _ & _ & _ & p0 & Hp0 & Hlen & Hurl & Hsc).
      exists s2, (url :: visited), (p0 ++ ps').
      split_and!; [done | done | by destruct Hpre as [k ->]; exists k | | |
                   by rewrite Hp', Hp0, app_assoc |].
      * destruct Hend as [->|?]; auto.
      * intros _. apply Hcap. lia.
      * intros before u after Hsplit.
        destruct before as [|b before]; simpl in Hsplit.
        -- injection Hsplit as <- <-. exists [], (p0 ++ ps'). split_and!; try done.
           ++ destruct Hcons as (_ & _ & _ & _ & ps & Hps & _ & Hsub & _).
              rewrite Hp', Hp0, <- app_assoc in Hps.
              by apply app_inv_head in Hps as <-.
           ++ simpl. lia.
        -- injection Hsplit as <- ->.
           destruct (Hbelow before u after eq_refl) as (ps1 & ps2 & -> & H1 & H2 & Hlt').
           exists (p0 ++ ps1), ps2. rewrite app_assoc. split_and!; try done.
           ++ rewrite fmap_app. destruct p0 as [|q [|]]; simpl in *; [| |lia].
              ** by apply sublist_cons.
              ** apply Forall_cons in Hurl as [[-> _] _]. by apply sublist_skip.
           ++ rewrite length_app. lia.
Qed.

(** What the loops of lines 276-293 and of lines 534-556 leave behind. *)
Definition counted_run (max_profiles : Z) (loop : M W unit) (s : store W) : Prop :=
  ∃ s' evs ps,
    loop s = (Ok tt, s')
    ∧ trace s' = trace s ++ evs ∧ profiles s' = profiles s ++ ps
    ∧ gotos evs `prefix_of` profile_urls s
    ∧ (gotos evs = profile_urls s ∨ max_profiles ≤ Z.of_nat (length ps))
    ∧ (0 ≤ max_profiles → Z.of_nat (length ps) ≤ max_profiles)
    ∧ below_cap max_profiles (gotos evs) ps.

Lemma counted_summary max_profiles (loop : M W unit) visited ps0 (s s' : store W) :
  loop s = (Ok tt, s') →
  visits_all true visited (set_scraped 0 s) s' →
  visited `prefix_of` profile_urls s →
  visited = profile_urls s ∨ max_profiles ≤ scraped s' →
  (0 ≤ max_profiles → scraped s' ≤ max_profiles) →
  profiles s' = profiles s ++ ps0 →
  below_cap max_profiles visited ps0 →
  counted_run max_profiles loop s.
Proof.
  intros E (_ & _ & _ & (evs & Ht & Hg & _) & ps & Hp & _ & _ & Hsc) Hpre Hend Hcap
    Hp0 Hbelow.
  simpl in Hsc, Hp. rewrite Hp in Hp0. apply app_inv_head in Hp0 as <-.
  exists s', evs, ps. rewrite Hg. rewrite Hsc in Hend, Hcap.
  split_and!; try done.
Qed.

Lemma behance_scrape_loop_counted max_profiles (s : store W) :
  counted_run max_profiles (behance_scrape_loop api max_profiles) s.
Proof.
  destruct (counted_loop_below
              (λ url, try_except
                 (page_goto api url;;
                  p ← extract_behance_profile api url;
                  when (Py.truthy (fullName p))
                    (modify (append_profile (set_source "Behance" p));;
                     modify (λ s, set_scraped (scraped s + 1) s));;
                  mret Continue)
                 (λ _, mret Continue))
              max_profiles (profile_urls s) (set_scraped 0 s))
    as (s' & visited & ps & E & Hv & Hpre & Hend & Hcap & Hp & Hbelow).
  { intros url s1. apply visit_counted, behance_extractor_ok. }
  by eapply (counted_summary max_profiles _ visited ps s s').
Qed.

Lemma devto_scrape_loop_counted max_profiles (s : store W) :
  counted_run max_profiles (devto_scrape_loop api max_profiles) s.
Proof.
  destruct (counted_loop_below
              (λ url, try_except
                 (page_goto api url;;
                  profile_check ← page_query_selector api
                    ".profile-header, .crayons-card--profile, .profile-details";
                  match profile_check with
                  | None => mret Continue
                  | Some _ =>
                      p ← extract_devto_profile api url;
                      when (Py.truthy (fullName p))
                        (modify (append_profile (set_source "Dev.to" p));;
                         modify (λ s, set_scraped (scraped s + 1) s));;
                      mret Continue
                  end)
                 (λ _, mret Continue))
              max_profiles (profile_urls s) (set_scraped 0 s))
    as (s' & visited & ps & E & Hv & Hpre & Hend & Hcap & Hp & Hbelow).
  { intros url s1. apply visit_checked, devto_extractor_ok. }
  by eapply (counted_summary max_profiles _ visited ps s s').
Qed.

End Cap.

(** C10: GitHub and Stack Overflow navigate to each of the first
    [max_profiles] candidates and to no other, whatever becomes of the
    attempt, so a failed or discarded candidate uses up one attempt; Behance
    and Dev.to go down the list of candidates, counting only the records
    collected: they go on until [max_profiles] records are collected or the
    list is exhausted, and they ask for no page once [max_profiles] records
    are collected. *)
Theorem cap_accounting_per_platform {W El} (api : playwright W El)
    max_profiles (s : store W) :
  (∃ s' evs ps,
     github_scrape_loop api max_profiles s = (Ok tt, s')
     ∧ trace s' = trace s ++ evs ∧ profiles s' = profiles s ++ ps
     ∧ gotos evs = Py.slice_to (profile_urls s) max_profiles
     ∧ (profileUrl <$> ps) `sublist_of` gotos evs)
  ∧ (∃ s' evs ps,
       stackoverflow_scrape_loop api max_profiles s = (Ok tt, s')
       ∧ trace s' = trace s ++ evs ∧ profiles s' = profiles s ++ ps
       ∧ gotos evs = Py.slice_to (profile_urls s) max_profiles
       ∧ (profileUrl <$> ps) `sublist_of` gotos evs)
  ∧ (∃ s' evs ps,
       behance_scrape_loop api max_profiles s = (Ok tt, s')
       ∧ trace s' = trace s ++ evs ∧ profiles s' = profiles s ++ ps
       ∧ gotos evs `prefix_of` profile_urls s
       ∧ (gotos evs = profile_urls s ∨ max_profiles ≤ Z.of_nat (length ps))
       ∧ (0 ≤ max_profiles → Z.of_nat (length ps) ≤ max_profiles)
       ∧ below_cap max_profiles (gotos evs) ps)
  ∧ (∃ s' evs ps,
       devto_scrape_loop api max_profiles s = (Ok tt, s')
       ∧ trace s' = trace s ++ evs ∧ profiles s' = profiles s ++ ps
       ∧ gotos evs `prefix_of` profile_urls s
       ∧ (gotos evs = profile_urls s ∨ max_profiles ≤ Z.of_nat (length ps))
       ∧ (0 ≤ max_profiles → Z.of_nat (length ps) ≤ max_profiles)
       ∧ below_cap max_profiles (gotos evs) ps).
Proof.
  split_and!.
  - destruct (github_scrape_loop_run api max_profiles s)
      as (s' & E & _ & _ & _ & (evs & Ht & Hg & _) & ps & Hp & _ & Hsub & _).
    exists s', evs, ps. rewrite Hg. done.
  - destruct (stackoverflow_scrape_loop_run api max_profiles s)
      as (s' & E & _ & _ & _ & (evs & Ht & Hg & _) & ps & Hp & _ & Hsub & _).
    exists s', evs, ps. rewrite Hg. done.
  - apply behance_scrape_loop_counted.
  - apply devto_scrape_loop_counted.
Qed.

(** With a first candidate that cannot be loaded and [max_profiles = 1],
    GitHub returns nothing and Behance returns the next candidate; Behance
    then leaves the third candidate alone. *)
Lemma cap_accounting_per_platform_witness :
  Fixture.records (Fixture.run Fixture.github_site_ghost "github" "fullstack" "India" 1 [])
  = []
  ∧ (fullName <$> Fixture.records
       (Fixture.run Fixture.behance_site "behance" "logo" "Berlin" 1 [])) = ["Ada"]
  ∧ ∃ s' evs ps,
      behance_scrape_loop (Fixture.browser_of Fixture.behance_site) 1
        (set_profile_urls ["https://www.behance.net/ghost"; "https://www.behance.net/ada";
                           "https://www.behance.net/bob"]
           Fixture.start) = (Ok tt, s')
      ∧ trace s' = evs ∧ profiles s' = ps
      ∧ gotos evs = ["https://www.behance.net/ghost"; "https://www.behance.net/ada"]
      ∧ (fullName <$> ps) = ["Ada"]
      ∧ below_cap 1 (gotos evs) ps.
Proof.
  split; [vm_compute; reflexivity|]. split; [vm_compute; reflexivity|].
  destruct (proj1 (proj2 (proj2 (cap_accounting_per_platform
              (Fixture.browser_of Fixture.behance_site) 1
              (set_profile_urls
                 ["https://www.behance.net/ghost"; "https://www.behance.net/ada";
                  "https://www.behance.net/bob"]
                 Fixture.start)))))
    as (s' & evs & ps & E & Ht & Hp & _ & _ & _ & Hbelow).
  exists s', evs, ps. split; [exact E|].
  assert (E' : s' = (behance_scrape_loop (Fixture.browser_of Fixture.behance_site) 1
        (set_profile_urls ["https://www.behance.net/ghost"; "https://www.behance.net/ada";
                           "https://www.behance.net/bob"] Fixture.start)).2)
    by (by rewrite E).
  simpl in Ht, Hp. subst evs ps.
  split_and!; [done | done | | | exact Hbelow]; rewrite E'; vm_compute; reflexivity.
Defined.

(** ** Further properties of the code *)

(** *** Text that went through [strip] and [[:500]] *)

Lemma lstrip_head s :
  Py.lstrip s = "" ∨ ∃ c t, Py.lstrip s = String c t ∧ Py.isspace c = false.
Proof.
  induction s as [|c s IH]; simpl; [by left|].
  destruct (Py.isspace c) eqn:E; [exact IH | right; eauto].
Qed.

Lemma rstrip_idem s : Py.rstrip (Py.rstrip s) = Py.rstrip s.
Proof.
  induction s as [|c s IH]; simpl; [done|].
  destruct (Py.isspace c && negb (Py.truthy (Py.rstrip s))) eqn:E; simpl; [done|].
  by rewrite IH, E.
Qed.

(** Stripping twice is stripping once. *)
Lemma strip_idem s : Py.strip (Py.strip s) = Py.strip s.
Proof.
  unfold Py.strip. destruct (lstrip_head s) as [->|(c & t & -> & Hc)]; [done|].
  simpl. rewrite Hc. simpl. rewrite Hc. simpl. by rewrite rstrip_idem, Hc.
Qed.

Lemma len_take n s : Py.len (Py.take n s) = Z.min (Z.of_nat n) (Py.len s).
Proof.
  unfold Py.len. revert s. induction n as [|n IH]; intros [|c s]; simpl; try lia.
  specialize (IH s). lia.
Qed.

Lemma lower_char_idem c : Py.lower_char (Py.lower_char c) = Py.lower_char c.
Proof. by destruct c as [[] [] [] [] [] [] [] []]. Qed.

Lemma lower_idem s : Py.lower (Py.lower s) = Py.lower s.
Proof. induction s as [|c s IH]; simpl; [done|]. by rewrite lower_char_idem, IH. Qed.

(** ** Walking through guarded code *)

Section Guards.

Context {W El : Type}.

Implicit Types (R : relation (store W)).

Lemma steps_when_guard R `{!Reflexive R} b (m : M W unit) :
  (b = true → steps R m) → steps R (when b m).
Proof. intros Hm. destruct b; [by apply Hm | by apply steps_ret]. Qed.

Lemma steps_for_each_in R `{!PreOrder R} {X} (xs : list X) (body : X → M W flow) :
  (∀ x, x ∈ xs → steps R (body x)) → steps R (for_each xs body).
Proof.
  induction xs as [|x xs IH]; intros Hb; simpl.
  - apply steps_ret; apply _.
  - apply steps_bind; [apply _ | apply Hb; left |].
    intros [|]; [|apply steps_ret; apply _].
    apply IH. intros y Hy. apply Hb. by right.
Qed.

(** A record property that the body of an extractor maintains holds of the
    record the extractor returns. *)
Lemma extractor_keeps (Q : profile_dict → Prop) (body : M W unit) url (s : store W) :
  Q (new_profile url) →
  steps (preserves (λ s, Q (profile s))) body →
  ∃ p s', (modify (set_profile (new_profile url));;
           try_except body (λ _, mret tt);;
           get profile) s = (Ok p, s')
          ∧ Q p.
Proof.
  intros HQ Hb. rewrite extractor_final. eexists _, _. split; [reflexivity|].
  by apply Hb.
Qed.

End Guards.

(** Keeps the condition of a [when] and the membership of a loop variable. *)
Ltac guards :=
  match goal with
  | |- steps _ (when _ _) => apply steps_when_guard; [apply _ | intros ?]
  | |- steps _ (for_each _ _) => apply steps_for_each_in; [apply _ | intros ? ?]
  end.

(** Turns the conditions in the context into propositions. *)
Ltac guard_facts :=
  repeat match goal with
    | H : _ && _ = true |- _ => apply andb_true_iff in H as [? ?]
    | H : negb _ = true |- _ => apply negb_true_iff in H
    | H : (_ <? _) = true |- _ => apply Z.ltb_lt in H
    | H : (_ =? _) = true |- _ => apply Z.eqb_eq in H
    | H : Py.truthy _ = true |- _ => apply truthy_nonempty in H
    end.

(** ** The fields of an extracted record *)

Section Fields.

Context {W El : Type} (api : playwright W El).

Implicit Types (s : store W).

(** [extract_github_profile], [extract_behance_profile],
    [extract_stackoverflow_profile] and [extract_devto_profile]. *)
Definition the_extractors : list (string → M W profile_dict) :=
  [extract_github_profile api; extract_behance_profile api;
   extract_stackoverflow_profile api; extract_devto_profile api].

(** One assignment to a field of the record, under the conditions that
    guard it. *)
Ltac field_step finish :=
  first
    [ guards
    | match goal with
      | |- steps _ (modify (upd_profile _)) =>
          apply steps_modify; intros ? ?; guard_facts;
          unfold upd_profile, set_profile, set_fullName, set_bio, set_location,
            set_company, append_skill in *;
          cbn [profile fullName email bio location profileUrl skills company
               website followers repos source] in *;
          first [assumption | finish]
      end ].

Ltac fields Q finish :=
  apply (extractor_keeps Q); [simpl; try done |];
  unfold github_skills, behance_skills, stackoverflow_skills;
  autounfold with scraper; steps_go ltac:(field_step finish).

Ltac each_extractor :=
  unfold the_extractors; repeat apply Forall_cons_2; try apply Forall_nil_2;
  unfold extract_github_profile, extract_behance_profile,
    extract_stackoverflow_profile, extract_devto_profile.

(** X1: every extractor catches what the page raises: it returns a record
    for the address it was given, reads the page and does nothing else. *)
Theorem extractors_never_raise url s :
  Forall (λ extract : string → M W profile_dict,
            ∃ p s', extract url s = (Ok p, s')
                    ∧ profileUrl p = url
                    ∧ profiles s' = profiles s
                    ∧ profile_urls s' = profile_urls s
                    ∧ ∃ evs, trace s' = trace s ++ evs
                             ∧ Forall (λ e, query_op (ev_op e) = true) evs)
    the_extractors.
Proof.
  assert (Hrun : ∀ extract, extractor_ok extract →
    ∃ p s', extract url s = (Ok p, s') ∧ profileUrl p = url
            ∧ profiles s' = profiles s ∧ profile_urls s' = profile_urls s
            ∧ ∃ evs, trace s' = trace s ++ evs
                     ∧ Forall (λ e, query_op (ev_op e) = true) evs).
  { intros extract Hx. destruct (Hx url s) as (s' & E & Hu & _ & Hp & Hpu & _ & _ & Hev).
    exists (profile s'), s'. auto. }
  unfold the_extractors. repeat apply Forall_cons_2; try apply Forall_nil_2; apply Hrun.
  - apply (github_extractor_ok api).
  - apply (behance_extractor_ok api).
  - apply (stackoverflow_extractor_ok api).
  - apply (devto_extractor_ok api).
Qed.

(** X2: no extractor fills [email], [website], [followers] or [repos], and
    none sets [source]: they are as in the initial record. *)
Theorem extractors_leave_contact_fields_unset url s :
  Forall (λ extract : string → M W profile_dict,
            ∃ p s', extract url s = (Ok p, s')
                    ∧ email p = "" ∧ website p = "" ∧ followers p = 0 ∧ repos p = 0
                    ∧ source p = None)
    the_extractors.
Proof.
  each_extractor;
    fields (λ p, email p = "" ∧ website p = "" ∧ followers p = 0 ∧ repos p = 0
                 ∧ source p = None) fail.
Qed.

(** X3: the name of a record is bounded in length on Behance, Stack Overflow
    and Dev.to: empty or of 2 to 99 characters on Behance and Dev.to, of fewer
    than 100 characters on Stack Overflow. *)
Theorem extracted_name_lengths url s :
  (∃ p s', extract_behance_profile api url s = (Ok p, s')
           ∧ (fullName p = "" ∨ 1 < Py.len (fullName p) < 100))
  ∧ (∃ p s', extract_stackoverflow_profile api url s = (Ok p, s')
             ∧ Py.len (fullName p) < 100)
  ∧ (∃ p s', extract_devto_profile api url s = (Ok p, s')
             ∧ (fullName p = "" ∨ 1 < Py.len (fullName p) < 100)).
Proof.
  split_and!.
  - unfold extract_behance_profile.
    fields (λ p, fullName p = "" ∨ 1 < Py.len (fullName p) < 100) ltac:(right; lia).
    by left.
  - unfold extract_stackoverflow_profile.
    fields (λ p, Py.len (fullName p) < 100) ltac:(lia).
  - unfold extract_devto_profile.
    fields (λ p, fullName p = "" ∨ 1 < Py.len (fullName p) < 100) ltac:(right; lia).
    by left.
Qed.

(** X4: the biography never exceeds 500 characters: it is cut at 500 on GitHub,
    Stack Overflow and Dev.to, and on Behance a text of 500 characters or
    more is not taken.  Behance takes only texts longer than 10 characters
    and Dev.to only texts longer than 5. *)
Theorem extracted_bio_lengths url s :
  (∃ p s', extract_github_profile api url s = (Ok p, s') ∧ Py.len (bio p) ≤ 500)
  ∧ (∃ p s', extract_behance_profile api url s = (Ok p, s')
             ∧ (bio p = "" ∨ 10 < Py.len (bio p) < 500))
  ∧ (∃ p s', extract_stackoverflow_profile api url s = (Ok p, s')
             ∧ Py.len (bio p) ≤ 500)
  ∧ (∃ p s', extract_devto_profile api url s = (Ok p, s')
             ∧ (bio p = "" ∨ 5 < Py.len (bio p) ≤ 500)).
Proof.
  split_and!.
  - unfold extract_github_profile.
    fields (λ p, Py.len (bio p) ≤ 500) ltac:(rewrite len_take; lia).
  - unfold extract_behance_profile.
    fields (λ p, bio p = "" ∨ 10 < Py.len (bio p) < 500) ltac:(right; lia).
    by left.
  - unfold extract_stackoverflow_profile.
    fields (λ p, Py.len (bio p) ≤ 500) ltac:(rewrite len_take; lia).
  - unfold extract_devto_profile.
    fields (λ p, bio p = "" ∨ 5 < Py.len (bio p) ≤ 500)
      ltac:(right; rewrite len_take; lia).
    by left.
Qed.

(** X5: the name, the location and the company of a record carry no white
    space at either end: stripping them again changes nothing. *)
Theorem extracted_text_is_stripped url s :
  Forall (λ extract : string → M W profile_dict,
            ∃ p s', extract url s = (Ok p, s')
                    ∧ Py.strip (fullName p) = fullName p
                    ∧ Py.strip (location p) = location p
                    ∧ Py.strip (company p) = company p)
    the_extractors.
Proof.
  each_extractor;
    fields (λ p, Py.strip (fullName p) = fullName p
                 ∧ Py.strip (location p) = location p
                 ∧ Py.strip (company p) = company p)
      ltac:(split_and!; first [apply strip_idem | tauto]).
Qed.

(** X6: every skill of a record is a non-empty stripped text, and on
    Behance one of fewer than 50 characters. *)
Theorem extracted_skills_are_clean url s :
  Forall (λ extract : string → M W profile_dict,
            ∃ p s', extract url s = (Ok p, s')
                    ∧ Forall (λ k, k ≠ "" ∧ Py.strip k = k) (skills p))
    the_extractors
  ∧ ∃ p s', extract_behance_profile api url s = (Ok p, s')
            ∧ Forall (λ k, Py.len k < 50) (skills p).
Proof.
  split.
  - each_extractor;
      fields (λ p, Forall (λ k, k ≠ "" ∧ Py.strip k = k) (skills p))
        ltac:(apply Forall_app; split; [assumption|];
              repeat constructor; [assumption | apply strip_idem]).
  - unfold extract_behance_profile.
    fields (λ p, Forall (λ k, Py.len k < 50) (skills p))
      ltac:(apply Forall_app; split; [assumption|]; repeat constructor; lia).
Qed.

(** The bounds on the name, for a record in hand. *)
Lemma behance_name_bounded url s p s' :
  extract_behance_profile api url s = (Ok p, s') →
  fullName p = "" ∨ 1 < Py.len (fullName p) < 100.
Proof.
  intros E.
  assert (∃ p1 s1, extract_behance_profile api url s = (Ok p1, s1)
                   ∧ (fullName p1 = "" ∨ 1 < Py.len (fullName p1) < 100))
    as (p1 & s1 & E1 & H).
  { unfold extract_behance_profile.
    fields (λ p, fullName p = "" ∨ 1 < Py.len (fullName p) < 100) ltac:(right; lia).
    by left. }
  rewrite E in E1. by injection E1 as -> _.
Qed.

Lemma stackoverflow_name_bounded url s p s' :
  extract_stackoverflow_profile api url s = (Ok p, s') → Py.len (fullName p) < 100.
Proof.
  intros E.
  assert (∃ p1 s1, extract_stackoverflow_profile api url s = (Ok p1, s1)
                   ∧ Py.len (fullName p1) < 100) as (p1 & s1 & E1 & H).
  { unfold extract_stackoverflow_profile.
    fields (λ p, Py.len (fullName p) < 100) ltac:(lia). }
  rewrite E in E1. by injection E1 as -> _.
Qed.

Lemma devto_name_bounded url s p s' :
  extract_devto_profile api url s = (Ok p, s') →
  fullName p = "" ∨ 1 < Py.len (fullName p) < 100.
Proof.
  intros E.
  assert (∃ p1 s1, extract_devto_profile api url s = (Ok p1, s1)
                   ∧ (fullName p1 = "" ∨ 1 < Py.len (fullName p1) < 100))
    as (p1 & s1 & E1 & H).
  { unfold extract_devto_profile.
    fields (λ p, fullName p = "" ∨ 1 < Py.len (fullName p) < 100) ltac:(right; lia).
    by left. }
  rewrite E in E1. by injection E1 as -> _.
Qed.

(** What all four extractors guarantee of the record they return. *)
Definition sound_record (p : profile_dict) : Prop :=
  email p = "" ∧ website p = "" ∧ followers p = 0 ∧ repos p = 0
  ∧ Py.len (bio p) ≤ 500
  ∧ Py.strip (fullName p) = fullName p
  ∧ Py.strip (location p) = location p
  ∧ Py.strip (company p) = company p
  ∧ Forall (λ k, k ≠ "" ∧ Py.strip k = k) (skills p).

Lemma extractors_build_sound_records url s :
  Forall (λ extract : string → M W profile_dict,
            ∃ p s', extract url s = (Ok p, s') ∧ sound_record p)
    the_extractors.
Proof.
  unfold sound_record.
  each_extractor;
    fields (λ p, email p = "" ∧ website p = "" ∧ followers p = 0 ∧ repos p = 0
                 ∧ Py.len (bio p) ≤ 500
                 ∧ Py.strip (fullName p) = fullName p
                 ∧ Py.strip (location p) = location p
                 ∧ Py.strip (company p) = company p
                 ∧ Forall (λ k, k ≠ "" ∧ Py.strip k = k) (skills p))
      ltac:(repeat match goal with H : _ ∧ _ |- _ => destruct H end;
            split_and!;
            first [ assumption
                  | apply strip_idem
                  | rewrite len_take; lia
                  | lia
                  | apply Forall_app; split; [assumption|];
                    repeat constructor; [assumption | apply strip_idem] ]).
Qed.

Lemma extracted_is_sound extract url s p s' :
  extract ∈ the_extractors → extract url s = (Ok p, s') → sound_record p.
Proof.
  intros Hin E. pose proof (extractors_build_sound_records url s) as HF.
  rewrite Forall_forall in HF. destruct (HF _ Hin) as (p' & s1 & E' & Hp).
  rewrite E in E'. by injection E' as -> _.
Qed.

End Fields.

(** ** Where the records of a result come from *)

(** The label a pipeline writes into [source], and its extractor. *)
Definition platform_label (platform : string) : string :=
  if String.eqb platform "github" then "GitHub"
  else if String.eqb platform "behance" then "Behance"
  else if String.eqb platform "stackoverflow" then "Stack Overflow"
  else "Dev.to".

Definition platform_extractor {W El} (api : playwright W El) (platform : string)
    : string → M W profile_dict :=
  if String.eqb platform "github" then extract_github_profile api
  else if String.eqb platform "behance" then extract_behance_profile api
  else if String.eqb platform "stackoverflow" then extract_stackoverflow_profile api
  else extract_devto_profile api.

Section Provenance.

Context {W El : Type} (api : playwright W El).

Implicit Types (s : store W) (extract : string → M W profile_dict).

(** The record [q] is what [extract] returned for the page at its address,
    with [source] set to [tag] and nothing else changed. *)
Definition made_by extract (tag : string) (q : profile_dict) : Prop :=
  ∃ s0 p s1, extract (profileUrl q) s0 = (Ok p, s1) ∧ q = set_source tag p.

(** The list of records grows by such records only. *)
Definition tagging extract (tag : string) : relation (store W) := λ s s',
  ∃ ps, profiles s' = profiles s ++ ps ∧ Forall (made_by extract tag) ps.

Global Instance tagging_preorder extract tag : PreOrder (tagging extract tag).
Proof.
  split.
  - intros s. exists []. by rewrite app_nil_r.
  - intros x y z (p1 & E1 & H1) (p2 & E2 & H2). exists (p1 ++ p2).
    rewrite E2, E1, app_assoc. split; [done | by apply Forall_app].
Qed.

Lemma tagging_same extract tag s s' :
  profiles s' = profiles s → tagging extract tag s s'.
Proof. intros E. exists []. by rewrite app_nil_r. Qed.

Lemma tagged_block extract tag url (k : profile_dict → M W flow) :
  extractor_ok extract →
  (∀ s0 p s1, extract url s0 = (Ok p, s1) → profileUrl p = url →
     steps (tagging extract tag) (k p)) →
  steps (tagging extract tag) (extract url ≫= k).
Proof.
  intros Hx Hk s. rewrite run_bind.
  destruct (Hx url s) as (s' & E & Hu & _ & Hp & _). rewrite E.
  etrans; [apply tagging_same; exact Hp | by eapply Hk].
Qed.

Lemma tagged_append extract tag url s0 p s1 :
  extract url s0 = (Ok p, s1) → profileUrl p = url →
  steps (tagging extract tag) (modify (append_profile (set_source tag p))).
Proof.
  intros E Hu s. exists [set_source tag p]. split; [done|].
  repeat constructor. exists s0, p, s1. simpl. by rewrite Hu.
Qed.

Lemma tagging_from_reset extract tag (rest : M W (list profile_dict)) s :
  steps (tagging extract tag) rest →
  Forall (made_by extract tag) (profiles ((modify (set_profiles []);; rest) s).2).
Proof.
  intros Hr. rewrite run_bind, run_modify.
  destruct (Hr (set_profiles [] s)) as (ps & -> & Hps). done.
Qed.

#[local] Hint Resolve tagging_same : scraper_leaf.

Ltac tagging_step xok :=
  first
    [ eapply tagged_block; [apply xok | intros ? ? ? ? ?]
    | match goal with
      | E : _ = (Ok ?p, _) |- steps _ (modify (append_profile (set_source _ ?p))) =>
          eapply tagged_append; [exact E | assumption]
      end ].

Ltac pipeline_tagging xok :=
  apply tagging_from_reset; unfold add_candidate; autounfold with scraper;
  steps_go ltac:(tagging_step xok).

Lemma scrape_github_profiles_tagged query location max_profiles existing_urls s :
  Forall (made_by (extract_github_profile api) "GitHub")
    (profiles (scrape_github_profiles api query location max_profiles existing_urls s).2).
Proof.
  unfold scrape_github_profiles, github_selector_pass, github_regex_fallback,
    github_scrape_loop.
  pipeline_tagging (github_extractor_ok api).
Qed.

Lemma scrape_behance_profiles_tagged query location max_profiles existing_urls s :
  Forall (made_by (extract_behance_profile api) "Behance")
    (profiles (scrape_behance_profiles api query location max_profiles existing_urls s).2).
Proof.
  unfold scrape_behance_profiles, behance_discover, behance_scrape_loop.
  pipeline_tagging (behance_extractor_ok api).
Qed.

Lemma scrape_stackoverflow_profiles_tagged query location max_profiles existing_urls s :
  Forall (made_by (extract_stackoverflow_profile api) "Stack Overflow")
    (profiles
       (scrape_stackoverflow_profiles api query location max_profiles existing_urls s).2).
Proof.
  unfold scrape_stackoverflow_profiles, stackoverflow_discover, stackoverflow_scrape_loop.
  pipeline_tagging (stackoverflow_extractor_ok api).
Qed.

Lemma scrape_devto_profiles_tagged query max_profiles existing_urls s :
  Forall (made_by (extract_devto_profile api) "Dev.to")
    (profiles (scrape_devto_profiles api query max_profiles existing_urls s).2).
Proof.
  unfold scrape_devto_profiles, devto_discover, devto_scrape_loop.
  pipeline_tagging (devto_extractor_ok api).
Qed.

Lemma scrape_profiles_tagged platform query location max_profiles existing_urls w :
  Forall (made_by (platform_extractor api (Py.lower platform))
            (platform_label (Py.lower platform)))
    (profiles
       (scrape_profiles api platform query location max_profiles existing_urls
          (fresh w)).2).
Proof.
  unfold scrape_profiles, platform_extractor, platform_label. cbv zeta.
  rewrite run_bind, run_modify.
  destruct (String.eqb (Py.lower platform) "github");
    [apply scrape_github_profiles_tagged|].
  destruct (String.eqb (Py.lower platform) "behance");
    [apply scrape_behance_profiles_tagged|].
  destruct (String.eqb (Py.lower platform) "stackoverflow");
    [apply scrape_stackoverflow_profiles_tagged|].
  destruct (String.eqb (Py.lower platform) "devto");
    [apply scrape_devto_profiles_tagged|].
  rewrite run_bind, run_modify. constructor.
Qed.

End Provenance.

(** ** The shape of a candidate address *)

(** Every character of [s] satisfies [p]. *)
Fixpoint all_chars (p : ascii → bool) (s : string) : bool :=
  match s with
  | EmptyString => true
  | String c s' => p c && all_chars p s'
  end.

(** What the guards of the four discovery blocks let through, as a test on
    the finished address. *)

(** [https://github.com] and a path that starts with its only slash. *)
Definition github_profile_address (u : string) : bool :=
  match Py.drop_prefix "https://github.com" u with
  | Some h => Py.startswith "/" h && (Py.count "/" h =? 1)
  | None => false
  end.

(** [https://www.behance.net/] and a name of more than two characters of
    the class [[a-zA-Z0-9_-]] that is not on the skip list and does not
    start with [gallery]. *)
Definition behance_profile_address (u : string) : bool :=
  match Py.drop_prefix "https://www.behance.net/" u with
  | Some name =>
      all_chars Py.is_slug name && (2 <? Py.len name)
      && negb (Py.mem (Py.lower name) behance_skip_paths)
      && negb (Py.startswith "gallery" name)
  | None => false
  end.

(** An address that starts with [http] and holds, with no line feed before
    it, [/users/], one or more digits and then a slash, the end of the
    address, or a line feed that ends the address. *)
Definition stackoverflow_profile_address (u : string) : bool :=
  Py.startswith "http" u && Py.is_user_url u.

(** [https://dev.to/] and a name of more than two characters without a
    slash that is not on the skip list. *)
Definition devto_profile_address (u : string) : bool :=
  match Py.drop_prefix "https://dev.to/" u with
  | Some name =>
      (Py.count "/" name =? 0) && (2 <? Py.len name)
      && negb (Py.mem (Py.lower name) devto_skip)
  | None => false
  end.

Lemma drop_prefix_app p s : Py.drop_prefix p (p +:+ s) = Some s.
Proof.
  induction p as [|c p IH]; simpl; [by destruct s|]. by rewrite Ascii.eqb_refl.
Qed.

Lemma span_all p s a b : Py.span p s = (a, b) → all_chars p a = true.
Proof.
  revert a b. induction s as [|c s IH]; intros a b; simpl.
  - by intros [= <- <-].
  - destruct (p c) eqn:Hc; [|by intros [= <- <-]].
    destruct (Py.span p s) as [a' b'] eqn:E. intros [= <- <-]. simpl.
    rewrite Hc. simpl. by eapply IH.
Qed.

Lemma count_absent p c s : all_chars p s = true → p c = false → Py.count c s = 0.
Proof.
  intros Hs Hc. induction s as [|d s IH]; simpl in *; [done|].
  apply andb_true_iff in Hs as [Hd Hs]. rewrite (IH Hs).
  destruct (Ascii.eqb_spec c d) as [->|]; [congruence | done].
Qed.

Lemma split_head_absent p c s :
  all_chars p s = true → p c = false → Py.split_head c s = s.
Proof.
  intros Hs Hc. induction s as [|d s IH]; simpl in *; [done|].
  apply andb_true_iff in Hs as [Hd Hs]. rewrite (IH Hs).
  destruct (Ascii.eqb_spec c d) as [->|]; [congruence | done].
Qed.

(** A match of [href="(LIT[a-zA-Z0-9_-]+)"] is [LIT] followed by a
    non-empty run of the class. *)
Definition lit_and_run (lit g : string) : Prop :=
  ∃ run, g = lit +:+ run ∧ run ≠ "" ∧ all_chars Py.is_slug run = true.

Lemma href_at_shape lit s g n : Py.href_at lit s = Some (g, n) → lit_and_run lit g.
Proof.
  unfold Py.href_at. destruct (Py.drop_prefix _ s) as [rest|]; [|done].
  destruct (Py.span Py.is_slug rest) as [run after] eqn:E.
  destruct run as [|c run]; [done|]. destruct after as [|q after]; [done|].
  destruct (Ascii.eqb q Py.dquote); [|done]. intros [= <- _].
  exists (String c run). split_and!; [done | done | by eapply span_all].
Qed.

Lemma findall_from_shape lit k s : Forall (lit_and_run lit) (Py.findall_from lit k s).
Proof.
  revert k. induction s as [|c s IH]; intros k; simpl; [constructor|].
  destruct k as [|k]; [|apply IH].
  destruct (Py.href_at lit (String c s)) as [[g n]|] eqn:E; [|apply IH].
  constructor; [by eapply href_at_shape | apply IH].
Qed.

Lemma prefix_cons a p b s :
  String.prefix (String a p) (String b s)
  = if Ascii.eqb a b then String.prefix p s else false.
Proof.
  change (String.prefix (String a p) (String b s))
    with (if ascii_dec a b then String.prefix p s else false).
  destruct (ascii_dec a b), (Ascii.eqb_spec a b); congruence.
Qed.

Lemma prefix_split p s : String.prefix p s = true → ∃ t, s = p +:+ t.
Proof.
  revert s. induction p as [|a p IH]; intros s; [by exists s|].
  destruct s as [|b s]; [done|]. rewrite prefix_cons.
  destruct (Ascii.eqb_spec a b) as [->|]; [|done].
  intros (t & ->)%IH. by exists t.
Qed.

(** The Behance prefix holds a colon, so it occurs in no run of the class. *)
Lemma behance_prefix_absent s :
  all_chars Py.is_slug s = true → String.prefix "https://www.behance.net/" s = false.
Proof.
  intros Hs. destruct (String.prefix _ s) eqn:E; [|done].
  apply prefix_split in E as (t & ->). vm_compute in Hs. done.
Qed.

Lemma prefix_app p s : String.prefix p (p +:+ s) = true.
Proof.
  induction p as [|c p IH]; [by destruct s|].
  change (String c p +:+ s) with (String c (p +:+ s)).
  by rewrite prefix_cons, Ascii.eqb_refl.
Qed.

Lemma remove_from_skip old p s :
  Py.remove_from old (String.length p) (p +:+ s) = Py.remove_from old 0 s.
Proof. induction p as [|c p IH]; [done | exact IH]. Qed.

(** [replace] takes away a leading occurrence as a whole. *)
Lemma remove_leading c old s :
  Py.remove (String c old) (String c old +:+ s) = Py.remove (String c old) s.
Proof.
  unfold Py.remove.
  change (Py.remove_from (String c old) 0 (String c old +:+ s))
    with (if String.prefix (String c old) (String c old +:+ s)
          then Py.remove_from (String c old) (S (String.length old) - 1) (old +:+ s)
          else String c (Py.remove_from (String c old) 0 (old +:+ s))).
  rewrite prefix_app. simpl. rewrite Nat.sub_0_r. apply remove_from_skip.
Qed.

Lemma remove_absent s :
  all_chars Py.is_slug s = true → Py.remove "https://www.behance.net/" s = s.
Proof.
  unfold Py.remove. induction s as [|c s IH]; intros Hs; [done|].
  pose proof (behance_prefix_absent _ Hs) as Hp.
  change (Py.remove_from "https://www.behance.net/" 0 (String c s))
    with (if String.prefix "https://www.behance.net/" (String c s)
          then Py.remove_from "https://www.behance.net/"
                 (String.length "https://www.behance.net/" - 1) s
          else String c (Py.remove_from "https://www.behance.net/" 0 s)).
  rewrite Hp. simpl in Hs. apply andb_true_iff in Hs as [_ Hs]. by rewrite IH.
Qed.

(** Line 267: on a match of the Behance pattern, removing the prefix and
    cutting at [/] and at [?] leaves the name that follows the prefix. *)
Lemma behance_path_of_match name :
  all_chars Py.is_slug name = true →
  Py.split_head "?"
    (Py.split_head "/" (Py.remove "https://www.behance.net/"
                          ("https://www.behance.net/" +:+ name)))
  = name.
Proof.
  intros Hn. rewrite remove_leading, (remove_absent _ Hn).
  rewrite (split_head_absent Py.is_slug "/" name Hn eq_refl).
  by rewrite (split_head_absent Py.is_slug "?" name Hn eq_refl).
Qed.

Lemma behance_path_ok_name name :
  all_chars Py.is_slug name = true →
  behance_path_ok ("https://www.behance.net/" +:+ name)
  = Py.truthy name && (2 <? Py.len name)
    && negb (Py.mem (Py.lower name) behance_skip_paths)
    && negb (Py.startswith "gallery" name).
Proof.
  intros Hn. unfold behance_path_ok. by rewrite (behance_path_of_match name Hn).
Qed.

Section Shapes.

Context {W El : Type} (api : playwright W El).

Implicit Types (s : store W) (shape : string → bool).

(** Every candidate passes the test [shape]. *)
Definition all_shaped shape s : Prop := Forall (λ u, shape u = true) (profile_urls s).

Lemma shaped_reset shape s : preserves (all_shaped shape) s (set_profile_urls [] s).
Proof. intros _. constructor. Qed.

Lemma add_candidate_shaped shape existing_urls u :
  shape u = true → steps (preserves (all_shaped shape)) (add_candidate existing_urls u).
Proof.
  intros Hu s. unfold add_candidate. unfold_monad.
  destruct (negb (Py.mem u (profile_urls s)) && negb (Py.mem u existing_urls)); simpl;
    intros Hs; [|done].
  apply Forall_app. split; [done | by repeat constructor].
Qed.

#[local] Hint Resolve shaped_reset : scraper_leaf.

Ltac shape_step finish :=
  first
    [ guards
    | match goal with
      | |- steps _ (add_candidate _ _) => apply add_candidate_shaped; finish
      end ].

Ltac shapes finish :=
  autounfold with scraper; steps_go ltac:(shape_step finish).

Lemma github_selector_pass_shaped existing_urls :
  steps (preserves (all_shaped github_profile_address))
    (github_selector_pass api existing_urls).
Proof.
  unfold github_selector_pass.
  shapes ltac:(guard_facts; unfold github_profile_address;
               rewrite drop_prefix_app;
               repeat match goal with H : _ = _ |- _ => rewrite H end; reflexivity).
Qed.

Lemma github_regex_fallback_shaped existing_urls :
  steps (preserves (all_shaped github_profile_address))
    (github_regex_fallback api existing_urls).
Proof.
  unfold github_regex_fallback.
  shapes ltac:(idtac).
  match goal with
  | Hin : _ ∈ Py.findall_href "/" ?content |- _ =>
      pose proof (findall_from_shape "/" 0 content) as HF;
      rewrite Forall_forall in HF; destruct (HF _ Hin) as (run & -> & _ & Hrun)
  end.
  unfold github_profile_address. rewrite drop_prefix_app.
  unfold Py.startswith. rewrite (prefix_app "/" run).
  match goal with
  | Hok : github_path_ok _ = true |- _ =>
      unfold github_path_ok in Hok; apply andb_true_iff in Hok as [Hok _]; exact Hok
  end.
Qed.

Lemma behance_discover_shaped existing_urls :
  steps (preserves (all_shaped behance_profile_address))
    (behance_discover api existing_urls).
Proof.
  unfold behance_discover.
  shapes ltac:(idtac).
  match goal with
  | Hin : _ ∈ Py.findall_href _ ?content |- _ =>
      pose proof (findall_from_shape "https://www.behance.net/" 0 content) as HF;
      rewrite Forall_forall in HF; destruct (HF _ Hin) as (name & -> & _ & Hname)
  end.
  match goal with
  | Hok : behance_path_ok _ = true |- _ =>
      rewrite (behance_path_ok_name name Hname) in Hok;
      apply andb_true_iff in Hok as [Hok Hg];
      apply andb_true_iff in Hok as [Hok Hs];
      apply andb_true_iff in Hok as [_ Hl]
  end.
  unfold behance_profile_address. rewrite drop_prefix_app.
  repeat (apply andb_true_iff; split); assumption.
Qed.

Lemma stackoverflow_discover_shaped existing_urls :
  steps (preserves (all_shaped stackoverflow_profile_address))
    (stackoverflow_discover api existing_urls).
Proof.
  unfold stackoverflow_discover.
  shapes ltac:(idtac).
  unfold stackoverflow_profile_address.
  match goal with
  | Hok : Py.is_user_url _ = true |- _ => rewrite Hok, andb_true_r
  end.
  match goal with
  | |- context [if Py.startswith "http" ?h then _ else _] =>
      destruct (Py.startswith "http" h) eqn:E; [exact E | reflexivity]
  end.
Qed.

Lemma devto_discover_shaped existing_urls :
  steps (preserves (all_shaped devto_profile_address))
    (devto_discover api existing_urls).
Proof.
  unfold devto_discover.
  shapes ltac:(idtac).
  guard_facts.
  match goal with
  | Hs : Py.startswith "/" ?h = true |- _ =>
      destruct h as [|c t]; [done|];
      unfold Py.startswith in Hs; rewrite prefix_cons in Hs;
      destruct (Ascii.eqb_spec "/" c) as [<-|]; [clear Hs | done]
  end.
  change ("https://dev.to" +:+ String "/" t) with ("https://dev.to/" +:+ t).
  unfold devto_profile_address. rewrite drop_prefix_app.
  repeat match goal with
    | H : Py.count "/" (String "/" t) = 1 |- _ =>
        change (Py.count "/" (String "/" t)) with (1 + Py.count "/" t) in H
    | H : context [Py.tail (String "/" t)] |- _ =>
        change (Py.tail (String "/" t)) with t in H
    end.
  apply andb_true_iff. split; [apply andb_true_iff; split|].
  - apply Z.eqb_eq. lia.
  - apply Z.ltb_lt. lia.
  - apply negb_true_iff. assumption.
Qed.

(** A discovery block starts from an empty list, so its candidates all have
    the shape, whatever the store was. *)
Lemma github_discover_shaped existing_urls s :
  all_shaped github_profile_address
    ((github_selector_pass api existing_urls;;
      github_regex_fallback api existing_urls) s).2.
Proof.
  change ((github_selector_pass api existing_urls;;
           github_regex_fallback api existing_urls) s)
    with ((github_selector_pass api existing_urls;;
           github_regex_fallback api existing_urls) (set_profile_urls [] s)).
  apply (steps_bind (preserves (all_shaped github_profile_address)));
    [apply github_selector_pass_shaped | intros _; apply github_regex_fallback_shaped |].
  constructor.
Qed.

Lemma behance_candidates_shaped existing_urls s :
  all_shaped behance_profile_address (behance_discover api existing_urls s).2.
Proof.
  change (behance_discover api existing_urls s)
    with (behance_discover api existing_urls (set_profile_urls [] s)).
  apply behance_discover_shaped. constructor.
Qed.

Lemma stackoverflow_candidates_shaped existing_urls s :
  all_shaped stackoverflow_profile_address (stackoverflow_discover api existing_urls s).2.
Proof.
  change (stackoverflow_discover api existing_urls s)
    with (stackoverflow_discover api existing_urls (set_profile_urls [] s)).
  apply stackoverflow_discover_shaped. constructor.
Qed.

Lemma devto_candidates_shaped existing_urls s :
  all_shaped devto_profile_address (devto_discover api existing_urls s).2.
Proof.
  change (devto_discover api existing_urls s)
    with (devto_discover api existing_urls (set_profile_urls [] s)).
  apply devto_discover_shaped. constructor.
Qed.

End Shapes.

(** ** The order of the browser calls *)

(** The calls that open a session, in their order. *)
Definition opening (search_url : string) : list op :=
  [OpStart; OpLaunch; OpNewContext; OpNewPage; OpGoto search_url].

(** The calls that end a session; a run makes some of them, in this order. *)
Definition closing : list op := [OpClose AfterLoop; OpStop; OpClose InHandler].

(** Operations on the loaded page, and navigations to profile pages. *)
Definition page_op (o : op) : bool := discovery_op o || visit_op o.

Definition succeeded (os : list op) : list event := (λ o, Event o true) <$> os.

(** What the caller receives: the list returned, nothing when the call
    raised. *)
Definition returned {W} (run : result (list profile_dict) * store W)
    : list profile_dict :=
  match run.1 with Ok ps => ps | Raise _ => [] end.

(** A trace in three parts: the opening calls up to the first that failed,
    the work on the pages, the closing calls.  The profile pages navigated
    to are among [cands] and satisfy [V], and the records are for some of
    them. *)
Definition session_shape (C V : list string → Prop) (search_url : string)
    (t : list event) (ps : list profile_dict) : Prop :=
  ∃ t_open t_work t_end cands,
    t = t_open ++ t_work ++ t_end
    ∧ ops t_open `prefix_of` opening search_url
    ∧ (t_work ≠ [] → t_open = succeeded (opening search_url))
    ∧ Forall (λ e, page_op (ev_op e) = true) t_work
    ∧ ops t_end `sublist_of` closing
    ∧ (head t = Some (Event OpStart true) → OpStop ∈ ops t_end)
    ∧ tail (gotos t) = gotos t_work
    ∧ gotos t_work `sublist_of` cands
    ∧ (cands = [] ∨ C cands)
    ∧ V (gotos t_work)
    ∧ (profileUrl <$> ps) `sublist_of` gotos t_work
    ∧ ((∀ b, Event (OpClose AfterLoop) b ∉ t) → ps = [])
    ∧ Forall (λ e, ev_ok e = true) (removelast t_open).

Lemma session_shape_weaken (C C' V V' : list string → Prop) search_url t ps :
  (∀ l, C l → C' l) → (∀ l, V l → V' l) →
  session_shape C V search_url t ps → session_shape C' V' search_url t ps.
Proof.
  intros HC HV (t_open & t_work & t_end & cands & H1 & H2 & H3 & H4 & H5 & H6 & H7 & H8
                & H9 & H10 & H11 & H12 & H13).
  exists t_open, t_work, t_end, cands. split_and!; auto.
  destruct H9 as [?|?]; auto.
Qed.

Lemma session_shape_nil C V search_url : V [] → session_shape C V search_url [] [].
Proof.
  intros HV. exists [], [], [], []. split_and!; try done.
  - by exists (opening search_url).
  - apply sublist_nil_l.
  - by left.
Qed.

Section Protocol.

Context {W El : Type} (api : playwright W El).

Implicit Types (s : store W) (C V : list string → Prop).

(** A per-profile loop as the session sees it: it returns, it navigates to
    some of the candidates in their order, as many as [V] allows, and it
    adds records for some of the pages it navigated to. *)
Definition touring V (loop : M W unit) : Prop :=
  ∀ s, ∃ s' evs ps,
    loop s = (Ok tt, s')
    ∧ trace s' = trace s ++ evs
    ∧ Forall (λ e, visit_op (ev_op e) = true) evs
    ∧ gotos evs `sublist_of` profile_urls s
    ∧ V (gotos evs)
    ∧ profiles s' = profiles s ++ ps
    ∧ (profileUrl <$> ps) `sublist_of` gotos evs.

(** At most [max_profiles] profile pages, for a cap that is not negative. *)
Definition sliced_budget (max_profiles : Z) (l : list string) : Prop :=
  0 ≤ max_profiles → Z.of_nat (length l) ≤ max_profiles.

(** No profile page at all for a cap that is not positive. *)
Definition counted_budget (max_profiles : Z) (l : list string) : Prop :=
  max_profiles ≤ 0 → l = [].

Lemma github_touring max_profiles :
  touring (sliced_budget max_profiles) (github_scrape_loop api max_profiles).
Proof.
  intros s. destruct (github_scrape_loop_run api max_profiles s)
    as (s' & E & _ & _ & _ & (evs & Ht & Hg & Hv) & ps & Hp & _ & Hsub & _).
  exists s', evs, ps. rewrite Hg. split_and!; try done.
  - apply slice_to_sublist.
  - intros Hm. by apply slice_to_length.
Qed.

Lemma stackoverflow_touring max_profiles :
  touring (sliced_budget max_profiles) (stackoverflow_scrape_loop api max_profiles).
Proof.
  intros s. destruct (stackoverflow_scrape_loop_run api max_profiles s)
    as (s' & E & _ & _ & _ & (evs & Ht & Hg & Hv) & ps & Hp & _ & Hsub & _).
  exists s', evs, ps. rewrite Hg. split_and!; try done.
  - apply slice_to_sublist.
  - intros Hm. by apply slice_to_length.
Qed.

(** Lines 277-279 and 535-537: with a cap that is not positive the loop
    stops before its first navigation. *)
Lemma capped_loop_stops (attempt : string → M W flow) max_profiles urls s :
  max_profiles ≤ scraped s →
  for_each urls (λ url,
    n ← get scraped;
    if max_profiles <=? n then mret Break else attempt url) s = (Ok tt, s).
Proof.
  intros Hm. destruct urls as [|url urls]; [done|]. simpl.
  rewrite run_bind, run_bind, run_get.
  by destruct (Z.leb_spec max_profiles (scraped s)); [|lia].
Qed.

Lemma behance_scrape_loop_capped max_profiles s :
  max_profiles ≤ 0 →
  behance_scrape_loop api max_profiles s = (Ok tt, set_scraped 0 s).
Proof.
  intros Hm. unfold behance_scrape_loop.
  rewrite run_bind, run_modify, run_bind, run_get. by apply capped_loop_stops.
Qed.

Lemma devto_scrape_loop_capped max_profiles s :
  max_profiles ≤ 0 →
  devto_scrape_loop api max_profiles s = (Ok tt, set_scraped 0 s).
Proof.
  intros Hm. unfold devto_scrape_loop.
  rewrite run_bind, run_modify, run_bind, run_get. by apply capped_loop_stops.
Qed.

Lemma counted_touring (loop : M W unit) max_profiles :
  (∀ s, max_profiles ≤ 0 → loop s = (Ok tt, set_scraped 0 s)) →
  (∀ s, ∃ s' visited,
     loop s = (Ok tt, s')
     ∧ visits_all true visited (set_scraped 0 s) s'
     ∧ visited `prefix_of` profile_urls s
     ∧ (visited = profile_urls s ∨ max_profiles ≤ scraped s')
     ∧ (0 ≤ max_profiles → scraped s' ≤ max_profiles)) →
  touring (counted_budget max_profiles) loop.
Proof.
  intros Hcap Hrun s. destruct (decide (max_profiles ≤ 0)) as [Hm|Hm].
  - exists (set_scraped 0 s), [], []. rewrite (Hcap s Hm), !app_nil_r.
    split_and!; try done. apply sublist_nil_l.
  - destruct (Hrun s) as (s' & visited & E & Hv & Hpre & _ & _).
    destruct Hv as (_ & _ & _ & (evs & Ht & Hg & Hvv) & ps & Hp & _ & Hsub & _).
    exists s', evs, ps. rewrite Hg. split_and!; try done.
    + by apply prefix_is_sublist.
    + intros Hle. by destruct Hm.
Qed.

Lemma behance_touring max_profiles :
  touring (counted_budget max_profiles) (behance_scrape_loop api max_profiles).
Proof.
  apply counted_touring;
    [intros; by apply behance_scrape_loop_capped | apply behance_scrape_loop_run].
Qed.

Lemma devto_touring max_profiles :
  touring (counted_budget max_profiles) (devto_scrape_loop api max_profiles).
Proof.
  apply counted_touring;
    [intros; by apply devto_scrape_loop_capped | apply devto_scrape_loop_run].
Qed.

(** The guarded part of a session, entered with Playwright started. *)
Definition body_shape C V (search_url : string) (t : list event)
    (ps : list profile_dict) : Prop :=
  ∃ t_open t_work t_end cands,
    t = t_open ++ t_work ++ t_end
    ∧ ops t_open `prefix_of` opening search_url
    ∧ (t_work ≠ [] → t_open = succeeded (opening search_url))
    ∧ ((gotos t_open = [] ∧ t_work = []) ∨ gotos t_open = [search_url])
    ∧ head t_open = Some (Event OpStart true)
    ∧ Forall (λ e, page_op (ev_op e) = true) t_work
    ∧ (t_end = [] ∨ ∃ b, t_end = [Event (OpClose AfterLoop) b])
    ∧ gotos t_work `sublist_of` cands
    ∧ (cands = [] ∨ C cands)
    ∧ V (gotos t_work)
    ∧ (profileUrl <$> ps) `sublist_of` gotos t_work
    ∧ (t_end = [] → ps = [])
    ∧ Forall (λ e, ev_ok e = true) (removelast t_open).

(** One recorded call at the head of a sequence, in the hypothesis [E]. *)
Ltac run_call E :=
  rewrite run_bind in E;
  match type of E with
  | context [call ?o ?f ?st] =>
      change (call o f st)
        with (let '(r, w) := f (world st) in (r, set_world w (Event o (is_ok r)) st))
        in E;
      destruct (f (world st)) as [[[]|?e] ?w]
  end; simpl in E.

(** The guarded part stopped at one of the opening calls. *)
Ltac early Ht Hp :=
  match goal with
  | E : (Raise _, _) = (_, _) |- _ => injection E as <- <-
  end;
  match goal with
  | |- body_shape _ _ _ (trace ?st) _ => exists (trace st), [], [], []
  end;
  simpl; rewrite ?Ht, ?Hp; simpl; split_and!;
  [ reflexivity
  | by eexists
  | intros Hw; by destruct Hw
  | first [left; split; reflexivity | right; reflexivity]
  | reflexivity
  | constructor
  | by left
  | constructor
  | by left
  | assumption
  | constructor
  | reflexivity
  | repeat constructor ].

Lemma body_shape_run args search_url (discover loop : M W unit) existing_urls C V
    s r s' :
  trace s = [Event OpStart true] → profiles s = [] →
  steps (discovering existing_urls) discover →
  (∀ s, is_ok (discover s).1 = true → C (profile_urls (discover s).2)) →
  V [] → touring V loop →
  session_body api args search_url discover loop s = (r, s') →
  body_shape C V search_url (trace s') (profiles s').
Proof.
  intros Ht Hp Hd HC HV Hl E.
  unfold session_body, chromium_launch, browser_new_context,
    context_new_page, page_goto, browser_close in E.
  run_call E; [|early Ht Hp].
  rewrite run_bind, run_modify in E.
  run_call E; [|early Ht Hp].
  run_call E; [|early Ht Hp].
  run_call E; [|early Ht Hp].
  rewrite run_bind in E.
  match type of E with context [discover ?st] => set (s5 := st) in * end.
  assert (Ht5 : trace s5 = succeeded (opening search_url))
    by (subst s5; simpl; rewrite Ht; reflexivity).
  assert (Hp5 : profiles s5 = []) by (subst s5; simpl; exact Hp).
  pose proof (Hd s5) as (_ & HpD & _ & (evsD & HtD & HfD) & _).
  pose proof (HC s5) as HCD. unfold keeps in HpD. rewrite Hp5 in HpD.
  pose proof (gotos_none discovery_op evsD ltac:(done) HfD) as HgD.
  assert (HwD : Forall (λ e, page_op (ev_op e) = true) evsD).
  { eapply Forall_impl; [exact HfD|]. intros e He. unfold page_op. by rewrite He. }
  clearbody s5.
  destruct (discover s5) as [[[]|e] sD]; cbn [fst snd] in *; simpl in E.
  2:{ injection E as <- <-. exists (trace s5), evsD, [], [].
      rewrite HtD, HpD, HgD, Ht5, app_nil_r.
      split_and!; try done; try (by exists []); try (by right); try (by left);
        repeat constructor. }
  specialize (HCD eq_refl). rewrite run_bind in E.
  destruct (Hl sD) as (sL & evsL & ps & EL & HtL & HfL & HgL & HvL & HpL & HsL).
  rewrite EL in E. unfold call in E.
  destruct (pw_close api (world sL)) as [rc wc]. injection E as <- <-.
  exists (trace s5), (evsD ++ evsL), [Event (OpClose AfterLoop) (is_ok rc)],
    (profile_urls sD).
  simpl. rewrite HtL, HtD, HpL, HpD, gotos_app, HgD, Ht5, <- !app_assoc. simpl.
  split_and!; try done; try (by exists []); try (by right).
  - apply Forall_app. split; [done|]. eapply Forall_impl; [exact HfL|].
    intros e He. unfold page_op. rewrite He. apply orb_true_r.
  - right. by eexists.
  - repeat constructor.
Qed.

(** The handler of the outer [try]: at most the one close. *)
Lemma handler_run s :
  ∃ r' s0 hs,
    (b ← get browser; when b (browser_close api InHandler)) s = (r', s0)
    ∧ trace s0 = trace s ++ hs
    ∧ (hs = [] ∨ ∃ b, hs = [Event (OpClose InHandler) b])
    ∧ profiles s0 = profiles s.
Proof.
  rewrite run_bind, run_get. unfold when, browser_close, call.
  destruct (browser s).
  - destruct (pw_close api (world s)) as [rc wc].
    eexists _, _, [_]. split; [reflexivity|]. simpl. eauto.
  - eexists _, _, []. split; [reflexivity|]. rewrite app_nil_r. auto.
Qed.

Lemma closing_sublist (t_end hs : list event) bx :
  (t_end = [] ∨ ∃ b, t_end = [Event (OpClose AfterLoop) b]) →
  (hs = [] ∨ ∃ b, hs = [Event (OpClose InHandler) b]) →
  ops (t_end ++ [Event OpStop bx] ++ hs) `sublist_of` closing
  ∧ OpStop ∈ ops (t_end ++ [Event OpStop bx] ++ hs)
  ∧ gotos (t_end ++ [Event OpStop bx] ++ hs) = [].
Proof.
  intros [->|[b ->]] [->|[b' ->]]; simpl; unfold closing;
    (split_and!; [| rewrite !elem_of_cons; auto | done]);
    eauto 10 using sublist_nil, sublist_skip, sublist_cons.
Qed.

Lemma session_shape_run args search_url (discover loop : M W unit) existing_urls C V
    s r s' :
  trace s = [] →
  steps (discovering existing_urls) discover →
  (∀ s, is_ok (discover s).1 = true → C (profile_urls (discover s).2)) →
  V [] → touring V loop →
  session api args search_url discover loop s = (r, s') →
  session_shape C V search_url (trace s') (profiles s').
Proof.
  intros Ht Hd HC HV Hl E. unfold session in E.
  rewrite run_bind, run_modify, run_bind, run_modify, run_bind in E.
  unfold try_except in E. rewrite run_bind in E.
  unfold playwright_enter at 1, call at 1 in E. simpl in E.
  destruct (pw_start api (world s)) as [[[]|e0] w0]; simpl in E.
  2:{ rewrite run_get in E. injection E as <- <-.
      exists [Event OpStart false], [], [], []. simpl. rewrite Ht. simpl.
      split_and!; try done.
      - by eexists.
      - apply sublist_nil_l.
      - by left. }
  unfold with_exit in E.
  match type of E with context [session_body ?a ?b ?c ?d ?e ?st] =>
    destruct (session_body a b c d e st) as [rB sB] eqn:EB
  end.
  apply (body_shape_run _ _ _ _ existing_urls C V) in EB
    as (t_open & t_work & t_end & cands & HtB & Hop & Hwk & Hgo & Hhd & Hpg & Hend
        & Hsub & Hc & Hvis & Hps & Hnone & Hoks);
    [| simpl; rewrite Ht; reflexivity | reflexivity | done..].
  assert (Htail : ∃ bx hs,
    trace s' = trace sB ++ [Event OpStop bx] ++ hs
    ∧ (hs = [] ∨ ∃ b, hs = [Event (OpClose InHandler) b])
    ∧ profiles s' = profiles sB).
  { assert (Hhandled : ∀ b w,
      (let (r0, s0) :=
         (get browser ≫= λ b', when b' (browser_close api InHandler))
           (set_world w (Event OpStop b) sB) in
       match r0 with
       | Ok _ => get profiles s0
       | Raise e => (Raise e, s0)
       end) = (r, s') →
      ∃ bx hs,
        trace s' = trace sB ++ [Event OpStop bx] ++ hs
        ∧ (hs = [] ∨ ∃ b, hs = [Event (OpClose InHandler) b])
        ∧ profiles s' = profiles sB).
    { intros b w.
      destruct (handler_run (set_world w (Event OpStop b) sB))
        as (r' & s0 & hs & -> & HtH & Hhs & HpH).
      destruct r'; [rewrite run_get|]; intros [= <- <-]; exists b, hs;
        simpl in HtH; rewrite HtH, <- app_assoc; auto. }
    unfold playwright_exit in E.
    destruct rB as [[]|eB]; rewrite run_bind in E; unfold call at 1 in E;
      destruct (pw_stop api (world sB)) as [[[]|ex] wx]; simpl in E;
      try (eapply Hhandled; exact E).
    injection E as <- <-. exists true, []. simpl. auto. }
  destruct Htail as (bx & hs & HtS & Hhs & HpS).
  destruct (closing_sublist t_end hs bx Hend Hhs) as (Hcl & Hstop & Hng).
  exists t_open, t_work, (t_end ++ [Event OpStop bx] ++ hs), cands.
  rewrite HtS, HtB, HpS. split_and!; try done.
  - by rewrite <- !app_assoc.
  - rewrite <- !app_assoc, (gotos_app t_open), (gotos_app t_work), Hng, app_nil_r.
    destruct Hgo as [[-> ->]| ->]; reflexivity.
  - intros Hno. apply Hnone. destruct Hend as [->|[b ->]]; [done|].
    destruct (Hno b). rewrite !elem_of_app, elem_of_cons. auto 10.
Qed.

End Protocol.

Section Sessions.

Context {W El : Type} (api : playwright W El).

Implicit Types (s : store W) (shape : string → bool).

(** What a discovery block guarantees of its list of candidates. *)
Definition candidates_ok shape (existing_urls l : list string) : Prop :=
  NoDup l ∧ Forall (λ u, u ∉ existing_urls) l ∧ Forall (λ u, shape u = true) l.

Lemma candidates_of_store shape existing_urls s :
  urls_ok existing_urls s → all_shaped shape s →
  candidates_ok shape existing_urls (profile_urls s).
Proof. intros [Hnd Hex] Hs. split_and!; [done | by apply Forall_forall | done]. Qed.

Lemma after_first (d1 d2 : M W unit) (Q : store W → Prop) s :
  (∀ s, Q (d2 s).2) → is_ok ((d1;; d2) s).1 = true → Q ((d1;; d2) s).2.
Proof.
  intros H2. rewrite run_bind. destruct (d1 s) as [[[]|e] s1]; simpl; [|done].
  intros _. apply H2.
Qed.

Lemma scrape_github_profiles_shape query location max_profiles existing_urls s r s' :
  trace s = [] →
  scrape_github_profiles api query location max_profiles existing_urls s = (r, s') →
  session_shape (candidates_ok github_profile_address existing_urls)
    (sliced_budget max_profiles)
    (github_search_url query location) (trace s') (profiles s').
Proof.
  intros Ht. rewrite scrape_github_profiles_session.
  apply (session_shape_run api _ _ _ _ existing_urls); [done | | | | ].
  - apply discover_seq;
      [apply github_selector_pass_steps | apply github_regex_fallback_steps].
  - intros s0 _. apply candidates_of_store;
      [apply github_discover_urls | apply github_discover_shaped].
  - intros Hm. simpl. lia.
  - apply github_touring.
Qed.

Lemma scrape_behance_profiles_shape query location max_profiles existing_urls s r s' :
  trace s = [] →
  scrape_behance_profiles api query location max_profiles existing_urls s = (r, s') →
  session_shape (candidates_ok behance_profile_address existing_urls)
    (counted_budget max_profiles)
    (behance_search_url query location) (trace s') (profiles s').
Proof.
  intros Ht. rewrite scrape_behance_profiles_session.
  apply (session_shape_run api _ _ _ _ existing_urls); [done | | | | ].
  - apply discover_seq; [apply scroll_to_end_steps | apply behance_discover_steps].
  - intros s0.
    apply (after_first _ _ (λ st, candidates_ok behance_profile_address existing_urls
                                    (profile_urls st))).
    intros s1. apply candidates_of_store;
      [apply behance_discover_urls | apply behance_candidates_shaped].
  - by intros _.
  - apply behance_touring.
Qed.

Lemma scrape_stackoverflow_profiles_shape query location max_profiles existing_urls
    s r s' :
  trace s = [] →
  scrape_stackoverflow_profiles api query location max_profiles existing_urls s = (r, s') →
  session_shape (candidates_ok stackoverflow_profile_address existing_urls)
    (sliced_budget max_profiles)
    (stackoverflow_search_url query location) (trace s') (profiles s').
Proof.
  intros Ht. rewrite scrape_stackoverflow_profiles_session.
  apply (session_shape_run api _ _ _ _ existing_urls); [done | | | | ].
  - apply stackoverflow_discover_steps.
  - intros s0 _. apply candidates_of_store;
      [apply stackoverflow_discover_urls | apply stackoverflow_candidates_shaped].
  - intros Hm. simpl. lia.
  - apply stackoverflow_touring.
Qed.

Lemma scrape_devto_profiles_shape query max_profiles existing_urls s r s' :
  trace s = [] →
  scrape_devto_profiles api query max_profiles existing_urls s = (r, s') →
  session_shape (candidates_ok devto_profile_address existing_urls)
    (counted_budget max_profiles)
    (devto_search_url query) (trace s') (profiles s').
Proof.
  intros Ht. rewrite scrape_devto_profiles_session.
  apply (session_shape_run api _ _ _ _ existing_urls); [done | | | | ].
  - apply discover_seq; [apply scroll_to_end_steps | apply devto_discover_steps].
  - intros s0.
    apply (after_first _ _ (λ st, candidates_ok devto_profile_address existing_urls
                                    (profile_urls st))).
    intros s1. apply candidates_of_store;
      [apply devto_discover_urls | apply devto_candidates_shaped].
  - by intros _.
  - apply devto_touring.
Qed.

(** The candidates of a run, whatever the platform: distinct and not
    already known. *)
Definition fresh_candidates (existing_urls l : list string) : Prop :=
  NoDup l ∧ Forall (λ u, u ∉ existing_urls) l.

Lemma candidates_ok_fresh shape existing_urls l :
  candidates_ok shape existing_urls l → fresh_candidates existing_urls l.
Proof. by intros (? & ? & _). Qed.

Lemma scrape_profiles_shape platform query location max_profiles existing_urls w :
  session_shape (fresh_candidates existing_urls) (λ _, True)
    (platform_search_url (Py.lower platform) query location)
    (trace (scrape_profiles api platform query location max_profiles existing_urls
              (fresh w)).2)
    (profiles (scrape_profiles api platform query location max_profiles existing_urls
                 (fresh w)).2).
Proof.
  unfold scrape_profiles, platform_search_url. cbv zeta.
  rewrite run_bind, run_modify.
  destruct (String.eqb (Py.lower platform) "github").
  { eapply session_shape_weaken; [apply candidates_ok_fresh | done |].
    eapply scrape_github_profiles_shape; [|apply surjective_pairing]. done. }
  destruct (String.eqb (Py.lower platform) "behance").
  { eapply session_shape_weaken; [apply candidates_ok_fresh | done |].
    eapply scrape_behance_profiles_shape; [|apply surjective_pairing]. done. }
  destruct (String.eqb (Py.lower platform) "stackoverflow").
  { eapply session_shape_weaken; [apply candidates_ok_fresh | done |].
    eapply scrape_stackoverflow_profiles_shape; [|apply surjective_pairing]. done. }
  destruct (String.eqb (Py.lower platform) "devto").
  { eapply session_shape_weaken; [apply candidates_ok_fresh | done |].
    eapply scrape_devto_profiles_shape; [|apply surjective_pairing]. done. }
  rewrite run_bind, run_modify. by apply session_shape_nil.
Qed.

Lemma fresh_candidates_unknown existing_urls l :
  fresh_candidates existing_urls l → Forall (λ u, u ∉ existing_urls) l.
Proof. by intros [_ ?]. Qed.

Lemma candidates_ok_shaped shape existing_urls l :
  candidates_ok shape existing_urls l → Forall (λ u, shape u = true) l.
Proof. by intros (_ & _ & ?). Qed.

(** The list the caller receives is the list accumulated, or nothing. *)
Lemma returned_of_outcome existing_urls max_profiles search_url s
    (run : result (list profile_dict) * store W) :
  session_outcome existing_urls max_profiles search_url s run.1 run.2 →
  returned run = profiles run.2 ∨ returned run = [].
Proof.
  unfold returned. intros (_ & _ & [->|(e & -> & _)] & _); auto.
Qed.

Lemma returned_of_scrape_profiles platform query location max_profiles existing_urls w :
  let run := scrape_profiles api platform query location max_profiles existing_urls
               (fresh w) in
  returned run = profiles run.2 ∨ returned run = [].
Proof.
  cbv zeta. unfold returned.
  destruct (scrape_profiles_records api platform query location max_profiles
              existing_urls w _ _ (surjective_pairing _)) as [_ [->|(e & -> & _)]]; auto.
Qed.

Lemma Forall_returned (Q : profile_dict → Prop)
    (run : result (list profile_dict) * store W) :
  returned run = profiles run.2 ∨ returned run = [] →
  Forall Q (profiles run.2) → Forall Q (returned run).
Proof. intros [->| ->]; [done | constructor]. Qed.

(** What the shape of a session says of the profile pages navigated to. *)
Lemma session_shape_tour (C V : list string → Prop) (Q : string → Prop)
    search_url t ps :
  (∀ l, C l → Forall Q l) →
  session_shape C V search_url t ps →
  Forall Q (tail (gotos t)) ∧ (profileUrl <$> ps) `sublist_of` tail (gotos t).
Proof.
  intros HC (t_open & t_work & t_end & cands & _ & _ & _ & _ & _ & _ & -> & Hsub
             & Hc & _ & Hps & _).
  split; [|done]. apply Forall_forall. intros u Hu.
  assert (Hin : u ∈ cands) by (by eapply elem_of_sublist).
  destruct Hc as [->|Hc]; [by apply elem_of_nil in Hin|].
  apply HC in Hc. rewrite Forall_forall in Hc. by apply Hc.
Qed.

Lemma session_shape_distinct existing_urls V search_url t ps :
  session_shape (fresh_candidates existing_urls) V search_url t ps →
  NoDup (tail (gotos t)).
Proof.
  intros (t_open & t_work & t_end & cands & _ & _ & _ & _ & _ & _ & -> & Hsub
          & Hc & _ & Hps & _).
  eapply sublist_NoDup; [|exact Hsub]. destruct Hc as [->|[Hnd _]]; [constructor | done].
Qed.

Lemma session_shape_budget C V search_url t ps :
  session_shape C V search_url t ps → V (tail (gotos t)).
Proof.
  by intros (t_open & t_work & t_end & cands & _ & _ & _ & _ & _ & _ & -> & _ & _
             & ? & _).
Qed.

Lemma session_shape_aborted C V search_url t ps :
  session_shape C V search_url t ps →
  (∀ b, Event (OpClose AfterLoop) b ∉ t) → ps = [].
Proof.
  by intros (t_open & t_work & t_end & cands & _ & _ & _ & _ & _ & _ & _ & _ & _
             & _ & _ & ? & _).
Qed.

End Sessions.

(** ** The page a record was read from *)

(** The selector of the check of lines 544-546. *)
Definition devto_profile_check : string :=
  ".profile-header, .crayons-card--profile, .profile-details".

(** What a pipeline asks of the page between the navigation and the
    extraction: nothing, or on Dev.to an element for the check. *)
Definition platform_check (platform : string) : option string :=
  if String.eqb platform "github" then None
  else if String.eqb platform "behance" then None
  else if String.eqb platform "stackoverflow" then None
  else Some devto_profile_check.

Section Pages.

Context {W El : Type} (api : playwright W El).

Implicit Types (s : store W) (extract : string → M W profile_dict).

(** From the store [s0] that the navigation left to the store [s0'] the
    extractor starts from: the same store, or the store after the check
    found an element. *)
Definition arrived (check : option string) s0 s0' : Prop :=
  match check with
  | None => s0' = s0
  | Some sel => ∃ el, page_query_selector api sel s0 = (Ok (Some el), s0')
  end.

(** The record [q] was read from the page that the navigation to its own
    address loaded: from a store [s_pre] the call [page.goto(profileUrl q)]
    succeeded and left [s0]; after the check, if any, [extract] ran on that
    store and returned [p]; [q] is [p] with [source] set to [tag].  The
    calls made up to there open the trace [t], and [q] comes in the list
    [all] right after the records that [s_pre] held. *)
Definition built_on_page extract (tag : string) (check : option string)
    (t : list event) (all : list profile_dict) (q : profile_dict) : Prop :=
  ∃ s_pre s0 s0' p s1,
    page_goto api (profileUrl q) s_pre = (Ok tt, s0)
    ∧ arrived check s0 s0'
    ∧ extract (profileUrl q) s0' = (Ok p, s1)
    ∧ q = set_source tag p
    ∧ trace s1 `prefix_of` t
    ∧ (profiles s_pre ++ [q]) `prefix_of` all.

(** The trace grows, and the list of records grows by such records only. *)
Definition building extract (tag : string) (check : option string)
    : relation (store W) := λ s s',
  ∃ ps, profiles s' = profiles s ++ ps
        ∧ trace s `prefix_of` trace s'
        ∧ Forall (built_on_page extract tag check (trace s') (profiles s')) ps.

Lemma built_later extract tag check t all t' all' q :
  t `prefix_of` t' → all `prefix_of` all' →
  built_on_page extract tag check t all q → built_on_page extract tag check t' all' q.
Proof.
  intros Ht Ha (s_pre & s0 & s0' & p & s1 & ? & ? & ? & ? & ? & ?).
  exists s_pre, s0, s0', p, s1. split_and!; try done; by etrans.
Qed.

Global Instance building_preorder extract tag check :
  PreOrder (building extract tag check).
Proof.
  split.
  - intros s. exists []. by rewrite app_nil_r.
  - intros x y z (p1 & E1 & T1 & H1) (p2 & E2 & T2 & H2).
    exists (p1 ++ p2). split_and!; [by rewrite E2, E1, app_assoc | by etrans |].
    apply Forall_app. split; [|exact H2].
    eapply Forall_impl; [exact H1|]. intros q Hq.
    eapply built_later; [exact T2 | | exact Hq].
    rewrite E2. by exists p2.
Qed.

Lemma building_same extract tag check s s' :
  trace s' = trace s → profiles s' = profiles s → building extract tag check s s'.
Proof.
  intros Et Ep. exists []. rewrite app_nil_r, Et. done.
Qed.

Lemma building_calls extract tag check s s' evs :
  trace s' = trace s ++ evs → profiles s' = profiles s →
  building extract tag check s s'.
Proof.
  intros Et Ep. exists []. rewrite app_nil_r, Et. split_and!; [done | by exists evs | done].
Qed.

Lemma building_call extract tag check s w e :
  building extract tag check s (set_world w e s).
Proof. by apply (building_calls _ _ _ _ _ [e]). Qed.

(** The record appended after a navigation to [url] from [s]. *)
Lemma building_record extract tag check url s s0 s0' s2 s' evs :
  page_goto api url s = (Ok tt, s0) →
  arrived check s0 s0' →
  extract url s0' = (Ok (profile s2), s2) →
  profileUrl (profile s2) = url →
  trace s2 = trace s ++ evs →
  trace s' = trace s2 →
  profiles s' = profiles s ++ [set_source tag (profile s2)] →
  building extract tag check s s'.
Proof.
  intros Eg Ha Ex Hu Ht Ht' Hp.
  exists [set_source tag (profile s2)]. split_and!; [done | rewrite Ht', Ht; by exists evs |].
  repeat constructor. exists s, s0, s0', (profile s2), s2. simpl. rewrite Hu.
  split_and!; try done; [by rewrite Ht' | by rewrite Hp].
Qed.

(** The loop body of lines 119-134 and of lines 406-418. *)
Lemma built_plain extract tag url :
  extractor_ok extract →
  steps (building extract tag None)
    (try_except
       (page_goto api url;;
        p ← extract url;
        when (Py.truthy (fullName p))
          (modify (append_profile (set_source tag p)));;
        mret Continue)
       (λ _, mret Continue)).
Proof.
  intros Hx s. unfold try_except. rewrite run_bind.
  destruct (page_goto api url s) as [[[]|e] s0] eqn:Eg.
  - rewrite run_bind.
    destruct (Hx url s0) as (s2 & E & Hurl & _ & Hp & _ & _ & _ & evs & Ht & _).
    rewrite E.
    assert (Hs0 : trace s0 = trace s ++ [Event (OpGoto url) true]
                  ∧ profiles s0 = profiles s).
    { revert Eg. unfold page_goto, call.
      destruct (pw_goto api url (world s)) as [[[]|?] ?]; by intros [= <-]. }
    destruct Hs0 as [Ht0 Hp0].
    destruct (Py.truthy (fullName (profile s2))); simpl.
    + eapply (building_record extract tag None url s s0 s0 s2); try done.
      * by rewrite Ht, Ht0, <- app_assoc.
      * simpl. by rewrite Hp, Hp0.
    + eapply building_calls; [|by rewrite Hp, Hp0].
      by rewrite Ht, Ht0, <- app_assoc.
  - simpl. revert Eg. unfold page_goto, call.
    destruct (pw_goto api url (world s)) as [[[]|?] ?]; intros [= _ <-].
    apply building_call.
Qed.

(** The guarded part of the loop body of lines 280-293. *)
Lemma built_counted extract tag url :
  extractor_ok extract →
  steps (building extract tag None)
    (try_except
       (page_goto api url;;
        p ← extract url;
        when (Py.truthy (fullName p))
          (modify (append_profile (set_source tag p));;
           modify (λ s, set_scraped (scraped s + 1) s));;
        mret Continue)
       (λ _, mret Continue)).
Proof.
  intros Hx s. unfold try_except. rewrite run_bind.
  destruct (page_goto api url s) as [[[]|e] s0] eqn:Eg.
  - rewrite run_bind.
    destruct (Hx url s0) as (s2 & E & Hurl & _ & Hp & _ & _ & _ & evs & Ht & _).
    rewrite E.
    assert (Hs0 : trace s0 = trace s ++ [Event (OpGoto url) true]
                  ∧ profiles s0 = profiles s).
    { revert Eg. unfold page_goto, call.
      destruct (pw_goto api url (world s)) as [[[]|?] ?]; by intros [= <-]. }
    destruct Hs0 as [Ht0 Hp0].
    destruct (Py.truthy (fullName (profile s2))); simpl.
    + eapply (building_record extract tag None url s s0 s0 s2); try done.
      * by rewrite Ht, Ht0, <- app_assoc.
      * simpl. by rewrite Hp, Hp0.
    + eapply building_calls; [|by rewrite Hp, Hp0].
      by rewrite Ht, Ht0, <- app_assoc.
  - simpl. revert Eg. unfold page_goto, call.
    destruct (pw_goto api url (world s)) as [[[]|?] ?]; intros [= _ <-].
    apply building_call.
Qed.

(** The guarded part of the loop body of lines 538-556. *)
Lemma built_checked extract tag check url :
  extractor_ok extract →
  steps (building extract tag (Some check))
    (try_except
       (page_goto api url;;
        profile_check ← page_query_selector api check;
        match profile_check with
        | None => mret Continue
        | Some _ =>
            p ← extract url;
            when (Py.truthy (fullName p))
              (modify (append_profile (set_source tag p));;
               modify (λ s, set_scraped (scraped s + 1) s));;
            mret Continue
        end)
       (λ _, mret Continue)).
Proof.
  intros Hx s. unfold try_except. rewrite run_bind.
  destruct (page_goto api url s) as [[[]|e] s0] eqn:Eg.
  - assert (Hs0 : trace s0 = trace s ++ [Event (OpGoto url) true]
                  ∧ profiles s0 = profiles s).
    { revert Eg. unfold page_goto, call.
      destruct (pw_goto api url (world s)) as [[[]|?] ?]; by intros [= <-]. }
    destruct Hs0 as [Ht0 Hp0].
    rewrite run_bind.
    destruct (page_query_selector api check s0) as [[[el|]|e] s0'] eqn:Ec.
    + assert (Hs0' : trace s0' = trace s0 ++ [Event (OpQuerySelector check) true]
                     ∧ profiles s0' = profiles s0).
      { revert Ec. unfold page_query_selector, call.
        destruct (pw_query_selector api check (world s0)) as [[?|?] ?]; by intros [= _ <-]. }
      destruct Hs0' as [Ht0' Hp0'].
      rewrite run_bind.
      destruct (Hx url s0') as (s2 & E & Hurl & _ & Hp & _ & _ & _ & evs & Ht & _).
      rewrite E.
      destruct (Py.truthy (fullName (profile s2))); simpl.
      * eapply (building_record extract tag (Some check) url s s0 s0' s2); try done.
        -- by exists el.
        -- by rewrite Ht, Ht0', Ht0, <- !app_assoc.
        -- simpl. by rewrite Hp, Hp0', Hp0.
      * eapply building_calls; [|by rewrite Hp, Hp0', Hp0].
        by rewrite Ht, Ht0', Ht0, <- !app_assoc.
    + simpl. revert Ec. unfold page_query_selector, call.
      destruct (pw_query_selector api check (world s0)) as [[?|?] ?]; intros [= _ <-].
      eapply building_calls; [|by simpl; rewrite Hp0].
      simpl. by rewrite Ht0, <- app_assoc.
    + simpl. revert Ec. unfold page_query_selector, call.
      destruct (pw_query_selector api check (world s0)) as [[?|?] ?]; intros [= _ <-].
      eapply building_calls; [|by simpl; rewrite Hp0].
      simpl. by rewrite Ht0, <- app_assoc.
  - simpl. revert Eg. unfold page_goto, call.
    destruct (pw_goto api url (world s)) as [[[]|?] ?]; intros [= _ <-].
    apply building_call.
Qed.

Lemma building_from_reset extract tag check (rest : M W (list profile_dict)) s :
  steps (building extract tag check) rest →
  Forall (built_on_page extract tag check
            (trace ((modify (set_profiles []);; rest) s).2)
            (profiles ((modify (set_profiles []);; rest) s).2))
    (profiles ((modify (set_profiles []);; rest) s).2).
Proof.
  intros Hr. rewrite run_bind, run_modify.
  destruct (Hr (set_profiles [] s)) as (ps & E & _ & Hps).
  simpl in E. by rewrite E in *.
Qed.

#[local] Hint Resolve building_same building_call : scraper_leaf.

Ltac page_step xok :=
  first [ apply (built_plain _ _ _ xok)
        | apply (built_counted _ _ _ xok)
        | apply (built_checked _ _ _ _ xok) ].

Ltac pipeline_pages xok :=
  apply building_from_reset; unfold add_candidate; autounfold with scraper;
  steps_go ltac:(page_step xok).

Lemma scrape_github_profiles_pages query location max_profiles existing_urls s :
  Forall (built_on_page (extract_github_profile api) "GitHub" None
            (trace (scrape_github_profiles api query location max_profiles
                      existing_urls s).2)
            (profiles (scrape_github_profiles api query location max_profiles
                         existing_urls s).2))
    (profiles (scrape_github_profiles api query location max_profiles existing_urls s).2).
Proof.
  unfold scrape_github_profiles, github_selector_pass, github_regex_fallback,
    github_scrape_loop.
  pipeline_pages (github_extractor_ok api).
Qed.

Lemma scrape_behance_profiles_pages query location max_profiles existing_urls s :
  Forall (built_on_page (extract_behance_profile api) "Behance" None
            (trace (scrape_behance_profiles api query location max_profiles
                      existing_urls s).2)
            (profiles (scrape_behance_profiles api query location max_profiles
                         existing_urls s).2))
    (profiles (scrape_behance_profiles api query location max_profiles existing_urls s).2).
Proof.
  unfold scrape_behance_profiles, behance_discover, behance_scrape_loop.
  pipeline_pages (behance_extractor_ok api).
Qed.

Lemma scrape_stackoverflow_profiles_pages query location max_profiles existing_urls s :
  Forall (built_on_page (extract_stackoverflow_profile api) "Stack Overflow" None
            (trace (scrape_stackoverflow_profiles api query location max_profiles
                      existing_urls s).2)
            (profiles (scrape_stackoverflow_profiles api query location max_profiles
                         existing_urls s).2))
    (profiles
       (scrape_stackoverflow_profiles api query location max_profiles existing_urls s).2).
Proof.
  unfold scrape_stackoverflow_profiles, stackoverflow_discover, stackoverflow_scrape_loop.
  pipeline_pages (stackoverflow_extractor_ok api).
Qed.

Lemma scrape_devto_profiles_pages query max_profiles existing_urls s :
  Forall (built_on_page (extract_devto_profile api) "Dev.to" (Some devto_profile_check)
            (trace (scrape_devto_profiles api query max_profiles existing_urls s).2)
            (profiles (scrape_devto_profiles api query max_profiles existing_urls s).2))
    (profiles (scrape_devto_profiles api query max_profiles existing_urls s).2).
Proof.
  unfold scrape_devto_profiles, devto_discover, devto_scrape_loop.
  pipeline_pages (devto_extractor_ok api).
Qed.

Lemma scrape_profiles_pages platform query location max_profiles existing_urls w :
  Forall (built_on_page (platform_extractor api (Py.lower platform))
            (platform_label (Py.lower platform)) (platform_check (Py.lower platform))
            (trace (scrape_profiles api platform query location max_profiles
                      existing_urls (fresh w)).2)
            (profiles (scrape_profiles api platform query location max_profiles
                         existing_urls (fresh w)).2))
    (profiles
       (scrape_profiles api platform query location max_profiles existing_urls
          (fresh w)).2).
Proof.
  unfold scrape_profiles, platform_extractor, platform_label, platform_check. cbv zeta.
  rewrite run_bind, run_modify.
  destruct (String.eqb (Py.lower platform) "github");
    [apply scrape_github_profiles_pages|].
  destruct (String.eqb (Py.lower platform) "behance");
    [apply scrape_behance_profiles_pages|].
  destruct (String.eqb (Py.lower platform) "stackoverflow");
    [apply scrape_stackoverflow_profiles_pages|].
  destruct (String.eqb (Py.lower platform) "devto");
    [apply scrape_devto_profiles_pages|].
  rewrite run_bind, run_modify. constructor.
Qed.

End Pages.

(** ** What a run of the scraper guarantees *)

Section Runs.

Context {W El : Type} (api : playwright W El).

Implicit Types (w : W).

Lemma platform_extractor_listed platform :
  platform_extractor api platform ∈ the_extractors api.
Proof.
  unfold platform_extractor, the_extractors.
  repeat match goal with |- context [String.eqb ?a ?b] => destruct (String.eqb a b) end;
    rewrite !elem_of_cons; auto 10.
Qed.

(** X7: every record the scraper returns was read from the page that the
    navigation to its own address loaded.  There is a store from which
    [page.goto(profileUrl)] succeeded; on the store this navigation left
    (on Dev.to after the check of the page found an element) the extractor
    of the platform returned a record, and the record returned is that one
    with [source] set to the label of the platform and nothing else
    changed.  The calls up to the end of that extraction open the trace of
    the run, and the record comes in the result right after the records
    collected before the navigation. *)
Theorem returned_records_are_tagged_extractions
    platform query location max_profiles existing_urls (w : W) :
  Forall (λ q, source q = Some (platform_label (Py.lower platform))
               ∧ built_on_page api (platform_extractor api (Py.lower platform))
                   (platform_label (Py.lower platform))
                   (platform_check (Py.lower platform))
                   (trace (scrape_profiles api platform query location max_profiles
                             existing_urls (fresh w)).2)
                   (returned (scrape_profiles api platform query location max_profiles
                                existing_urls (fresh w)))
                   q)
    (returned
       (scrape_profiles api platform query location max_profiles existing_urls
          (fresh w))).
Proof.
  destruct (returned_of_scrape_profiles api platform query location max_profiles
              existing_urls w) as [-> | ->]; [|constructor].
  eapply Forall_impl; [apply scrape_profiles_pages|].
  intros q Hq. split; [|exact Hq].
  destruct Hq as (_ & _ & _ & p & _ & _ & _ & _ & -> & _). done.
Qed.

(** X8: in every record the scraper returns, [email] and [website] are
    empty and [followers] and [repos] are 0; the biography has at most 500
    characters; the name, the location and the company carry no white space
    at either end; and every skill is a non-empty stripped text. *)
Theorem returned_records_are_sound
    platform query loc max_profiles existing_urls w :
  Forall (λ q, email q = "" ∧ website q = "" ∧ followers q = 0 ∧ repos q = 0
               ∧ Py.len (bio q) ≤ 500
               ∧ Py.strip (fullName q) = fullName q
               ∧ Py.strip (location q) = location q
               ∧ Py.strip (company q) = company q
               ∧ Forall (λ k, k ≠ "" ∧ Py.strip k = k) (skills q))
    (returned
       (scrape_profiles api platform query loc max_profiles existing_urls
          (fresh w))).
Proof.
  apply Forall_returned; [apply returned_of_scrape_profiles|].
  eapply Forall_impl; [apply scrape_profiles_tagged|].
  intros q (s0 & p & s1 & E & ->).
  exact (extracted_is_sound api _ _ _ _ _ (platform_extractor_listed _) E).
Qed.

(** X9: the browser calls of a run come in three parts.  First the calls
    that open the session, in their order and up to the first that fails:
    entering Playwright, the launch, the context, the page, the navigation
    to the search address.  Then, only if all of these succeeded, operations
    on the page and navigations to profile pages.  Last some of: the close
    after the loop, the exit of Playwright, the close in the handler, in this
    order.  So no page is touched after a close, the browser is launched at
    most once, and Playwright, once entered, is always exited. *)
Theorem session_follows_protocol
    platform query location max_profiles existing_urls w :
  ∃ t_open t_work t_end,
    trace (scrape_profiles api platform query location max_profiles existing_urls
             (fresh w)).2
    = t_open ++ t_work ++ t_end
    ∧ ops t_open `prefix_of`
        opening (platform_search_url (Py.lower platform) query location)
    ∧ Forall (λ e, ev_ok e = true) (removelast t_open)
    ∧ (t_work ≠ [] →
       t_open = succeeded
                  (opening (platform_search_url (Py.lower platform) query location)))
    ∧ Forall (λ e, page_op (ev_op e) = true) t_work
    ∧ ops t_end `sublist_of` closing
    ∧ (head (trace (scrape_profiles api platform query location max_profiles
                      existing_urls (fresh w)).2)
       = Some (Event OpStart true) →
       OpStop ∈ ops t_end).
Proof.
  destruct (scrape_profiles_shape api platform query location max_profiles
              existing_urls w)
    as (t_open & t_work & t_end & cands & H1 & H2 & H3 & H4 & H5 & H6 & _ & _ & _ & _
        & _ & _ & H13).
  by exists t_open, t_work, t_end.
Qed.

(** X10: after the search address, a run navigates to no address twice and
    to no address of [existing_urls], and the records returned are for
    addresses it navigated to, in the order of the navigations. *)
Theorem profile_pages_visited_at_most_once
    platform query location max_profiles existing_urls w :
  NoDup (tail (gotos (trace (scrape_profiles api platform query location max_profiles
                               existing_urls (fresh w)).2)))
  ∧ Forall (λ u, u ∉ existing_urls)
      (tail (gotos (trace (scrape_profiles api platform query location max_profiles
                             existing_urls (fresh w)).2)))
  ∧ (profileUrl <$> returned (scrape_profiles api platform query location
                                max_profiles existing_urls (fresh w)))
    `sublist_of`
    tail (gotos (trace (scrape_profiles api platform query location max_profiles
                          existing_urls (fresh w)).2)).
Proof.
  pose proof (scrape_profiles_shape api platform query location max_profiles
                existing_urls w) as Hs.
  destruct (session_shape_tour _ _ (λ u, u ∉ existing_urls) _ _ _
              (fresh_candidates_unknown existing_urls) Hs) as [Hex Hsub].
  split_and!; [by eapply session_shape_distinct | done |].
  destruct (returned_of_scrape_profiles api platform query location max_profiles
              existing_urls w) as [-> | ->]; [done | apply sublist_nil_l].
Qed.

(** X23: a run that did not reach the close after the per-profile loop
    returns nothing: what stops a session before the loop, or in discovery,
    leaves the list of records empty. *)
Theorem aborted_run_returns_nothing
    platform query location max_profiles existing_urls w :
  (∀ b, Event (OpClose AfterLoop) b
        ∉ trace (scrape_profiles api platform query location max_profiles
                   existing_urls (fresh w)).2) →
  returned (scrape_profiles api platform query location max_profiles existing_urls
              (fresh w)) = [].
Proof.
  intros Hno.
  pose proof (session_shape_aborted _ _ _ _ _
                (scrape_profiles_shape api platform query location max_profiles
                   existing_urls w) Hno) as Hnil.
  destruct (returned_of_scrape_profiles api platform query location max_profiles
              existing_urls w) as [-> | ->]; done.
Qed.

(** The four pipelines, run from a store without trace: what is said of the
    candidates holds of the pages navigated to and of the records. *)
Lemma addresses_have_shape shape existing_urls V max_profiles search_url
    (run : result (list profile_dict) * store W) s :
  session_shape (candidates_ok shape existing_urls) V search_url (trace run.2)
    (profiles run.2) →
  session_outcome existing_urls max_profiles search_url s run.1 run.2 →
  Forall (λ u, shape u = true) (tail (gotos (trace run.2)))
  ∧ Forall (λ q, shape (profileUrl q) = true) (returned run).
Proof.
  intros Hs Hout.
  destruct (session_shape_tour _ _ (λ u, shape u = true) _ _ _
              (candidates_ok_shaped shape existing_urls) Hs) as [Hg Hsub].
  split; [done|].
  eapply Forall_returned; [by eapply returned_of_outcome|].
  apply Forall_forall. intros q Hq. rewrite Forall_forall in Hg. apply Hg.
  eapply elem_of_sublist; [|exact Hsub]. by apply list_elem_of_fmap_2.
Qed.

(** X11: the GitHub pipeline navigates, after the search address, only to
    addresses made of [https://github.com] and a path with a single slash,
    the leading one; the records it returns are for such addresses. *)
Theorem github_visits_top_level_paths query location max_profiles existing_urls w :
  Forall (λ u, github_profile_address u = true)
    (tail (gotos (trace (scrape_github_profiles api query location max_profiles
                           existing_urls (fresh w)).2)))
  ∧ Forall (λ q, github_profile_address (profileUrl q) = true)
      (returned (scrape_github_profiles api query location max_profiles
                   existing_urls (fresh w))).
Proof.
  eapply addresses_have_shape.
  - eapply scrape_github_profiles_shape; [|apply surjective_pairing]; done.
  - eapply scrape_github_profiles_outcome; [|apply surjective_pairing]; done.
Qed.

(** X12: the Behance pipeline navigates, after the search address, only to
    addresses made of [https://www.behance.net/] and a name of more than two
    characters of the class [[a-zA-Z0-9_-]] that is not on the skip list,
    whatever its case, and does not start with [gallery]. *)
Theorem behance_visits_member_pages query location max_profiles existing_urls w :
  Forall (λ u, behance_profile_address u = true)
    (tail (gotos (trace (scrape_behance_profiles api query location max_profiles
                           existing_urls (fresh w)).2)))
  ∧ Forall (λ q, behance_profile_address (profileUrl q) = true)
      (returned (scrape_behance_profiles api query location max_profiles
                   existing_urls (fresh w))).
Proof.
  eapply addresses_have_shape.
  - eapply scrape_behance_profiles_shape; [|apply surjective_pairing]; done.
  - eapply scrape_behance_profiles_outcome; [|apply surjective_pairing]; done.
Qed.

(** X13: the Stack Overflow pipeline navigates, after the listing, only to
    addresses that start with [http] and hold, with no line feed before it,
    [/users/] followed by one or more digits and then a slash, the end of
    the address, or a line feed that ends the address. *)
Theorem stackoverflow_visits_user_pages query location max_profiles existing_urls w :
  Forall (λ u, stackoverflow_profile_address u = true)
    (tail (gotos (trace (scrape_stackoverflow_profiles api query location max_profiles
                           existing_urls (fresh w)).2)))
  ∧ Forall (λ q, stackoverflow_profile_address (profileUrl q) = true)
      (returned (scrape_stackoverflow_profiles api query location max_profiles
                   existing_urls (fresh w))).
Proof.
  eapply addresses_have_shape.
  - eapply scrape_stackoverflow_profiles_shape; [|apply surjective_pairing]; done.
  - eapply scrape_stackoverflow_profiles_outcome; [|apply surjective_pairing]; done.
Qed.

(** X14: the Dev.to pipeline navigates, after the home page, only to
    addresses made of [https://dev.to/] and a name of more than two
    characters without a slash that is not on the skip list, whatever its
    case. *)
Theorem devto_visits_author_pages query max_profiles existing_urls w :
  Forall (λ u, devto_profile_address u = true)
    (tail (gotos (trace (scrape_devto_profiles api query max_profiles
                           existing_urls (fresh w)).2)))
  ∧ Forall (λ q, devto_profile_address (profileUrl q) = true)
      (returned (scrape_devto_profiles api query max_profiles existing_urls (fresh w))).
Proof.
  eapply addresses_have_shape.
  - eapply scrape_devto_profiles_shape; [|apply surjective_pairing]; done.
  - eapply scrape_devto_profiles_outcome; [|apply surjective_pairing]; done.
Qed.

End Runs.

(** A search page that cannot be loaded: the session is closed in the
    handler and the caller receives the empty list. *)
Lemma aborted_run_returns_nothing_witness :
  (∀ b, Event (OpClose AfterLoop) b
        ∉ trace (scrape_profiles (Fixture.browser_of (Fixture.github_site true))
                   "github" "full" "India" 5 [] (fresh Fixture.blank)).2)
  ∧ closes (trace (scrape_profiles (Fixture.browser_of (Fixture.github_site true))
                     "github" "full" "India" 5 [] (fresh Fixture.blank)).2)
    = [InHandler]
  ∧ returned (scrape_profiles (Fixture.browser_of (Fixture.github_site true))
                "github" "full" "India" 5 [] (fresh Fixture.blank)) = [].
Proof.
  assert (Hno : ∀ b, Event (OpClose AfterLoop) b
                     ∉ trace (scrape_profiles
                                (Fixture.browser_of (Fixture.github_site true))
                                "github" "full" "India" 5 [] (fresh Fixture.blank)).2).
  { intros b Hin. apply list_elem_of_In in Hin. vm_compute in Hin.
    repeat (destruct Hin as [Hin|Hin]; [discriminate Hin|]). exact Hin. }
  split; [exact Hno|]. split; [vm_compute; reflexivity|].
  exact (aborted_run_returns_nothing (Fixture.browser_of (Fixture.github_site true))
           "github" "full" "India" 5 [] Fixture.blank Hno).
Defined.

(** ** How many profile pages a run asks for *)

Section Budget.

Context {W El : Type} (api : playwright W El).

(** X15: with a cap that is not negative, the GitHub and the Stack Overflow
    pipeline navigate to at most [max_profiles] profile pages after the
    search address, whatever becomes of each page. *)
Theorem sliced_pipelines_keep_to_the_cap query location max_profiles existing_urls
    (w : W) :
  0 ≤ max_profiles →
  Z.of_nat (length (tail (gotos (trace
      (scrape_github_profiles api query location max_profiles existing_urls
         (fresh w)).2)))) ≤ max_profiles
  ∧ Z.of_nat (length (tail (gotos (trace
        (scrape_stackoverflow_profiles api query location max_profiles existing_urls
           (fresh w)).2)))) ≤ max_profiles.
Proof.
  intros Hm. split.
  - refine (session_shape_budget _ (sliced_budget max_profiles) _ _ _ _ Hm).
    eapply scrape_github_profiles_shape; [|apply surjective_pairing]; done.
  - refine (session_shape_budget _ (sliced_budget max_profiles) _ _ _ _ Hm).
    eapply scrape_stackoverflow_profiles_shape; [|apply surjective_pairing]; done.
Qed.

(** X16: with a cap that is not positive, the Behance and the Dev.to
    pipeline navigate to no profile page: the test of the count comes before
    the first navigation. *)
Theorem counted_pipelines_stop_at_once query location max_profiles existing_urls
    (w : W) :
  max_profiles ≤ 0 →
  tail (gotos (trace
    (scrape_behance_profiles api query location max_profiles existing_urls
       (fresh w)).2)) = []
  ∧ tail (gotos (trace
      (scrape_devto_profiles api query max_profiles existing_urls (fresh w)).2)) = [].
Proof.
  intros Hm. split.
  - refine (session_shape_budget _ (counted_budget max_profiles) _ _ _ _ Hm).
    eapply scrape_behance_profiles_shape; [|apply surjective_pairing]; done.
  - refine (session_shape_budget _ (counted_budget max_profiles) _ _ _ _ Hm).
    eapply scrape_devto_profiles_shape; [|apply surjective_pairing]; done.
Qed.

End Budget.

(** On the GitHub listing of the fixture, three candidates and a cap of 1:
    one profile page is asked for. *)
Lemma sliced_pipelines_keep_to_the_cap_witness :
  0 ≤ 1
  ∧ tail (gotos (trace
      (scrape_github_profiles (Fixture.browser_of (Fixture.github_site true))
         "fullstack" "India" 1 [] (fresh Fixture.blank)).2))
    = ["https://github.com/ada"]
  ∧ Z.of_nat (length (tail (gotos (trace
      (scrape_github_profiles (Fixture.browser_of (Fixture.github_site true))
         "fullstack" "India" 1 [] (fresh Fixture.blank)).2)))) ≤ 1.
Proof.
  split; [lia|]. split; [vm_compute; reflexivity|].
  exact (proj1 (sliced_pipelines_keep_to_the_cap
                  (Fixture.browser_of (Fixture.github_site true))
                  "fullstack" "India" 1 [] Fixture.blank ltac:(lia))).
Defined.

(** On the Behance listing of the fixture a cap of 1 leads to two profile
    pages, a cap of 0 to none. *)
Lemma counted_pipelines_stop_at_once_witness :
  0 ≤ 0
  ∧ tail (gotos (trace
      (scrape_behance_profiles (Fixture.browser_of Fixture.behance_site)
         "logo" "Berlin" 1 [] (fresh Fixture.blank)).2))
    = ["https://www.behance.net/ghost"; "https://www.behance.net/ada"]
  ∧ tail (gotos (trace
      (scrape_behance_profiles (Fixture.browser_of Fixture.behance_site)
         "logo" "Berlin" 0 [] (fresh Fixture.blank)).2))
    = [].
Proof.
  split; [lia|]. split; [vm_compute; reflexivity|].
  exact (proj1 (counted_pipelines_stop_at_once
                  (Fixture.browser_of Fixture.behance_site)
                  "logo" "Berlin" 0 [] Fixture.blank ltac:(lia))).
Defined.

(** ** The scan of the markup, match by match *)

(** X17: every match of the GitHub pattern is a slash and a non-empty run
    of the class, so it starts with a slash and holds no other: the test of
    line 108 never fails, and the filter comes down to the length of the
    name and the skip list. *)
Theorem github_matches_have_one_slash content :
  Forall (λ m, Py.startswith "/" m = true
               ∧ Py.count "/" m = 1
               ∧ github_path_ok m
                 = (1 <? Py.len (Py.tail m))
                   && negb (Py.mem (Py.lower (Py.tail m)) github_skip_paths))
    (Py.findall_href "/" content).
Proof.
  eapply Forall_impl; [apply findall_from_shape|].
  intros m (run & -> & Hne & Hrun).
  assert (Hc : Py.count "/" ("/" +:+ run) = 1).
  { change (Py.count "/" ("/" +:+ run)) with (1 + Py.count "/" run).
    by rewrite (count_absent Py.is_slug "/" run Hrun eq_refl). }
  split_and!; [apply (prefix_app "/" run) | exact Hc |].
  unfold github_path_ok. rewrite Hc.
  change (Py.tail ("/" +:+ run)) with run.
  by destruct run.
Qed.

(** X18: every match of the Behance pattern is the prefix and a non-empty
    name of the class; removing the prefix and cutting at [/] and at [?], as
    line 267 does, leaves that name, and the filter of lines 268-270 is a
    test on it. *)
Theorem behance_matches_are_names content :
  Forall (λ m, ∃ name,
            m = "https://www.behance.net/" +:+ name
            ∧ name ≠ ""
            ∧ all_chars Py.is_slug name = true
            ∧ Py.split_head "?"
                (Py.split_head "/" (Py.remove "https://www.behance.net/" m))
              = name
            ∧ behance_path_ok m
              = Py.truthy name && (2 <? Py.len name)
                && negb (Py.mem (Py.lower name) behance_skip_paths)
                && negb (Py.startswith "gallery" name))
    (Py.findall_href "https://www.behance.net/" content).
Proof.
  eapply Forall_impl; [apply findall_from_shape|].
  intros m (name & -> & Hne & Hname). exists name.
  split_and!; try done; [by apply behance_path_of_match | by apply behance_path_ok_name].
Qed.

Section Harvest.

Context {W El : Type} (api : playwright W El).

Implicit Types (s : store W).

(** The loop over the matches [ms]: what it appends comes from the matches
    in their order, and no match that passes the filter [ok] and is not
    already known is left out. *)
Definition harvest (ok : string → bool) (mk : string → string)
    (existing_urls ms : list string) : relation (store W) := λ s s',
  ∃ added,
    profile_urls s' = profile_urls s ++ added
    ∧ added `sublist_of` (mk <$> ms)
    ∧ ∀ m, m ∈ ms → ok m = true → mk m ∉ existing_urls → mk m ∈ profile_urls s'.

Lemma harvest_one ok mk existing_urls m :
  steps (harvest ok mk existing_urls [m])
    (when (ok m) (add_candidate existing_urls (mk m));; mret Continue).
Proof.
  intros s. unfold add_candidate, Py.mem. unfold_monad.
  destruct (ok m) eqn:Hok; simpl.
  - destruct (decide (mk m ∈ profile_urls s)) as [Hin|Hin];
      [rewrite (bool_decide_eq_true_2 _ Hin) | rewrite (bool_decide_eq_false_2 _ Hin)];
      simpl.
    + exists []. rewrite app_nil_r. split_and!; [done | apply sublist_nil_l |].
      by intros m' ->%list_elem_of_singleton _ _.
    + destruct (decide (mk m ∈ existing_urls)) as [Hex|Hex];
        [rewrite (bool_decide_eq_true_2 _ Hex) | rewrite (bool_decide_eq_false_2 _ Hex)];
        simpl.
      * exists []. rewrite app_nil_r. split_and!; [done | apply sublist_nil_l |].
        by intros m' ->%list_elem_of_singleton _ ?.
      * exists [mk m]. split_and!; [done | done |].
        intros m' ->%list_elem_of_singleton _ _. apply elem_of_app. right. constructor.
  - exists []. rewrite app_nil_r. split_and!; [done | apply sublist_nil_l |].
    intros m' ->%list_elem_of_singleton ?. congruence.
Qed.

Lemma harvest_all ok mk existing_urls ms :
  steps (harvest ok mk existing_urls ms)
    (for_each ms (λ m, when (ok m) (add_candidate existing_urls (mk m));; mret Continue)).
Proof.
  assert (Hbody : ∀ m s, ∃ s',
    (when (ok m) (add_candidate existing_urls (mk m));; mret Continue) s
    = (Ok Continue, s') ∧ harvest ok mk existing_urls [m] s s').
  { intros m s. pose proof (harvest_one ok mk existing_urls m s) as H.
    revert H. unfold add_candidate. unfold_monad.
    destruct (ok m); simpl; [|eauto].
    destruct (negb _ && negb _); simpl; eauto. }
  assert (Hnil : ∀ s, harvest ok mk existing_urls [] s s).
  { intros s0. exists []. rewrite app_nil_r.
    split_and!; [done | apply sublist_nil_l | by intros m Hm%elem_of_nil]. }
  assert (Hcons : ∀ m ms' s0 s1 s2,
    harvest ok mk existing_urls [m] s0 s1 → harvest ok mk existing_urls ms' s1 s2 →
    harvest ok mk existing_urls (m :: ms') s0 s2).
  { intros m ms' s0 s1 s2 (a1 & E1 & S1 & C1) (a2 & E2 & S2 & C2).
    exists (a1 ++ a2). rewrite E2, E1, app_assoc. split_and!; [done | |].
    - change (mk <$> m :: ms') with ((mk <$> [m]) ++ (mk <$> ms')). by apply sublist_app.
    - intros m' [->|Hm']%elem_of_cons Hok Hex.
      + rewrite <- app_assoc, app_assoc, <- E1. apply elem_of_app. left.
        apply C1; [constructor | done..].
      + rewrite <- E1, <- E2. by apply C2. }
  intros s.
  destruct (for_each_total (λ m, harvest ok mk existing_urls [m])
              (harvest ok mk existing_urls) ms
              (λ m, when (ok m) (add_candidate existing_urls (mk m));; mret Continue)
              Hnil Hcons Hbody s) as (s' & E & H).
  by rewrite E.
Qed.

(** X19: when the markup of the Behance listing can be read, the candidates
    are matches of the pattern, in the order of the markup, and every match
    that passes the filter and is not in [existing_urls] is a candidate; when
    it cannot, there is no candidate. *)
Theorem behance_scan_is_complete existing_urls s :
  match (pw_content api (world s)).1 with
  | Ok content =>
      profile_urls (behance_discover api existing_urls s).2
      `sublist_of` Py.findall_href "https://www.behance.net/" content
      ∧ ∀ m, m ∈ Py.findall_href "https://www.behance.net/" content →
             behance_path_ok m = true → m ∉ existing_urls →
             m ∈ profile_urls (behance_discover api existing_urls s).2
  | Raise _ => profile_urls (behance_discover api existing_urls s).2 = []
  end.
Proof.
  unfold behance_discover, page_content.
  rewrite run_bind, run_modify, run_bind. unfold call. simpl.
  destruct (pw_content api (world s)) as [[content|e] w]; simpl; [|done].
  match goal with |- context [for_each ?xs ?b ?st] =>
    pose proof (harvest_all behance_path_ok (λ m, m) existing_urls xs st)
      as (added & Hu & Hsub & Hall)
  end.
  simpl in Hu. rewrite list_fmap_id in Hsub. rewrite Hu. split; [done|].
  intros m Hm Hok Hex. specialize (Hall m Hm Hok Hex). by rewrite Hu in Hall.
Qed.

(** X20: when the selector strategies left fewer than three candidates on
    GitHub and the markup can be read, what the scan appends comes from the
    matches of the pattern in the order of the markup, and every match that
    passes the filter is a candidate unless its address is in
    [existing_urls]. *)
Theorem github_scan_is_complete existing_urls s :
  (length (profile_urls s) < 3)%nat →
  match (pw_content api (world s)).1 with
  | Ok content =>
      (∃ added,
         profile_urls (github_regex_fallback api existing_urls s).2
         = profile_urls s ++ added
         ∧ added `sublist_of`
             ((λ m, "https://github.com" +:+ m) <$> Py.findall_href "/" content))
      ∧ ∀ m, m ∈ Py.findall_href "/" content →
             github_path_ok m = true →
             "https://github.com" +:+ m ∉ existing_urls →
             "https://github.com" +:+ m
             ∈ profile_urls (github_regex_fallback api existing_urls s).2
  | Raise _ => profile_urls (github_regex_fallback api existing_urls s).2 = profile_urls s
  end.
Proof.
  intros Hlen. unfold github_regex_fallback, page_content.
  rewrite run_bind, run_get.
  destruct (Z.ltb_spec (Z.of_nat (length (profile_urls s))) 3); [|lia].
  unfold when. rewrite run_bind. unfold call.
  destruct (pw_content api (world s)) as [[content|e] w]; simpl; [|done].
  match goal with |- context [for_each ?xs ?b ?st] =>
    pose proof (harvest_all github_path_ok (λ m, "https://github.com" +:+ m)
                  existing_urls xs st) as (added & Hu & Hsub & Hall)
  end.
  simpl in Hu. split; [by exists added|]. exact Hall.
Qed.

End Harvest.

(** The GitHub listing of the fixture after the selector strategies found
    two candidates: the scan adds [linus] and leaves [settings] out. *)
Lemma github_scan_is_complete_witness :
  (length (profile_urls Fixture.two_candidates) < 3)%nat
  ∧ profile_urls
      (github_regex_fallback (Fixture.browser_of (Fixture.github_site true))
         ["https://github.com/torvalds"] Fixture.two_candidates).2
    = ["https://github.com/ada"; "https://github.com/grace"; "https://github.com/linus"]
  ∧ match (pw_content (Fixture.browser_of (Fixture.github_site true))
             (world Fixture.two_candidates)).1 with
    | Ok content =>
        (∃ added,
           profile_urls
             (github_regex_fallback (Fixture.browser_of (Fixture.github_site true))
                ["https://github.com/torvalds"] Fixture.two_candidates).2
           = profile_urls Fixture.two_candidates ++ added
           ∧ added `sublist_of`
               ((λ m, "https://github.com" +:+ m) <$> Py.findall_href "/" content))
        ∧ ∀ m, m ∈ Py.findall_href "/" content →
               github_path_ok m = true →
               "https://github.com" +:+ m ∉ ["https://github.com/torvalds"] →
               "https://github.com" +:+ m
               ∈ profile_urls
                   (github_regex_fallback (Fixture.browser_of (Fixture.github_site true))
                      ["https://github.com/torvalds"] Fixture.two_candidates).2
    | Raise _ =>
        profile_urls
          (github_regex_fallback (Fixture.browser_of (Fixture.github_site true))
             ["https://github.com/torvalds"] Fixture.two_candidates).2
        = profile_urls Fixture.two_candidates
    end.
Proof.
  assert (Hfew : (length (profile_urls Fixture.two_candidates) < 3)%nat)
    by (vm_compute; lia).
  split; [exact Hfew|]. split; [vm_compute; reflexivity|].
  exact (github_scan_is_complete (Fixture.browser_of (Fixture.github_site true))
           ["https://github.com/torvalds"] Fixture.two_candidates Hfew).
Defined.

(** ** The name of the platform, and the selector strategies *)

(** The selectors handed to [query_selector_all], in order. *)
Definition selectors_queried (t : list event) : list string :=
  omap (λ e, match ev_op e with OpQuerySelectorAll sel => Some sel | _ => None end) t.

(** Reading an attribute of an element. *)
Definition attribute_op (o : op) : bool :=
  match o with OpGetAttribute _ => true | _ => false end.

Lemma selectors_queried_app t1 t2 :
  selectors_queried (t1 ++ t2) = selectors_queried t1 ++ selectors_queried t2.
Proof. apply omap_app. Qed.

Lemma selectors_queried_none evs :
  Forall (λ e, attribute_op (ev_op e) = true) evs → selectors_queried evs = [].
Proof.
  induction 1 as [|[o b] evs Ho _ IH]; [done|].
  change (Event o b :: evs) with ([Event o b] ++ evs).
  rewrite selectors_queried_app, IH, app_nil_r. by destruct o.
Qed.

Section Strategies.

Context {W El : Type} (api : playwright W El).

Implicit Types (s : store W).

(** X21: the platform is recognised whatever its case: a name and its
    lower-case form start the same run. *)
Theorem platform_name_is_case_insensitive
    platform query location max_profiles existing_urls s :
  scrape_profiles api (Py.lower platform) query location max_profiles existing_urls s
  = scrape_profiles api platform query location max_profiles existing_urls s.
Proof. unfold scrape_profiles. cbv zeta. by rewrite lower_idem. Qed.

(** The trace grows by calls that hand the selectors [sels] to
    [query_selector_all], in this order. *)
Definition querying (sels : list string) : relation (store W) := λ s s',
  ∃ evs, trace s' = trace s ++ evs ∧ selectors_queried evs = sels.

(** Lines 90-99, for one selector. *)
Lemma github_strategy_run existing_urls selector s :
  ∃ s',
    try_except
      (links ← page_query_selector_all api selector;
       for_each links (λ link,
         href ← get_attribute api link "href";
         match href with
         | Some h =>
             when (Py.truthy h && Py.startswith "/" h && (Py.count "/" h =? 1))
               (add_candidate existing_urls ("https://github.com" +:+ h))
         | None => mret tt
         end;;
         mret Continue);;
       mret Continue)
      (λ _, mret Continue) s = (Ok Continue, s')
    ∧ querying [selector] s s'.
Proof.
  unfold try_except, page_query_selector_all. rewrite run_bind. unfold call at 1.
  destruct (pw_query_selector_all api selector (world s)) as [[links|e] w]; simpl.
  - set (s1 := set_world w (Event (OpQuerySelectorAll selector) true) s).
    match goal with |- context [for_each links ?f] =>
      assert (Hin : steps (emits attribute_op) (for_each links f))
        by (unfold add_candidate; autounfold with scraper; steps_go fail);
      specialize (Hin s1); rewrite run_bind;
      destruct (for_each links f s1) as [[[]|e] s2]
    end; simpl in *;
      (eexists; split; [reflexivity|]);
      destruct Hin as (evs & Ht & Hevs);
      exists (Event (OpQuerySelectorAll selector) true :: evs);
      (split; [rewrite Ht; simpl; by rewrite <- app_assoc|]);
      change (Event (OpQuerySelectorAll selector) true :: evs)
        with ([Event (OpQuerySelectorAll selector) true] ++ evs);
      by rewrite selectors_queried_app, (selectors_queried_none evs Hevs).
  - eexists. split; [reflexivity|].
    by exists [Event (OpQuerySelectorAll selector) false].
Qed.

(** X22: the selector pass of the GitHub pipeline never raises, and it
    hands each of the four selectors to the page once, in their order,
    whatever the page answers: a strategy that fails does not keep the later
    ones from being tried. *)
Theorem github_tries_every_selector existing_urls s :
  ∃ s' evs,
    github_selector_pass api existing_urls s = (Ok tt, s')
    ∧ trace s' = trace s ++ evs
    ∧ selectors_queried evs = github_selectors.
Proof.
  unfold github_selector_pass. rewrite run_bind, run_modify.
  match goal with |- context [for_each github_selectors ?body ?st] =>
    destruct (for_each_total (λ sel, querying [sel]) querying github_selectors body)
      with (s := st) as (s' & E & evs & Ht & Hq)
  end.
  - intros s0. exists []. by rewrite app_nil_r.
  - intros sel sels s0 s1 s2 (e1 & T1 & Q1) (e2 & T2 & Q2).
    exists (e1 ++ e2). rewrite T2, T1, app_assoc, selectors_queried_app, Q1, Q2. done.
  - intros sel s0. apply github_strategy_run.
  - exists s', evs. by rewrite E.
Qed.

End Strategies.

(** ** Names and skills in the records returned *)

Section Returned.

Context {W El : Type} (api : playwright W El).

Implicit Types (extract : string → M W profile_dict).

(** The records a pipeline returns have a name and come from its
    extractor. *)
Lemma returned_named_and_made existing_urls max_profiles search_url extract tag
    (run : result (list profile_dict) * store W) (s : store W) :
  session_outcome existing_urls max_profiles search_url s run.1 run.2 →
  Forall (made_by extract tag) (profiles run.2) →
  Forall (λ q, fullName q ≠ "" ∧ made_by extract tag q) (returned run).
Proof.
  intros Hout Hmade.
  eapply Forall_returned; [by eapply returned_of_outcome|].
  destruct Hout as (_ & (Hn & _) & _).
  apply Forall_forall. intros q Hq. rewrite Forall_forall in Hn, Hmade. auto.
Qed.

Lemma len_positive x : x ≠ "" → 0 < Py.len x.
Proof. destruct x; [done|]. unfold Py.len. simpl. lia. Qed.

(** X24: the names in the records returned are of 2 to 99 characters on
    Behance and Dev.to, and of 1 to 99 characters on Stack Overflow. *)
Theorem returned_names_per_platform query location max_profiles existing_urls (w : W) :
  Forall (λ q, 1 < Py.len (fullName q) < 100)
    (returned (scrape_behance_profiles api query location max_profiles existing_urls
                 (fresh w)))
  ∧ Forall (λ q, 0 < Py.len (fullName q) < 100)
      (returned (scrape_stackoverflow_profiles api query location max_profiles
                   existing_urls (fresh w)))
  ∧ Forall (λ q, 1 < Py.len (fullName q) < 100)
      (returned (scrape_devto_profiles api query max_profiles existing_urls (fresh w))).
Proof.
  split_and!.
  - eapply Forall_impl.
    + eapply returned_named_and_made; [|apply scrape_behance_profiles_tagged].
      eapply scrape_behance_profiles_outcome; [|apply surjective_pairing]; done.
    + intros q (Hn & s0 & p & s1 & E & ->).
      destruct (behance_name_bounded api _ _ _ _ E) as [He|Hb]; [|exact Hb].
      by destruct Hn.
  - eapply Forall_impl.
    + eapply returned_named_and_made; [|apply scrape_stackoverflow_profiles_tagged].
      eapply scrape_stackoverflow_profiles_outcome; [|apply surjective_pairing]; done.
    + intros q (Hn & s0 & p & s1 & E & ->).
      pose proof (stackoverflow_name_bounded api _ _ _ _ E).
      apply len_positive in Hn. simpl in *. lia.
  - eapply Forall_impl.
    + eapply returned_named_and_made; [|apply scrape_devto_profiles_tagged].
      eapply scrape_devto_profiles_outcome; [|apply surjective_pairing]; done.
    + intros q (Hn & s0 & p & s1 & E & ->).
      destruct (devto_name_bounded api _ _ _ _ E) as [He|Hb]; [|exact Hb].
      by destruct Hn.
Qed.

(** X25: in the records returned no skill is listed twice on GitHub and on
    Stack Overflow, a record has at most 15 skills on Stack Overflow and at
    most 10 on Behance, and no skill at all on Dev.to. *)
Theorem returned_skills_per_platform query location max_profiles existing_urls (w : W) :
  Forall (λ q, NoDup (skills q))
    (returned (scrape_github_profiles api query location max_profiles existing_urls
                 (fresh w)))
  ∧ Forall (λ q, NoDup (skills q) ∧ (length (skills q) ≤ 15)%nat)
      (returned (scrape_stackoverflow_profiles api query location max_profiles
                   existing_urls (fresh w)))
  ∧ Forall (λ q, (length (skills q) ≤ 10)%nat)
      (returned (scrape_behance_profiles api query location max_profiles existing_urls
                   (fresh w)))
  ∧ Forall (λ q, skills q = [])
      (returned (scrape_devto_profiles api query max_profiles existing_urls (fresh w))).
Proof.
  split_and!.
  - eapply Forall_impl.
    + eapply returned_named_and_made; [|apply scrape_github_profiles_tagged].
      eapply scrape_github_profiles_outcome; [|apply surjective_pairing]; done.
    + intros q (_ & s0 & p & s1 & E & ->).
      by destruct (extract_github_profile_skills api _ _ _ _ E).
  - eapply Forall_impl.
    + eapply returned_named_and_made; [|apply scrape_stackoverflow_profiles_tagged].
      eapply scrape_stackoverflow_profiles_outcome; [|apply surjective_pairing]; done.
    + intros q (_ & s0 & p & s1 & E & ->).
      by destruct (extract_stackoverflow_profile_skills api _ _ _ _ E) as (? & ? & _).
  - eapply Forall_impl.
    + eapply returned_named_and_made; [|apply scrape_behance_profiles_tagged].
      eapply scrape_behance_profiles_outcome; [|apply surjective_pairing]; done.
    + intros q (_ & s0 & p & s1 & E & ->).
      by destruct (extract_behance_profile_skills api _ _ _ _ E).
  - eapply Forall_impl.
    + eapply returned_named_and_made; [|apply scrape_devto_profiles_tagged].
      eapply scrape_devto_profiles_outcome; [|apply surjective_pairing]; done.
    + intros q (_ & s0 & p & s1 & E & ->).
      exact (extract_devto_profile_skills api _ _ _ _ E).
Qed.

End Returned.
